(** * LinkedIn profile scraper: a shallow embedding of [scraper.py]

    The development follows the source file top-down:

    - Python values used by the scraper: strings with [lower], [strip] and
      the [in] test, insertion-ordered dictionaries, [json.dumps];
    - the BeautifulSoup side: a parsed document tree, [select], [select_one],
      [get_text] and [get] for the CSS selectors the scraper uses;
    - the Selenium side: a [WebDriver] interface whose calls may raise;
    - [LinkedInScraper]: [login], [scrape_profile], [_expand_sections],
      [scrape_profiles_from_excel] and [close], written in a state and
      exception monad over the scraper object, the logger and the CSV file.

    Real time ([time.sleep]) has no counterpart: a sleep neither raises nor
    touches the state.  Exceptions are the subclasses of [Exception]; the
    strings are sequences of 8-bit characters, read as the code points
    U+0000 to U+00FF. *)

From Stdlib Require Import String Ascii List Bool Arith Lia.
Import ListNotations.
Open Scope string_scope.
Open Scope list_scope.

(* ================================================================== *)
(** ** Python strings *)

Module PyStr.

(** [str.isspace] on one character of the range U+0000 to U+00FF. *)
Definition isspace (c : ascii) : bool :=
  let n := nat_of_ascii c in
  (((9 <=? n) && (n <=? 13)) || ((28 <=? n) && (n <=? 32))
   || (n =? 133) || (n =? 160))%nat.

(** Upper-case letters of the range: A-Z, and U+00C0 to U+00DE but the
    multiplication sign U+00D7. *)
Definition isupper (c : ascii) : bool :=
  let n := nat_of_ascii c in
  (((65 <=? n) && (n <=? 90))
   || ((192 <=? n) && (n <=? 222) && negb (n =? 215)))%nat.

Definition lower_char (c : ascii) : ascii :=
  if isupper c then ascii_of_nat (nat_of_ascii c + 32) else c.

(** [s.lower()] *)
Fixpoint lower (s : string) : string :=
  match s with
  | EmptyString => EmptyString
  | String c s' => String (lower_char c) (lower s')
  end.

(** [s.lstrip()], [s.rstrip()] and [s.strip()] with no argument. *)
Fixpoint lstrip (s : string) : string :=
  match s with
  | EmptyString => EmptyString
  | String c s' => if isspace c then lstrip s' else s
  end.

Fixpoint rstrip (s : string) : string :=
  match s with
  | EmptyString => EmptyString
  | String c s' =>
      match rstrip s' with
      | EmptyString => if isspace c then EmptyString else String c EmptyString
      | r => String c r
      end
  end.

Definition strip (s : string) : string := rstrip (lstrip s).

(** [needle in hay] for two strings. *)
Fixpoint contains (needle hay : string) : bool :=
  String.prefix needle hay
  || match hay with
     | EmptyString => false
     | String _ hay' => contains needle hay'
     end.

(** [sep.join(l)] *)
Fixpoint join (sep : string) (l : list string) : string :=
  match l with
  | [] => EmptyString
  | [s] => s
  | s :: l' => (s ++ sep ++ join sep l')%string
  end.

End PyStr.

(* ================================================================== *)
(** ** Python dictionaries

    A [dict] keeps its keys in insertion order, which [json.dumps] shows;
    assigning to a key that is present keeps the key where it is. *)

Module PyDict.

Section Dict.
Context {V : Type}.

Definition dict := list (string * V).

Definition keys (d : dict) : list string := map fst d.

(** [d.get(k)] *)
Fixpoint get (k : string) (d : dict) : option V :=
  match d with
  | [] => None
  | (k', v) :: d' => if String.eqb k k' then Some v else get k d'
  end.

(** [d[k] = v] *)
Fixpoint set (k : string) (v : V) (d : dict) : dict :=
  match d with
  | [] => [(k, v)]
  | (k', v') :: d' =>
      if String.eqb k k' then (k', v) :: d' else (k', v') :: set k v d'
  end.

(** [k in d] *)
Definition mem (k : string) (d : dict) : bool :=
  match get k d with Some _ => true | None => false end.

(** Assigning a list of entries one after the other. *)
Definition update (es : list (string * V)) (d : dict) : dict :=
  fold_left (fun acc e => set (fst e) (snd e) acc) es d.

End Dict.

Arguments dict : clear implicits.

End PyDict.

Import PyDict.

(* ================================================================== *)
(** ** Values stored in a profile record, and [json.dumps] *)

(** A field of [profile_data] holds a string or a dictionary of strings. *)
Inductive value :=
| VStr (s : string)
| VDict (d : dict string).

Module Json.

Definition dquote : ascii := ascii_of_nat 34.
Definition backslash : ascii := ascii_of_nat 92.

Definition hex_digit (n : nat) : ascii :=
  if (n <? 10)%nat then ascii_of_nat (48 + n) else ascii_of_nat (87 + n).

(** One character under [ensure_ascii=True]: the quote and the backslash
    are escaped, the five short escapes are used, and every other
    character outside the range from the space to the tilde is written as
    a four-digit escape. *)
Definition escape_char (c : ascii) : string :=
  let n := nat_of_ascii c in
  let esc (x : ascii) := String backslash (String x EmptyString) in
  if (n =? 34)%nat then esc dquote
  else if (n =? 92)%nat then esc backslash
  else if (n =? 10)%nat then esc "n"%char
  else if (n =? 13)%nat then esc "r"%char
  else if (n =? 9)%nat then esc "t"%char
  else if (n =? 8)%nat then esc "b"%char
  else if (n =? 12)%nat then esc "f"%char
  else if ((n <? 32) || (126 <? n))%nat then
    String backslash
      (String "u" (String "0" (String "0"
        (String (hex_digit (n / 16)) (String (hex_digit (n mod 16)) EmptyString)))))
  else String c EmptyString.

Fixpoint escape (s : string) : string :=
  match s with
  | EmptyString => EmptyString
  | String c s' => (escape_char c ++ escape s')%string
  end.

Definition dumps_str (s : string) : string :=
  String dquote (escape s ++ String dquote EmptyString)%string.

Definition dumps_dict (d : dict string) : string :=
  ("{" ++ PyStr.join ", "
            (map (fun kv => dumps_str (fst kv) ++ ": " ++ dumps_str (snd kv)) d)
       ++ "}")%string.

(** [json.dumps(v)] with the default separators. *)
Definition dumps (v : value) : string :=
  match v with
  | VStr s => dumps_str s
  | VDict d => dumps_dict d
  end.

End Json.

(* ================================================================== *)
(** ** Exceptions *)

(** The exception classes the scraper can meet; all of them derive from
    [Exception].  The argument is what [str(e)] shows. *)
Inductive exn :=
| TimeoutException (msg : string)
| NoSuchElementException (msg : string)
| WebDriverException (msg : string)
| AttributeError (msg : string)
| KeyError (msg : string)
| TypeError (msg : string)
| ValueError (msg : string).

Definition str (e : exn) : string :=
  match e with
  | TimeoutException m | NoSuchElementException m | WebDriverException m
  | AttributeError m | KeyError m | TypeError m | ValueError m => m
  end.

(** [isinstance(e, TimeoutException)] *)
Definition is_TimeoutException (e : exn) : bool :=
  match e with TimeoutException _ => true | _ => false end.

Inductive result (A : Type) :=
| Ok (a : A)
| Raise (e : exn).

Arguments Ok {A} a.
Arguments Raise {A} e.

(* ================================================================== *)
(** ** BeautifulSoup: the parsed document and its queries *)

Module Soup.

#[local] Set Warnings "-register-all".

(** A parsed page: text nodes and tags.  The [class] attribute is kept
    apart as the list of its tokens, the way BeautifulSoup stores it. *)
Inductive node :=
| NavigableString (s : string)
| Tag (name : string) (classes : list string)
      (attrs : list (string * string)) (contents : list node).

(** A tag together with its chain of parents, nearest first. *)
Record element := { parents : list node; this : node }.

(** The [BeautifulSoup] object itself. *)
Definition document (contents : list node) : element :=
  {| parents := []; this := Tag "[document]" [] [] contents |}.

(** A compound selector ([li.c], [#i], [.c], [a]) and a selector made of
    compounds under the descendant combinator, leftmost first. *)
Record compound :=
  { c_tag : option string; c_id : option string; c_class : option string }.

Definition selector := list compound.

Definition by_class (c : string) : compound :=
  {| c_tag := None; c_id := None; c_class := Some c |}.
Definition by_id (i : string) : compound :=
  {| c_tag := None; c_id := Some i; c_class := None |}.
Definition by_tag (t : string) : compound :=
  {| c_tag := Some t; c_id := None; c_class := None |}.
Definition by_tag_class (t c : string) : compound :=
  {| c_tag := Some t; c_id := None; c_class := Some c |}.

Definition attr (k : string) (n : node) : option string :=
  match n with
  | NavigableString _ => None
  | Tag _ _ attrs _ => PyDict.get k attrs
  end.

Definition matches_compound (c : compound) (n : node) : bool :=
  match n with
  | NavigableString _ => false
  | Tag name classes attrs _ =>
      match c_tag c with Some t => String.eqb t name | None => true end
      && match c_id c with
         | Some i => match PyDict.get "id" attrs with
                     | Some j => String.eqb i j
                     | None => false
                     end
         | None => true
         end
      && match c_class c with
         | Some k => existsb (String.eqb k) classes
         | None => true
         end
  end.

(** The compounds left of the last one, innermost first, against the
    chain of parents: each must be met by a parent above the previous. *)
Fixpoint match_ancestors (cs : list compound) (anc : list node) : bool :=
  match cs with
  | [] => true
  | c :: cs' =>
      (fix find (l : list node) : bool :=
         match l with
         | [] => false
         | a :: l' =>
             if matches_compound c a then match_ancestors cs' l' else find l'
         end) anc
  end.

Definition matches (sel : selector) (e : element) : bool :=
  match rev sel with
  | [] => false
  | c :: cs => matches_compound c (this e) && match_ancestors cs (parents e)
  end.

(** The tags below a node, in document order. *)
Fixpoint descendants (anc : list node) (n : node) : list element :=
  match n with
  | NavigableString _ => []
  | Tag _ _ _ contents =>
      (fix go (l : list node) : list element :=
         match l with
         | [] => []
         | NavigableString _ :: l' => go l'
         | (Tag _ _ _ _ as k) :: l' =>
             {| parents := n :: anc; this := k |}
               :: descendants (n :: anc) k ++ go l'
         end) contents
  end.

(** [e.select(sel)] and [e.select_one(sel)] *)
Definition select (sel : selector) (e : element) : list element :=
  filter (matches sel) (descendants (parents e) (this e)).

Definition select_one (sel : selector) (e : element) : option element :=
  hd_error (select sel e).

(** [e.get_text()] *)
Fixpoint text_of (n : node) : string :=
  match n with
  | NavigableString s => s
  | Tag _ _ _ contents =>
      (fix go (l : list node) : string :=
         match l with
         | [] => EmptyString
         | k :: l' => (text_of k ++ go l')%string
         end) contents
  end.

Definition get_text (e : element) : string := text_of (this e).

(** [e.get(k)] for a single-valued attribute: [None] when it is absent. *)
Definition get (k : string) (e : element) : option string := attr k (this e).

End Soup.

(* ================================================================== *)
(** ** The state and exception monad

    A computation takes the state it runs in and returns the state it
    leaves with a value or a raised exception: what was assigned before
    an exception is raised stays assigned. *)

Definition M (S A : Type) : Type := S -> S * result A.

Definition ret {S A} (a : A) : M S A := fun s => (s, Ok a).

Definition bind {S A B} (m : M S A) (k : A -> M S B) : M S B :=
  fun s =>
    match m s with
    | (s', Ok a) => k a s'
    | (s', Raise e) => (s', Raise e)
    end.

Definition raise {S A} (e : exn) : M S A := fun s => (s, Raise e).

(** [try: m  except Exception as e: h e] *)
Definition try_except {S A} (m : M S A) (h : exn -> M S A) : M S A :=
  fun s =>
    match m s with
    | (s', Ok a) => (s', Ok a)
    | (s', Raise e) => h e s'
    end.

(** [try: m  finally: f] *)
Definition try_finally {S A} (m : M S A) (f : M S unit) : M S A :=
  fun s =>
    match m s with
    | (s', r) =>
        match f s' with
        | (s'', Ok _) => (s'', r)
        | (s'', Raise e) => (s'', Raise e)
        end
    end.

Definition gets {S A} (f : S -> A) : M S A := fun s => (s, Ok (f s)).
Definition modify {S} (f : S -> S) : M S unit := fun s => (f s, Ok tt).

(** Running a computation on the first or on the second half of a pair
    of states. *)
Definition on_fst {S L A} (m : M S A) : M (S * L) A :=
  fun sl => match m (fst sl) with (s', r) => ((s', snd sl), r) end.

Definition on_snd {S L A} (m : M L A) : M (S * L) A :=
  fun sl => match m (snd sl) with (l', r) => ((fst sl, l'), r) end.

(** A block with a local variable that starts as [init]; the variable
    is dropped when the block ends. *)
Definition with_local {S L A} (init : L) (m : M (S * L) A) : M S A :=
  fun s => match m (s, init) with ((s', _), r) => (s', r) end.

(** [for x in l: body x] *)
Fixpoint for_each {S A} (l : list A) (body : A -> M S unit) : M S unit :=
  match l with
  | [] => ret tt
  | x :: l' => bind (body x) (fun _ => for_each l' body)
  end.

Declare Scope monad_scope.
Delimit Scope monad_scope with monad.
Notation "x <- m ;; k" := (bind m (fun x => k))
  (at level 61, m at next level, right associativity) : monad_scope.
Notation "m ;; k" := (bind m (fun _ => k))
  (at level 61, right associativity) : monad_scope.
Open Scope monad_scope.

(* ================================================================== *)
(** ** Selenium: the browser behind the scraper *)

(** [(By.ID, s)] and [(By.CSS_SELECTOR, s)] *)
Inductive locator :=
| By_ID (s : string)
| By_CSS_SELECTOR (s : string).

(** A [WebElement] is a handle into the live page. *)
Definition WebElement := nat.

(** The calls the scraper makes on its driver.  Each may change the
    browser and may raise.  [wait_until_presence] is
    [WebDriverWait(driver, 10).until(EC.presence_of_element_located(loc))],
    [execute_script_click] is
    [driver.execute_script("arguments[0].click();", element)], and
    [page_source] gives the page as [BeautifulSoup(driver.page_source,
    "html.parser")] parses it. *)
Class WebDriver (W : Type) := {
  driver_get : string -> W -> W * result unit;
  wait_until_presence : locator -> W -> W * result unit;
  find_element : locator -> W -> W * result WebElement;
  find_elements : locator -> W -> W * result (list WebElement);
  send_keys : WebElement -> string -> W -> W * result unit;
  click : WebElement -> W -> W * result unit;
  execute_script_click : WebElement -> W -> W * result unit;
  page_source : W -> W * result Soup.element;
  driver_quit : W -> W * result unit
}.

(** The log: one record per call of [logger.info], [logger.warning] or
    [logger.error]. *)
Inductive level := INFO | WARNING | ERROR.

Definition log_record : Type := level * string.

(** The fields of [profile_data], in the order of [fieldnames]. *)
Definition fieldnames : list string :=
  ["LinkedIn URL"; "Name"; "Bio"; "Socials"; "Experience"; "Education";
   "Certifications"; "Projects"].

Definition mapping_fields : list string :=
  ["Socials"; "Experience"; "Education"; "Certifications"; "Projects"].

(* ================================================================== *)
(** ** The field extractors

    The seven [try] bodies of [scrape_profile].  Each reads a parsed page
    and assigns into the local variable [profile_data], so each is a
    computation over that variable. *)

Module Extract.

Import PyStr.

Definition record : Type := dict value.

(** The literal [profile_data] starts from. *)
Definition new_profile_data (profile_url : string) : record :=
  [ ("LinkedIn URL", VStr profile_url);
    ("Name", VStr "");
    ("Bio", VStr "");
    ("Socials", VDict []);
    ("Experience", VDict []);
    ("Education", VDict []);
    ("Certifications", VDict []);
    ("Projects", VDict []) ].

(** [profile_data[k] = v] *)
Definition setitem (k : string) (v : value) : M record unit :=
  modify (PyDict.set k v).

(** [profile_data[k1][k2] = v]: the dictionary under [k1] is looked up,
    then assigned into in place. *)
Definition setitem_in (k1 k2 v : string) : M record unit :=
  fun pd =>
    match PyDict.get k1 pd with
    | None => (pd, Raise (KeyError k1))
    | Some (VStr _) =>
        (pd, Raise (TypeError "'str' object does not support item assignment"))
    | Some (VDict d) =>
        (PyDict.set k1 (VDict (PyDict.set k2 v d)) pd, Ok tt)
    end.

Definition sel_name : Soup.selector :=
  [Soup.by_class "pv-top-card"; Soup.by_class "text-heading-xlarge"].
Definition sel_bio : Soup.selector :=
  [Soup.by_class "pv-top-card"; Soup.by_class "text-body-medium"].
Definition sel_social_links : Soup.selector :=
  [Soup.by_class "pv-contact-info__contact-type"; Soup.by_tag "a"].
Definition sel_experience_section : Soup.selector :=
  [Soup.by_id "experience-section"].
Definition sel_experience_items : Soup.selector :=
  [Soup.by_tag_class "li" "pv-entity__position-group-pager"].
Definition sel_company : Soup.selector :=
  [Soup.by_class "pv-entity__secondary-title"].
Definition sel_role : Soup.selector :=
  [Soup.by_class "pv-entity__primary-title"].
Definition sel_education_section : Soup.selector :=
  [Soup.by_id "education-section"].
Definition sel_education_items : Soup.selector :=
  [Soup.by_tag_class "li" "pv-education-entity"].
Definition sel_school : Soup.selector :=
  [Soup.by_class "pv-entity__school-name"].
Definition sel_degree : Soup.selector :=
  [Soup.by_class "pv-entity__degree-name"; Soup.by_class "pv-entity__comma-item"].
Definition sel_certifications_section : Soup.selector :=
  [Soup.by_id "certifications-section"].
Definition sel_certification_items : Soup.selector :=
  [Soup.by_tag_class "li" "pv-certification-entity"].
Definition sel_certification_name : Soup.selector :=
  [Soup.by_class "pv-certification-name"].
Definition sel_issuer : Soup.selector :=
  [Soup.by_class "pv-certification-entity__issuer"].
Definition sel_projects_section : Soup.selector :=
  [Soup.by_id "projects-section"].
Definition sel_project_items : Soup.selector :=
  [Soup.by_tag_class "li" "pv-accomplishment-entity"].
Definition sel_title : Soup.selector :=
  [Soup.by_class "pv-accomplishment-entity__title"].
Definition sel_description : Soup.selector :=
  [Soup.by_class "pv-accomplishment-entity__description"].

(** [element.get_text().strip()] *)
Definition stripped_text (e : Soup.element) : string :=
  strip (Soup.get_text e).

(** Extract name *)
Definition extract_name (soup : Soup.element) : M record unit :=
  match Soup.select_one sel_name soup with
  | Some name_element => setitem "Name" (VStr (stripped_text name_element))
  | None => ret tt
  end.

(** Extract bio/headline *)
Definition extract_bio (soup : Soup.element) : M record unit :=
  match Soup.select_one sel_bio soup with
  | Some bio_element => setitem "Bio" (VStr (stripped_text bio_element))
  | None => ret tt
  end.

(** What [link_url.lower()] raises when [link_url] is [None]. *)
Definition no_href : exn :=
  AttributeError "'NoneType' object has no attribute 'lower'".

(** The body of the loop over the social links.  A link with no [href]
    has [link_url = None], and the first test raises. *)
Definition social_link (link : Soup.element) : M record unit :=
  let link_text := stripped_text link in
  match Soup.get "href" link with
  | None => raise no_href
  | Some link_url =>
      if contains "twitter" (lower link_url) then
        setitem_in "Socials" "Twitter" link_text
      else if contains "github" (lower link_url) then
        setitem_in "Socials" "GitHub" link_text
      else if contains "facebook" (lower link_url) then
        setitem_in "Socials" "Facebook" link_text
      else if contains "instagram" (lower link_url) then
        setitem_in "Socials" "Instagram" link_text
      else if contains "website" (lower link_url)
              || contains "portfolio" (lower link_url) then
        setitem_in "Socials" "Website" link_url
      else ret tt
  end.

(** Extract social links *)
Definition extract_socials (soup : Soup.element) : M record unit :=
  for_each (Soup.select sel_social_links soup) social_link.

Definition experience_item (item : Soup.element) : M record unit :=
  match Soup.select_one sel_company item, Soup.select_one sel_role item with
  | Some company_element, Some role_element =>
      setitem_in "Experience" (stripped_text company_element)
                 (stripped_text role_element)
  | _, _ => ret tt
  end.

(** Extract experience *)
Definition extract_experience (soup : Soup.element) : M record unit :=
  match Soup.select_one sel_experience_section soup with
  | Some experience_section =>
      for_each (Soup.select sel_experience_items experience_section)
               experience_item
  | None => ret tt
  end.

Definition education_item (item : Soup.element) : M record unit :=
  match Soup.select_one sel_school item with
  | Some school_element =>
      let degree :=
        match Soup.select_one sel_degree item with
        | Some degree_element => stripped_text degree_element
        | None => ""
        end in
      setitem_in "Education" (stripped_text school_element) degree
  | None => ret tt
  end.

(** Extract education *)
Definition extract_education (soup : Soup.element) : M record unit :=
  match Soup.select_one sel_education_section soup with
  | Some education_section =>
      for_each (Soup.select sel_education_items education_section)
               education_item
  | None => ret tt
  end.

Definition certification_item (item : Soup.element) : M record unit :=
  match Soup.select_one sel_certification_name item,
        Soup.select_one sel_issuer item with
  | Some name_element, Some issuer_element =>
      setitem_in "Certifications" (stripped_text issuer_element)
                 (stripped_text name_element)
  | _, _ => ret tt
  end.

(** Extract certifications *)
Definition extract_certifications (soup : Soup.element) : M record unit :=
  match Soup.select_one sel_certifications_section soup with
  | Some certifications_section =>
      for_each (Soup.select sel_certification_items certifications_section)
               certification_item
  | None => ret tt
  end.

Definition project_item (item : Soup.element) : M record unit :=
  match Soup.select_one sel_title item with
  | Some title_element =>
      let description :=
        match Soup.select_one sel_description item with
        | Some description_element => stripped_text description_element
        | None => ""
        end in
      setitem_in "Projects" (stripped_text title_element) description
  | None => ret tt
  end.

(** Extract projects *)
Definition extract_projects (soup : Soup.element) : M record unit :=
  match Soup.select_one sel_projects_section soup with
  | Some projects_section =>
      for_each (Soup.select sel_project_items projects_section) project_item
  | None => ret tt
  end.

End Extract.

(* ================================================================== *)
(** ** [LinkedInScraper] *)

Import Extract.

Section Scraper.

Context {W : Type} `{WebDriver W}.

(** The scraper object ([self]), the log and the rows of the open CSV
    file.  A row is the list of the values written under [fieldnames]. *)
Record state := {
  self_email : string;
  self_password : string;
  self_driver : W;
  self_is_logged_in : bool;
  logger : list log_record;
  csvfile : list (list value)
}.

Definition set_driver (w : W) (s : state) : state :=
  {| self_email := self_email s; self_password := self_password s;
     self_driver := w; self_is_logged_in := self_is_logged_in s;
     logger := logger s; csvfile := csvfile s |}.

Definition set_is_logged_in (b : bool) (s : state) : state :=
  {| self_email := self_email s; self_password := self_password s;
     self_driver := self_driver s; self_is_logged_in := b;
     logger := logger s; csvfile := csvfile s |}.

Definition set_logger (l : list log_record) (s : state) : state :=
  {| self_email := self_email s; self_password := self_password s;
     self_driver := self_driver s; self_is_logged_in := self_is_logged_in s;
     logger := l; csvfile := csvfile s |}.

Definition set_csvfile (c : list (list value)) (s : state) : state :=
  {| self_email := self_email s; self_password := self_password s;
     self_driver := self_driver s; self_is_logged_in := self_is_logged_in s;
     logger := logger s; csvfile := c |}.

(** A call on [self.driver]. *)
Definition call {A} (op : W -> W * result A) : M state A :=
  fun s => match op (self_driver s) with (w, r) => (set_driver w s, r) end.

Definition log (lv : level) (msg : string) : M state unit :=
  modify (fun s => set_logger (logger s ++ [(lv, msg)]) s).

Definition logger_info := log INFO.
Definition logger_warning := log WARNING.
Definition logger_error := log ERROR.

(** Log in to LinkedIn. *)
Definition login : M state unit :=
  try_except
    (logger_info "Logging in to LinkedIn..." ;;
     call (driver_get "https://www.linkedin.com/login") ;;
     call (wait_until_presence (By_ID "username")) ;;
     username <- call (find_element (By_ID "username")) ;;
     email <- gets self_email ;;
     call (send_keys username email) ;;
     password <- call (find_element (By_ID "password")) ;;
     secret <- gets self_password ;;
     call (send_keys password secret) ;;
     submit <- call (find_element (By_CSS_SELECTOR "button[type='submit']")) ;;
     call (click submit) ;;
     call (wait_until_presence (By_CSS_SELECTOR ".feed-identity-module")) ;;
     logger_info "Successfully logged in to LinkedIn" ;;
     modify (set_is_logged_in true))
    (fun e =>
       if is_TimeoutException e then
         logger_error "Timeout while logging in. Check your internet connection or LinkedIn might be detecting automation." ;;
         raise e
       else
         logger_error ("Error during login: " ++ str e) ;;
         raise e).

(** Click the show-more buttons to expand all sections. *)
Definition _expand_sections : M state unit :=
  try_except
    (show_more_buttons <-
       call (find_elements (By_CSS_SELECTOR ".pv-profile-section__see-more-inline")) ;;
     for_each show_more_buttons
       (fun button =>
          try_except (call (execute_script_click button)) (fun _ => ret tt)) ;;
     try_except
       (contact_info_button <-
          call (find_element (By_CSS_SELECTOR ".pv-top-card--list-bullet a")) ;;
        call (execute_script_click contact_info_button))
       (fun _ => ret tt))
    (fun e => logger_warning ("Error expanding sections: " ++ str e)).

(** The frame of one call of [scrape_profile]: the state and the local
    variable [profile_data]. *)
Definition frame : Type := state * record.

(** One guarded extractor: [try: body  except Exception as e:
    logger.warning(...)]. *)
Definition guarded (what : string) (body : M record unit) : M frame unit :=
  try_except (on_snd body)
    (fun e => on_fst (logger_warning ("Error extracting " ++ what ++ ": " ++ str e))).

(** The [try] block of [scrape_profile]. *)
Definition scrape_profile_body (profile_url : string) : M frame record :=
  on_fst (logger_info ("Scraping profile: " ++ profile_url)) ;;
  on_fst (call (driver_get profile_url)) ;;
  on_fst (call (wait_until_presence (By_CSS_SELECTOR ".pv-top-card"))) ;;
  soup <- on_fst (call page_source) ;;
  guarded "name" (extract_name soup) ;;
  guarded "bio" (extract_bio soup) ;;
  guarded "social links" (extract_socials soup) ;;
  on_fst _expand_sections ;;
  soup <- on_fst (call page_source) ;;
  guarded "experience" (extract_experience soup) ;;
  guarded "education" (extract_education soup) ;;
  guarded "certifications" (extract_certifications soup) ;;
  guarded "projects" (extract_projects soup) ;;
  on_fst (logger_info ("Successfully scraped profile: " ++ profile_url)) ;;
  on_snd (gets (fun profile_data => profile_data)).

(** The two [except] clauses of [scrape_profile]. *)
Definition scrape_profile_except (profile_url : string) (e : exn)
  : M frame record :=
  (if is_TimeoutException e then
     on_fst (logger_error ("Timeout while scraping profile: " ++ profile_url))
   else
     on_fst (logger_error ("Error scraping profile " ++ profile_url ++ ": " ++ str e))) ;;
  on_snd (gets (fun profile_data => profile_data)).

(** Scrape a LinkedIn profile and extract relevant information. *)
Definition scrape_profile (profile_url : string) : M state record :=
  logged_in <- gets self_is_logged_in ;;
  (if negb logged_in then login else ret tt) ;;
  with_local (new_profile_data profile_url)
    (try_except (scrape_profile_body profile_url)
                (scrape_profile_except profile_url)).

(** [csv.DictWriter.writerow]: a key outside [fieldnames] raises, a
    missing one is written as the empty string. *)
Definition writerow (rowdict : record) : M state unit :=
  if forallb (fun k => existsb (String.eqb k) fieldnames) (keys rowdict) then
    modify (fun s =>
      set_csvfile
        (csvfile s
         ++ [map (fun k => match PyDict.get k rowdict with
                           | Some v => v
                           | None => VStr ""
                           end) fieldnames]) s)
  else raise (ValueError "dict contains fields not in fieldnames").

Definition writeheader : M state unit :=
  modify (fun s => set_csvfile (csvfile s ++ [map VStr fieldnames]) s).

(** [for field in fields: profile_data[field] = json.dumps(profile_data[field])] *)
Fixpoint dumps_fields (fields : list string) (profile_data : record)
  : M state record :=
  match fields with
  | [] => ret profile_data
  | field :: fields' =>
      match PyDict.get field profile_data with
      | Some v =>
          dumps_fields fields'
            (PyDict.set field (VStr (Json.dumps v)) profile_data)
      | None => raise (KeyError field)
      end
  end.

(** The record written for a profile that failed. *)
Definition empty_data (url : string) : record :=
  [ ("LinkedIn URL", VStr url);
    ("Name", VStr "");
    ("Bio", VStr "");
    ("Socials", VStr "{}");
    ("Experience", VStr "{}");
    ("Education", VStr "{}");
    ("Certifications", VStr "{}");
    ("Projects", VStr "{}") ].

(** The body of the loop over [profile_urls]. *)
Definition scrape_one (url : string) : M state unit :=
  try_except
    (profile_data <- scrape_profile url ;;
     profile_data <- dumps_fields mapping_fields profile_data ;;
     writerow profile_data)
    (fun e =>
       logger_error ("Error processing URL " ++ url ++ ": " ++ str e) ;;
       writerow (empty_data url)).

(** Close the WebDriver. *)
Definition close : M state unit :=
  call driver_quit ;;
  logger_info "WebDriver closed".

(** Scrape multiple LinkedIn profiles.  [excel] is what reading the first
    column of the Excel file gives: the list of URLs, or an exception. *)
Definition scrape_profiles_from_excel
    (excel : result (list string)) (output_csv : string) : M state unit :=
  try_finally
    (try_except
       (profile_urls <- (fun s => (s, excel)) ;;
        modify (set_csvfile []) ;;
        writeheader ;;
        for_each profile_urls scrape_one ;;
        logger_info ("Scraping completed. Results saved to " ++ output_csv))
       (fun e =>
          logger_error ("Error scraping profiles from Excel: " ++ str e) ;;
          raise e))
    close.

End Scraper.

Arguments state W : clear implicits.

(* ================================================================== *)
(** ** What a record holds

    A structurally complete record is the image of eight values: that is
    the shape [new_profile_data] builds and every extractor keeps. *)

Record profile := {
  p_url : string;
  p_name : string;
  p_bio : string;
  p_socials : dict string;
  p_experience : dict string;
  p_education : dict string;
  p_certifications : dict string;
  p_projects : dict string
}.

Definition to_record (p : profile) : record :=
  [ ("LinkedIn URL", VStr (p_url p));
    ("Name", VStr (p_name p));
    ("Bio", VStr (p_bio p));
    ("Socials", VDict (p_socials p));
    ("Experience", VDict (p_experience p));
    ("Education", VDict (p_education p));
    ("Certifications", VDict (p_certifications p));
    ("Projects", VDict (p_projects p)) ].

(** All eight fields are there, under the identifier [url]: the strings
    hold strings and the mappings hold dictionaries. *)
Definition complete (url : string) (pd : record) : Prop :=
  keys pd = fieldnames
  /\ PyDict.get "LinkedIn URL" pd = Some (VStr url)
  /\ (forall f, In f ["Name"; "Bio"] -> exists s, PyDict.get f pd = Some (VStr s))
  /\ (forall f, In f mapping_fields -> exists d, PyDict.get f pd = Some (VDict d)).

(** The same for a record as the batch runner writes it, its mappings
    serialized. *)
Definition complete_row (url : string) (row : list value) : Prop :=
  exists name bio so ex ed ce pr,
    row = [VStr url; VStr name; VStr bio; VStr so; VStr ex; VStr ed;
           VStr ce; VStr pr].

(** The four extractors that run on the page parsed after the expansion. *)
Inductive section := Experience | Education | Certifications | Projects.

Definition field_of (k : section) : string :=
  match k with
  | Experience => "Experience"
  | Education => "Education"
  | Certifications => "Certifications"
  | Projects => "Projects"
  end.

Definition extractor (k : section) : Soup.element -> M record unit :=
  match k with
  | Experience => extract_experience
  | Education => extract_education
  | Certifications => extract_certifications
  | Projects => extract_projects
  end.

Definition item_body (k : section) : Soup.element -> M record unit :=
  match k with
  | Experience => experience_item
  | Education => education_item
  | Certifications => certification_item
  | Projects => project_item
  end.

Definition section_selector (k : section) : Soup.selector :=
  match k with
  | Experience => sel_experience_section
  | Education => sel_education_section
  | Certifications => sel_certifications_section
  | Projects => sel_projects_section
  end.

Definition items_selector (k : section) : Soup.selector :=
  match k with
  | Experience => sel_experience_items
  | Education => sel_education_items
  | Certifications => sel_certification_items
  | Projects => sel_project_items
  end.

(** The entries of a section's region, in document order. *)
Definition section_items (k : section) (soup : Soup.element)
  : list Soup.element :=
  match Soup.select_one (section_selector k) soup with
  | Some region => Soup.select (items_selector k) region
  | None => []
  end.

(** The selectors of the key half and of the value half of an entry. *)
Definition key_selector (k : section) : Soup.selector :=
  match k with
  | Experience => sel_company
  | Education => sel_school
  | Certifications => sel_issuer
  | Projects => sel_title
  end.

Definition value_selector (k : section) : Soup.selector :=
  match k with
  | Experience => sel_role
  | Education => sel_degree
  | Certifications => sel_certification_name
  | Projects => sel_description
  end.

(** Whether an entry needs its value half too. *)
Definition value_required (k : section) : bool :=
  match k with
  | Experience | Certifications => true
  | Education | Projects => false
  end.

(** What one entry adds to its mapping: a key and a value, or nothing. *)
Definition item_entry (k : section) (item : Soup.element)
  : option (string * string) :=
  match Soup.select_one (key_selector k) item,
        Soup.select_one (value_selector k) item with
  | Some key_element, Some value_element =>
      Some (stripped_text key_element, stripped_text value_element)
  | Some key_element, None =>
      if value_required k then None else Some (stripped_text key_element, "")
  | None, _ => None
  end.

Fixpoint filter_map {A B} (f : A -> option B) (l : list A) : list B :=
  match l with
  | [] => []
  | x :: l' =>
      match f x with
      | Some y => y :: filter_map f l'
      | None => filter_map f l'
      end
  end.

Definition section_entries (k : section) (soup : Soup.element)
  : list (string * string) :=
  filter_map (item_entry k) (section_items k soup).

Definition field (k : section) (p : profile) : dict string :=
  match k with
  | Experience => p_experience p
  | Education => p_education p
  | Certifications => p_certifications p
  | Projects => p_projects p
  end.

Definition with_field (k : section) (d : dict string) (p : profile) : profile :=
  {| p_url := p_url p; p_name := p_name p; p_bio := p_bio p;
     p_socials := p_socials p;
     p_experience := match k with Experience => d | _ => p_experience p end;
     p_education := match k with Education => d | _ => p_education p end;
     p_certifications :=
       match k with Certifications => d | _ => p_certifications p end;
     p_projects := match k with Projects => d | _ => p_projects p end |}.

Definition with_socials (d : dict string) (p : profile) : profile :=
  {| p_url := p_url p; p_name := p_name p; p_bio := p_bio p;
     p_socials := d; p_experience := p_experience p;
     p_education := p_education p; p_certifications := p_certifications p;
     p_projects := p_projects p |}.

Definition with_name (s : string) (p : profile) : profile :=
  {| p_url := p_url p; p_name := s; p_bio := p_bio p;
     p_socials := p_socials p; p_experience := p_experience p;
     p_education := p_education p; p_certifications := p_certifications p;
     p_projects := p_projects p |}.

Definition with_bio (s : string) (p : profile) : profile :=
  {| p_url := p_url p; p_name := p_name p; p_bio := s;
     p_socials := p_socials p; p_experience := p_experience p;
     p_education := p_education p; p_certifications := p_certifications p;
     p_projects := p_projects p |}.

Definition new_profile (url : string) : profile :=
  {| p_url := url; p_name := ""; p_bio := ""; p_socials := [];
     p_experience := []; p_education := []; p_certifications := [];
     p_projects := [] |}.

(** The text a single-node extractor finds on a page, if any. *)
Definition text_at (sel : Soup.selector) (soup : Soup.element)
  : option string :=
  option_map stripped_text (Soup.select_one sel soup).

(** The social links of a page, in document order. *)
Definition social_links (soup : Soup.element) : list Soup.element :=
  Soup.select sel_social_links soup.

(** The known labels in the order they are tried: the substrings looked
    for, the key recorded, and whether the value is the URL rather than
    the text of the link. *)
Definition known_labels : list (list string * string * bool) :=
  [ (["twitter"], "Twitter", false);
    (["github"], "GitHub", false);
    (["facebook"], "Facebook", false);
    (["instagram"], "Instagram", false);
    (["website"; "portfolio"], "Website", true) ].

(** First match wins: the entry of the first label one of whose
    substrings occurs in the lower-cased URL. *)
Definition classify (link_text link_url : string) : option (string * string) :=
  match find (fun l => existsb (fun n => PyStr.contains n (PyStr.lower link_url))
                               (fst (fst l))) known_labels with
  | Some (_, key, use_url) => Some (key, if use_url then link_url else link_text)
  | None => None
  end.

(** The entries of the links up to the first one with no [href]. *)
Fixpoint classified (links : list Soup.element) : list (string * string) :=
  match links with
  | [] => []
  | link :: links' =>
      match Soup.get "href" link with
      | None => []
      | Some link_url =>
          match classify (stripped_text link) link_url with
          | Some e => e :: classified links'
          | None => classified links'
          end
      end
  end.

Definition has_href (link : Soup.element) : bool :=
  match Soup.get "href" link with Some _ => true | None => false end.

(** The record after the three extractors of the first page and after the
    four of the second, whatever they raise being dropped as the guards
    do. *)
Definition absorb (m : M record unit) (pd : record) : record := fst (m pd).

Definition extract_first (soup : Soup.element) (pd : record) : record :=
  absorb (extract_socials soup)
    (absorb (extract_bio soup) (absorb (extract_name soup) pd)).

Definition extract_second (soup : Soup.element) (pd : record) : record :=
  absorb (extract_projects soup)
    (absorb (extract_certifications soup)
       (absorb (extract_education soup)
          (absorb (extract_experience soup) pd))).

(** The field-extraction stage of [scrape_profile] on the two snapshots. *)
Definition extract_all (soup1 soup2 : Soup.element) (pd : record) : record :=
  extract_second soup2 (extract_first soup1 pd).

(** The profile after the three extractors of the first page. *)
Definition after_first (soup : Soup.element) (p : profile) : profile :=
  let p1 := match text_at sel_name soup with
            | Some s => with_name s p
            | None => p
            end in
  let p2 := match text_at sel_bio soup with
            | Some s => with_bio s p1
            | None => p1
            end in
  with_socials (update (classified (social_links soup)) (p_socials p2)) p2.

Definition after_section (k : section) (soup : Soup.element) (p : profile)
  : profile :=
  with_field k (update (section_entries k soup) (field k p)) p.

(** The profile after the four extractors of the second page. *)
Definition after_second (soup : Soup.element) (p : profile) : profile :=
  after_section Projects soup
    (after_section Certifications soup
       (after_section Education soup (after_section Experience soup p))).

(** Every mapping of the profile has its keys once. *)
Definition unique_keys (p : profile) : Prop :=
  NoDup (keys (p_socials p))
  /\ forall k, NoDup (keys (field k p)).


(** The record of a profile once the batch runner has serialized its
    mappings, and the row written for it. *)
Definition serialized (p : profile) : record :=
  [ ("LinkedIn URL", VStr (p_url p));
    ("Name", VStr (p_name p));
    ("Bio", VStr (p_bio p));
    ("Socials", VStr (Json.dumps (VDict (p_socials p))));
    ("Experience", VStr (Json.dumps (VDict (p_experience p))));
    ("Education", VStr (Json.dumps (VDict (p_education p))));
    ("Certifications", VStr (Json.dumps (VDict (p_certifications p))));
    ("Projects", VStr (Json.dumps (VDict (p_projects p)))) ].

Definition row_of (p : profile) : list value := map snd (serialized p).

(** The row of a profile with nothing but its identifier. *)
Definition empty_row (url : string) : list value :=
  [VStr url; VStr ""; VStr ""; VStr "{}"; VStr "{}"; VStr "{}"; VStr "{}";
   VStr "{}"].


(** An entry misses a field its section requires: its key half, or its
    value half where the section asks for both. *)
Definition lacks_required (k : section) (item : Soup.element) : Prop :=
  Soup.select_one (key_selector k) item = None
  \/ (value_required k = true
      /\ Soup.select_one (value_selector k) item = None).


(* ================================================================== *)
(** ** Reasoning about runs *)

(** From a state where [P] holds, [m] ends in a state where [Q] holds of
    its value, or raises in a state where [E] holds of the exception. *)
Definition triple {S A} (P : S -> Prop) (m : M S A)
    (Q : S -> A -> Prop) (E : S -> exn -> Prop) : Prop :=
  forall s, P s ->
    match m s with
    | (s', Ok a) => Q s' a
    | (s', Raise e) => E s' e
    end.

(** [m] keeps [P] whether it returns or raises. *)
Definition steady {S A} (P : S -> Prop) (m : M S A) : Prop :=
  triple P m (fun s _ => P s) (fun s _ => P s).

(** [m] never raises. *)
Definition total {S A} (m : M S A) : Prop :=
  forall s, exists a, snd (m s) = Ok a.

(** A property of both halves of a pair of states. *)
Definition both {S L} (J : S -> Prop) (K : L -> Prop) (sl : S * L) : Prop :=
  J (fst sl) /\ K (snd sl).

(** The records that are the image of a profile of identifier [url]. *)
Definition shaped (url : string) (pd : record) : Prop :=
  exists p, pd = to_record p /\ p_url p = url.

Definition login_message : string := "Logging in to LinkedIn...".

(** The number of login attempts a log shows. *)
Definition login_attempts (l : list log_record) : nat :=
  length (filter (fun r => String.eqb (snd r) login_message) l).

Section Runs.

Context {W : Type} `{WebDriver W}.

(** A property of the state that a call on the driver and a log record
    other than the one of a login attempt leave alone. *)
Definition quiet (J : state W -> Prop) : Prop :=
  (forall w s, J s -> J (set_driver w s))
  /\ (forall lv msg s, msg <> login_message ->
        J s -> J (set_logger (logger s ++ [(lv, msg)]) s)).

(** The states with a given CSV file, login flag and number of login
    attempts. *)
Definition kept (c : list (list value)) (b : bool) (n : nat) (s : state W)
  : Prop :=
  csvfile s = c /\ self_is_logged_in s = b /\ login_attempts (logger s) = n.

(** A property that assigning [self.is_logged_in] leaves alone too. *)
Definition calm (J : state W -> Prop) : Prop :=
  quiet J /\ (forall b s, J s -> J (set_is_logged_in b s)).

(** A computation whose outcome and whose effect on the browser depend on
    the browser only. *)
Definition driver_determined {A} (m : M (state W) A) : Prop :=
  forall s s', self_driver s = self_driver s' ->
    self_driver (fst (m s)) = self_driver (fst (m s')) /\ snd (m s) = snd (m s').

(** The browser [_expand_sections] leaves, which depends on the browser
    it finds only. *)
Definition probe (w : W) : state W :=
  {| self_email := ""; self_password := ""; self_driver := w;
     self_is_logged_in := true; logger := []; csvfile := [] |}.

Definition driver_after_expand (w : W) : W :=
  self_driver (fst (_expand_sections (probe w))).

(** The frames of [scrape_profile] whose browser is [w] and whose
    [profile_data] is [pd]. *)
Definition at_frame (w : W) (pd : record) (fr : frame (W := W)) : Prop :=
  self_driver (fst fr) = w /\ snd fr = pd.

(** Both pages of a profile load on the browser [w]: the navigation and
    the wait for the top card return, the first snapshot is [soup1], and
    the second, taken on the browser [_expand_sections] leaves, is
    [soup2] and leaves the browser [w']. *)
Definition page_loads (url : string) (w : W) (soup1 soup2 : Soup.element)
    (w' : W) : Prop :=
  exists w1 w2 w3,
    driver_get url w = (w1, Ok tt)
    /\ wait_until_presence (By_CSS_SELECTOR ".pv-top-card") w1 = (w2, Ok tt)
    /\ page_source w2 = (w3, Ok soup1)
    /\ page_source (driver_after_expand w3) = (w', Ok soup2).

(** The synchronization of a profile fails on the browser [w]: the
    navigation raises, or the wait for the top card does. *)
Definition sync_fails (url : string) (w : W) : Prop :=
  (exists w1 e, driver_get url w = (w1, Raise e))
  \/ (exists w1 w2 e,
         driver_get url w = (w1, Ok tt)
         /\ wait_until_presence (By_CSS_SELECTOR ".pv-top-card") w1
            = (w2, Raise e)).

(** The session check of [scrape_profile] passes from [s] to [s1]: the
    scraper is logged in already, or [login] returns. *)
Definition session_ready (s s1 : state W) : Prop :=
  (self_is_logged_in s = true /\ s1 = s)
  \/ (self_is_logged_in s = false /\ login s = (s1, Ok tt)).

End Runs.

(* ================================================================== *)
(** ** A scripted browser

    A small browser to run the scraper on: a site of pages, each as it
    loads and as it stands once something was clicked, and the outcomes
    of the login attempts to come. *)

Module Sim.

Record browser := {
  site : list (string * (Soup.element * Soup.element));
  logins : list bool;
  location : string;
  clicked : bool
}.

Definition timeout : exn := TimeoutException "Message: ".

Definition goto (url : string) (b : browser) : browser :=
  {| site := site b; logins := logins b; location := url; clicked := false |}.

Definition wait (loc : locator) (b : browser) : browser * result unit :=
  match loc with
  | By_ID _ => (b, Ok tt)
  | By_CSS_SELECTOR sel =>
      if String.eqb sel ".feed-identity-module" then
        match logins b with
        | true :: rest =>
            ({| site := site b; logins := rest;
                location := "https://www.linkedin.com/feed/";
                clicked := false |}, Ok tt)
        | false :: rest =>
            ({| site := site b; logins := rest; location := location b;
                clicked := clicked b |}, Raise timeout)
        | [] => (b, Raise timeout)
        end
      else
        match PyDict.get (location b) (site b) with
        | Some _ => (b, Ok tt)
        | None => (b, Raise timeout)
        end
  end.

Definition press (b : browser) : browser :=
  {| site := site b; logins := logins b; location := location b;
     clicked := true |}.

Definition source (b : browser) : Soup.element :=
  match PyDict.get (location b) (site b) with
  | Some (loaded, expanded) => if clicked b then expanded else loaded
  | None => Soup.document []
  end.

#[global] Instance driver : WebDriver browser := {
  driver_get url b := (goto url b, Ok tt);
  wait_until_presence := wait;
  find_element _ b := (b, Ok 0);
  find_elements _ b := (b, Ok [1; 2]);
  send_keys _ _ b := (b, Ok tt);
  click _ b := (b, Ok tt);
  execute_script_click _ b := (press b, Ok tt);
  page_source b := (b, Ok (source b));
  driver_quit b := (b, Ok tt)
}.

(** A fresh scraper, as [__init__] leaves it, on a browser. *)
Definition scraper (b : browser) : state browser :=
  {| self_email := "your_email@example.com";
     self_password := "your_password";
     self_driver := b; self_is_logged_in := false;
     logger := []; csvfile := [] |}.

Definition open (pages : list (string * (Soup.element * Soup.element)))
    (outcomes : list bool) : browser :=
  {| site := pages; logins := outcomes; location := "about:blank";
     clicked := false |}.

(** Building blocks of pages. *)
Definition txt (s : string) : Soup.node := Soup.NavigableString s.

Definition div (classes : list string) (contents : list Soup.node)
  : Soup.node :=
  Soup.Tag "div" classes [] contents.

Definition span (classes : list string) (contents : list Soup.node)
  : Soup.node :=
  Soup.Tag "span" classes [] contents.

Definition sect (id : string) (contents : list Soup.node) : Soup.node :=
  Soup.Tag "section" [] [("id", id)] contents.

Definition li (classes : list string) (contents : list Soup.node)
  : Soup.node :=
  Soup.Tag "li" classes [] contents.

Definition anchor (href : option string) (text : string) : Soup.node :=
  Soup.Tag "a" []
    (match href with Some u => [("href", u)] | None => [] end) [txt text].

Definition top_card (name bio : string) : Soup.node :=
  div ["pv-top-card"]
    [ Soup.Tag "h1" ["text-heading-xlarge"] [] [txt name];
      div ["text-body-medium"] [txt bio] ].

Definition contact_info (links : list Soup.node) : Soup.node :=
  sect "contact" [div ["pv-contact-info__contact-type"] links].

Definition position (company role : option string) : Soup.node :=
  li ["pv-entity__position-group-pager"]
    ((match role with
      | Some r => [Soup.Tag "h3" ["pv-entity__primary-title"] [] [txt r]]
      | None => []
      end)
     ++ (match company with
         | Some c => [Soup.Tag "p" ["pv-entity__secondary-title"] [] [txt c]]
         | None => []
         end)).

Definition experience_section (positions : list Soup.node) : Soup.node :=
  sect "experience-section" [Soup.Tag "ul" [] [] positions].

(** A profile whose page shows more once expanded.  Its second contact
    link has no [href]. *)
Definition ada_url : string := "https://www.linkedin.com/in/ada".

Definition ada_links : list Soup.node :=
  [ anchor (Some "https://Twitter.com/ada") " @ada ";
    anchor None "mail";
    anchor (Some "https://github.com/ada") "ada" ].

Definition ada_loaded : Soup.element :=
  Soup.document
    [ top_card "Ada" "Analyst";
      contact_info ada_links;
      experience_section
        [position (Some "Babbage & Co") (Some "Programmer")] ].

Definition ada_expanded : Soup.element :=
  Soup.document
    [ top_card "Ada Lovelace" "Analyst and Metaphysician";
      contact_info ada_links;
      experience_section
        [ position (Some "Babbage & Co") (Some "Programmer");
          position None (Some "Translator");
          position (Some "Babbage & Co") (Some "Analyst") ] ].

Definition ada_site : list (string * (Soup.element * Soup.element)) :=
  [(ada_url, (ada_loaded, ada_expanded))].

(** A scraper whose login goes through, one whose login times out, and
    one whose login times out once. *)
Definition online : state browser := scraper (open ada_site [true]).

(** The browser once a login went through, and the scraper then. *)
Definition feed : browser :=
  {| site := ada_site; logins := [];
     location := "https://www.linkedin.com/feed/"; clicked := false |}.

Definition signed_in : state browser :=
  {| self_email := "your_email@example.com";
     self_password := "your_password";
     self_driver := feed;
     self_is_logged_in := true;
     logger := [ (INFO, "Logging in to LinkedIn...");
                 (INFO, "Successfully logged in to LinkedIn") ];
     csvfile := [] |}.

(** The browser once the page of [ada_url] was loaded and expanded. *)
Definition on_ada : browser := goto ada_url (open ada_site []).
Definition on_ada_expanded : browser := press on_ada.
Definition offline : state browser := scraper (open ada_site []).
Definition flaky : state browser := scraper (open ada_site [false; true]).

(** A tag on its own, as an element. *)
Definition alone (n : Soup.node) : Soup.element :=
  {| Soup.parents := []; Soup.this := n |}.

End Sim.

(* ================================================================== *)
(** ** Starting the browser, and the entry point *)

Section Launch.

Context {W : Type} `{WebDriver W}.

(** [webdriver.Chrome(service=Service(ChromeDriverManager().install()),
    options=chrome_options)]: the browser that starts for a list of
    arguments, or what installing or starting it raises. *)
Variable Chrome : list string -> result W.

(** The arguments [_setup_driver] adds to [chrome_options]. *)
Definition chrome_arguments (headless : bool) : list string :=
  (if headless then ["--headless"] else [])
  ++ ["--no-sandbox"; "--disable-dev-shm-usage"; "--window-size=1920,1080";
      "--disable-notifications"; "--disable-popup-blocking"].

(** Set up the Selenium WebDriver with appropriate options. *)
Definition _setup_driver (headless : bool) : result W :=
  Chrome (chrome_arguments headless).

(** [LinkedInScraper(email, password, headless)], in a process whose log
    is [log0] and that has written no CSV file yet. *)
Definition __init__ (email password : string) (headless : bool)
    (log0 : list log_record) : result (state W) :=
  match _setup_driver headless with
  | Ok driver =>
      Ok {| self_email := email; self_password := password;
            self_driver := driver; self_is_logged_in := false;
            logger := log0; csvfile := [] |}
  | Raise e => Raise e
  end.

Definition EMAIL : string := "your_email@example.com".
Definition PASSWORD : string := "your_password".
Definition OUTPUT_CSV : string := "scraped_output.csv".

(** Main function to run the LinkedIn scraper: the scraper it leaves, if
    one was made, and the log.  [excel] is what reading [EXCEL_FILE]
    gives. *)
Definition main (excel : result (list string)) (log0 : list log_record)
  : option (state W) * list log_record :=
  match __init__ EMAIL PASSWORD false log0 with
  | Ok scraper =>
      match try_except (scrape_profiles_from_excel excel OUTPUT_CSV)
              (fun e => logger_error ("Error in main function: " ++ str e))
              scraper with
      | (s', _) => (Some s', logger s')
      end
  | Raise e => (None, log0 ++ [(ERROR, ("Error in main function: " ++ str e)%string)])
  end.

End Launch.

(* ================================================================== *)
(** ** What [_expand_sections] does to the browser *)

Section Clicks.

Context {W : Type} `{WebDriver W}.

(** Every button clicked in turn, whether the click raises or not. *)
Definition click_all (buttons : list WebElement) (w : W) : W :=
  fold_left (fun w' button => fst (execute_script_click button w')) buttons w.

(** The contact-info link looked for, and clicked if it is found. *)
Definition open_contact_info (w : W) : W :=
  match find_element (By_CSS_SELECTOR ".pv-top-card--list-bullet a") w with
  | (w1, Ok contact_info_button) =>
      fst (execute_script_click contact_info_button w1)
  | (w1, Raise _) => w1
  end.

End Clicks.

(* ================================================================== *)
(** ** A browser that has crashed

    Every call on it raises, but [quit]. *)

Module Crashed.

Definition gone : exn := WebDriverException "Message: chrome not reachable".

#[global] Instance driver : WebDriver unit := {
  driver_get _ w := (w, Raise gone);
  wait_until_presence _ w := (w, Raise gone);
  find_element _ w := (w, Raise gone);
  find_elements _ w := (w, Raise gone);
  send_keys _ _ w := (w, Raise gone);
  click _ w := (w, Raise gone);
  execute_script_click _ w := (w, Raise gone);
  page_source w := (w, Raise gone);
  driver_quit w := (w, Ok tt)
}.

Definition scraper : state unit :=
  {| self_email := "your_email@example.com";
     self_password := "your_password";
     self_driver := tt; self_is_logged_in := false;
     logger := []; csvfile := [] |}.

End Crashed.

(* ================================================================== *)
(** ** A browser whose page goes stale

    The page loads, but once something was clicked its source cannot be
    read any more.  The state is whether something was clicked. *)

Module Stale.

Definition stale : exn :=
  WebDriverException "Message: stale element reference".

#[global] Instance driver : WebDriver bool := {
  driver_get _ _ := (false, Ok tt);
  wait_until_presence _ b := (b, Ok tt);
  find_element _ b := (b, Ok 0);
  find_elements _ b := (b, Ok [1]);
  send_keys _ _ b := (b, Ok tt);
  click _ b := (b, Ok tt);
  execute_script_click _ _ := (true, Ok tt);
  page_source b := if b then (b, Raise stale) else (b, Ok Sim.ada_loaded);
  driver_quit b := (b, Ok tt)
}.

Definition scraper : state bool :=
  {| self_email := "your_email@example.com";
     self_password := "your_password";
     self_driver := false; self_is_logged_in := true;
     logger := []; csvfile := [] |}.

End Stale.

(* ================================================================== *)
(** * Properties *)

(** ** Strings *)

Module PyStrFacts.

Import PyStr.

Lemma prefix_iff (n h : string) :
  String.prefix n h = true <-> exists b, h = (n ++ b)%string.
Proof.
  revert h; induction n as [|c n IH]; intros [|c' h]; simpl.
  - split; [intros _; now exists EmptyString | reflexivity].
  - split; [intros _; now exists (String c' h) | reflexivity].
  - split; [discriminate | intros [b Hb]; discriminate].
  - destruct (Ascii.ascii_dec c c') as [->|Hne].
    + rewrite IH. split; intros [b Hb]; exists b; [now subst | now inversion Hb].
    + split; [discriminate | intros [b Hb]; inversion Hb; congruence].
Qed.

(** [needle in hay] holds exactly when [hay] has [needle] as a substring. *)
Lemma contains_iff (n h : string) :
  contains n h = true <-> exists a b, h = (a ++ n ++ b)%string.
Proof.
  induction h as [|c h IH].
  - cbn [contains]. rewrite orb_false_r, prefix_iff. split.
    + intros [b Hb]. now exists EmptyString, b.
    + intros [a [b Hb]]. destruct a; simpl in Hb; [now exists b | discriminate].
  - cbn [contains]. rewrite orb_true_iff, prefix_iff, IH. split.
    + intros [[b Hb] | [a [b Hb]]].
      * now exists EmptyString, b.
      * exists (String c a), b. simpl. now rewrite Hb.
    + intros [a [b Hb]]. destruct a as [|c' a]; simpl in Hb.
      * left. now exists b.
      * right. inversion Hb. now exists a, b.
Qed.

Lemma lower_app (a b : string) :
  lower (a ++ b) = (lower a ++ lower b)%string.
Proof. induction a as [|c a IH]; simpl; [reflexivity | now rewrite IH]. Qed.

(** A substring that lower-cases to [n] makes [n in url.lower()] hold:
    the test does not see the case of the URL. *)
Lemma contains_any_case (n a x b : string) :
  lower x = n -> contains n (lower (a ++ x ++ b)) = true.
Proof.
  intros <-. rewrite !lower_app. apply contains_iff. now exists (lower a), (lower b).
Qed.

End PyStrFacts.

(** ** Dictionaries *)

Module PyDictFacts.

Section Facts.
Context {V : Type}.
Implicit Types (d : dict V) (k : string) (v : V).

Lemma get_set_eq k v d : PyDict.get k (PyDict.set k v d) = Some v.
Proof.
  induction d as [|[k' v'] d IH]; simpl.
  - now rewrite String.eqb_refl.
  - destruct (String.eqb k k') eqn:E; simpl; rewrite E; [reflexivity | exact IH].
Qed.

Lemma get_set_neq k k' v d :
  k <> k' -> PyDict.get k' (PyDict.set k v d) = PyDict.get k' d.
Proof.
  intros Hne. induction d as [|[k0 v0] d IH]; simpl.
  - destruct (String.eqb k' k) eqn:E; [|reflexivity].
    apply String.eqb_eq in E. congruence.
  - destruct (String.eqb k k0) eqn:E; simpl.
    + apply String.eqb_eq in E. subst k0.
      destruct (String.eqb k' k) eqn:E'; [|reflexivity].
      apply String.eqb_eq in E'. congruence.
    + now rewrite IH.
Qed.

Lemma get_set k k' v d :
  PyDict.get k' (PyDict.set k v d)
  = if String.eqb k' k then Some v else PyDict.get k' d.
Proof.
  destruct (String.eqb k' k) eqn:E.
  - apply String.eqb_eq in E. subst. apply get_set_eq.
  - apply String.eqb_neq in E. apply get_set_neq. congruence.
Qed.

Lemma get_In k d : PyDict.get k d <> None <-> In k (keys d).
Proof.
  induction d as [|[k' v'] d IH]; simpl.
  - split; [congruence | tauto].
  - destruct (String.eqb k k') eqn:E.
    + apply String.eqb_eq in E. subst. split; [now left | congruence].
    + apply String.eqb_neq in E. rewrite IH. split; [now right | intros [?|?]; congruence].
Qed.

Lemma keys_set_present k v d :
  In k (keys d) -> keys (PyDict.set k v d) = keys d.
Proof.
  induction d as [|[k' v'] d IH]; simpl; [tauto|].
  destruct (String.eqb k k') eqn:E; simpl; [reflexivity|].
  apply String.eqb_neq in E. intros [?|Hin]; [congruence|].
  f_equal. now apply IH.
Qed.

Lemma keys_set_absent k v d :
  ~ In k (keys d) -> keys (PyDict.set k v d) = keys d ++ [k].
Proof.
  induction d as [|[k' v'] d IH]; simpl; [reflexivity|].
  intros Hnin. destruct (String.eqb k k') eqn:E.
  - apply String.eqb_eq in E. subst. exfalso. apply Hnin. now left.
  - simpl. f_equal. apply IH. tauto.
Qed.

Lemma In_keys_set k k' v d :
  In k' (keys (PyDict.set k v d)) <-> k' = k \/ In k' (keys d).
Proof.
  rewrite <- !get_In, get_set.
  destruct (String.eqb k' k) eqn:E.
  - apply String.eqb_eq in E. split; [now left | congruence].
  - apply String.eqb_neq in E. tauto.
Qed.

Lemma NoDup_set k v d : NoDup (keys d) -> NoDup (keys (PyDict.set k v d)).
Proof.
  intros Hnd. destruct (in_dec string_dec k (keys d)) as [Hin|Hnin].
  - now rewrite keys_set_present.
  - rewrite keys_set_absent by assumption.
    apply NoDup_app; [assumption | repeat constructor; tauto |].
    intros x Hx [<-|[]]. contradiction.
Qed.

(** Two dictionaries with the same keys in the same order and the same
    value under each are the same. *)
Lemma dict_ext d d' :
  NoDup (keys d) -> keys d = keys d' ->
  (forall k, PyDict.get k d = PyDict.get k d') -> d = d'.
Proof.
  revert d'. induction d as [|[k v] d IH]; intros [|[k' v'] d'] Hnd Hk Hg;
    try discriminate; [reflexivity|].
  simpl in Hk. injection Hk as -> Hk.
  pose proof (Hg k') as Hk'. simpl in Hk'. rewrite String.eqb_refl in Hk'.
  injection Hk' as ->.
  inversion Hnd as [|? ? Hnin Hnd']; subst.
  f_equal. apply IH; [assumption | assumption |].
  intros k. specialize (Hg k). simpl in Hg.
  destruct (String.eqb k k') eqn:E; [|exact Hg].
  apply String.eqb_eq in E. subst k.
  assert (PyDict.get k' d = None) as ->.
  { destruct (PyDict.get k' d) eqn:G; [|reflexivity].
    exfalso. apply Hnin, get_In. congruence. }
  symmetry. destruct (PyDict.get k' d') eqn:G; [|reflexivity].
  exfalso. apply Hnin. rewrite Hk. apply get_In. congruence.
Qed.

(** ** Assigning a list of entries *)

Lemma update_app (es es' : list (string * V)) d :
  update (es ++ es') d = update es' (update es d).
Proof. unfold update. apply fold_left_app. Qed.

Lemma NoDup_update es d : NoDup (keys d) -> NoDup (keys (update es d)).
Proof.
  revert d. induction es as [|[k v] es IH]; intros d Hnd; simpl; [assumption|].
  apply IH. now apply NoDup_set.
Qed.

Lemma In_keys_update es d k :
  In k (keys (update es d)) <-> In k (keys es) \/ In k (keys d).
Proof.
  revert d. induction es as [|[k0 v0] es IH]; intros d; simpl.
  - tauto.
  - rewrite IH, In_keys_set. intuition congruence.
Qed.

Lemma keys_update_present es d :
  (forall k, In k (keys es) -> In k (keys d)) -> keys (update es d) = keys d.
Proof.
  revert d. induction es as [|[k v] es IH]; intros d Hin; simpl; [reflexivity|].
  rewrite IH.
  - apply keys_set_present. apply Hin. now left.
  - intros k' Hk'. apply In_keys_set. right. apply Hin. now right.
Qed.

(** The value under a key after the assignments: that of the last entry
    with this key, or the one it had. *)
Lemma get_update es d k :
  PyDict.get k (update es d)
  = match PyDict.get k (rev es) with
    | Some v => Some v
    | None => PyDict.get k d
    end.
Proof.
  revert d. induction es as [|[k0 v0] es IH] using rev_ind; intros d.
  - reflexivity.
  - rewrite update_app, rev_app_distr. simpl.
    rewrite get_set. destruct (String.eqb k k0); [reflexivity | apply IH].
Qed.

(** Last entry wins. *)
Lemma get_update_last es1 es2 d k v :
  ~ In k (keys es2) ->
  PyDict.get k (update (es1 ++ (k, v) :: es2) d) = Some v.
Proof.
  intros Hnin. rewrite get_update, rev_app_distr. simpl. rewrite <- app_assoc.
  assert (forall l1 l2 : dict V, PyDict.get k l1 = None ->
            PyDict.get k (l1 ++ l2) = PyDict.get k l2) as Happ.
  { induction l1 as [|[a b] l1 IHl]; intros l2 Hn; simpl in *; [reflexivity|].
    destruct (String.eqb k a); [discriminate | now apply IHl]. }
  rewrite Happ.
  - simpl. now rewrite String.eqb_refl.
  - destruct (PyDict.get k (rev es2)) eqn:G; [|reflexivity].
    exfalso. apply Hnin.
    assert (In k (keys (rev es2))) as Hin by (apply get_In; congruence).
    unfold keys in *. rewrite map_rev in Hin. now apply in_rev in Hin.
Qed.

(** Assigning the same entries again changes nothing. *)
Lemma update_twice es d :
  NoDup (keys d) -> update es (update es d) = update es d.
Proof.
  intros Hnd. symmetry. apply dict_ext.
  - now apply NoDup_update.
  - symmetry. apply keys_update_present. intros k Hk.
    apply In_keys_update. now left.
  - intros k. rewrite (get_update es (update es d)), (get_update es d).
    now destruct (PyDict.get k (rev es)).
Qed.

End Facts.

End PyDictFacts.

(** ** The rules of the monad *)

Section Rules.

Context {S : Type}.

Lemma triple_ret {A} (P : S -> Prop) (a : A) Q E :
  (forall s, P s -> Q s a) -> triple P (ret a) Q E.
Proof. intros HQ s Hs. simpl. now apply HQ. Qed.

Lemma triple_bind {A B} (P : S -> Prop) (m : M S A) (k : A -> M S B)
    (R : S -> A -> Prop) Q E :
  triple P m R E ->
  (forall a, triple (fun s => R s a) (k a) Q E) ->
  triple P (bind m k) Q E.
Proof.
  intros Hm Hk s Hs. unfold bind. specialize (Hm s Hs).
  destruct (m s) as [s' [a|e]]; [now apply Hk | exact Hm].
Qed.

Lemma triple_try {A} (P : S -> Prop) (m : M S A) (h : exn -> M S A)
    Q (F : S -> exn -> Prop) E :
  triple P m Q F ->
  (forall e, triple (fun s => F s e) (h e) Q E) ->
  triple P (try_except m h) Q E.
Proof.
  intros Hm Hh s Hs. unfold try_except. specialize (Hm s Hs).
  destruct (m s) as [s' [a|e]]; [exact Hm | now apply Hh].
Qed.

Lemma triple_weaken {A} (P P' : S -> Prop) (m : M S A)
    (Q Q' : S -> A -> Prop) (E E' : S -> exn -> Prop) :
  triple P' m Q' E' ->
  (forall s, P s -> P' s) ->
  (forall s a, Q' s a -> Q s a) ->
  (forall s e, E' s e -> E s e) ->
  triple P m Q E.
Proof.
  intros Hm HP HQ HE s Hs. specialize (Hm s (HP s Hs)).
  destruct (m s) as [s' [a|e]]; auto.
Qed.

Lemma triple_for_each {A} (P : S -> Prop) (l : list A) (body : A -> M S unit) E :
  (forall x, In x l -> triple P (body x) (fun s _ => P s) E) ->
  triple P (for_each l body) (fun s _ => P s) E.
Proof.
  induction l as [|x l IH]; intros Hbody; simpl.
  - now apply triple_ret.
  - eapply triple_bind.
    + apply Hbody. now left.
    + intros u. apply IH. intros y Hy. apply Hbody. now right.
Qed.

Lemma steady_ret {A} (P : S -> Prop) (a : A) : steady P (ret a).
Proof. now apply triple_ret. Qed.

Lemma steady_raise {A} (P : S -> Prop) (e : exn) : steady P (@raise S A e).
Proof. intros s Hs. exact Hs. Qed.

Lemma steady_bind {A B} (P : S -> Prop) (m : M S A) (k : A -> M S B) :
  steady P m -> (forall a, steady P (k a)) -> steady P (bind m k).
Proof. intros Hm Hk. eapply triple_bind; [exact Hm | exact Hk]. Qed.

Lemma steady_try {A} (P : S -> Prop) (m : M S A) (h : exn -> M S A) :
  steady P m -> (forall e, steady P (h e)) -> steady P (try_except m h).
Proof. intros Hm Hh. eapply triple_try; [exact Hm | exact Hh]. Qed.

Lemma steady_for_each {A} (P : S -> Prop) (l : list A) (body : A -> M S unit) :
  (forall x, steady P (body x)) -> steady P (for_each l body).
Proof. intros Hb. apply triple_for_each. intros x _. apply Hb. Qed.

Lemma steady_if {A} (P : S -> Prop) (b : bool) (m1 m2 : M S A) :
  steady P m1 -> steady P m2 -> steady P (if b then m1 else m2).
Proof. now destruct b. Qed.

Lemma steady_gets {A} (P : S -> Prop) (f : S -> A) : steady P (gets f).
Proof. intros s Hs. exact Hs. Qed.

Lemma steady_modify (P : S -> Prop) (f : S -> S) :
  (forall s, P s -> P (f s)) -> steady P (modify f).
Proof. intros Hf s Hs. simpl. now apply Hf. Qed.

Lemma steady_fst {A} (P : S -> Prop) (m : M S A) s :
  steady P m -> P s -> P (fst (m s)).
Proof. intros Hm Hs. specialize (Hm s Hs). now destruct (m s) as [s' [a|e]]. Qed.

Lemma total_ret {A} (a : A) : total (@ret S A a).
Proof. intros s. now exists a. Qed.

Lemma total_bind {A B} (m : M S A) (k : A -> M S B) :
  total m -> (forall a, total (k a)) -> total (bind m k).
Proof.
  intros Hm Hk s. unfold bind. destruct (Hm s) as [a Ha].
  destruct (m s) as [s' r]. simpl in Ha. rewrite Ha. apply Hk.
Qed.

Lemma total_try {A} (m : M S A) (h : exn -> M S A) :
  (forall e, total (h e)) -> total (try_except m h).
Proof.
  intros Hh s. unfold try_except.
  destruct (m s) as [s' [a|e]]; [now exists a | apply Hh].
Qed.

Lemma total_for_each {A} (l : list A) (body : A -> M S unit) :
  (forall x, total (body x)) -> total (for_each l body).
Proof.
  intros Hb. induction l as [|x l IH]; simpl.
  - apply total_ret.
  - apply total_bind; [apply Hb | intros u; exact IH].
Qed.

Lemma total_modify (f : S -> S) : total (modify f).
Proof. intros s. now exists tt. Qed.

Lemma total_gets {A} (f : S -> A) : total (gets f).
Proof. intros s. now exists (f s). Qed.

End Rules.

Lemma steady_on_fst {S L A} (P : S -> Prop) (K : L -> Prop) (m : M S A) :
  steady P m -> steady (both P K) (on_fst m).
Proof.
  intros Hm [s l] [Hs Hl]. unfold on_fst. simpl in *.
  specialize (Hm s Hs). destruct (m s) as [s' [a|e]]; now split.
Qed.

Lemma steady_on_snd {S L A} (P : S -> Prop) (K : L -> Prop) (m : M L A) :
  steady K m -> steady (both P K) (on_snd m).
Proof.
  intros Hm [s l] [Hs Hl]. unfold on_snd. simpl in *.
  specialize (Hm l Hl). destruct (m l) as [l' [a|e]]; now split.
Qed.

Lemma total_on_fst {S L A} (m : M S A) : total m -> total (@on_fst S L A m).
Proof.
  intros Hm [s l]. unfold on_fst. simpl. destruct (Hm s) as [a Ha].
  destruct (m s) as [s' r]. simpl in *. now exists a.
Qed.

(** ** The extractors on a complete record *)

Module ExtractFacts.

Lemma new_profile_data_shape url :
  new_profile_data url = to_record (new_profile url).
Proof. reflexivity. Qed.

Lemma field_with_field k d p : field k (with_field k d p) = d.
Proof. now destruct k. Qed.

Lemma with_field_twice k d d' p :
  with_field k d' (with_field k d p) = with_field k d' p.
Proof. now destruct k. Qed.

Lemma with_field_same k p : with_field k (field k p) p = p.
Proof. now destruct k, p. Qed.

Lemma with_socials_same p : with_socials (p_socials p) p = p.
Proof. now destruct p. Qed.

Lemma setitem_in_field k key v p :
  setitem_in (field_of k) key v (to_record p)
  = (to_record (with_field k (PyDict.set key v (field k p)) p), Ok tt).
Proof. now destruct k. Qed.

Lemma setitem_in_socials key v p :
  setitem_in "Socials" key v (to_record p)
  = (to_record (with_socials (PyDict.set key v (p_socials p)) p), Ok tt).
Proof. reflexivity. Qed.

(** The body of each loop adds the entry of the item, if it has one. *)
Lemma item_body_spec k item p :
  item_body k item (to_record p)
  = (to_record match item_entry k item with
               | Some (key, v) => with_field k (PyDict.set key v (field k p)) p
               | None => p
               end, Ok tt).
Proof.
  destruct k; unfold item_body, item_entry; simpl key_selector;
    simpl value_selector; simpl value_required.
  - unfold experience_item.
    destruct (Soup.select_one sel_company item);
      destruct (Soup.select_one sel_role item); try reflexivity.
  - unfold education_item.
    destruct (Soup.select_one sel_school item);
      destruct (Soup.select_one sel_degree item); try reflexivity.
  - unfold certification_item.
    destruct (Soup.select_one sel_certification_name item);
      destruct (Soup.select_one sel_issuer item); try reflexivity.
  - unfold project_item.
    destruct (Soup.select_one sel_title item);
      destruct (Soup.select_one sel_description item); try reflexivity.
Qed.

Lemma for_each_items k items p :
  for_each items (item_body k) (to_record p)
  = (to_record
       (with_field k (update (filter_map (item_entry k) items) (field k p)) p),
     Ok tt).
Proof.
  revert p. induction items as [|item items IH]; intros p; simpl.
  - now rewrite with_field_same.
  - unfold bind. rewrite item_body_spec.
    destruct (item_entry k item) as [[key v]|]; rewrite IH; [|reflexivity].
    now rewrite field_with_field, with_field_twice.
Qed.

Lemma extractor_unfold k soup :
  extractor k soup
  = for_each (section_items k soup) (item_body k).
Proof.
  destruct k; unfold extractor, section_items; simpl section_selector;
    simpl items_selector.
  - unfold extract_experience. now destruct (Soup.select_one _ soup).
  - unfold extract_education. now destruct (Soup.select_one _ soup).
  - unfold extract_certifications. now destruct (Soup.select_one _ soup).
  - unfold extract_projects. now destruct (Soup.select_one _ soup).
Qed.

(** Each of the four extractors assigns the entries of its region, in
    document order, and never raises. *)
Lemma extractor_spec k soup p :
  extractor k soup (to_record p) = (to_record (after_section k soup p), Ok tt).
Proof. rewrite extractor_unfold. apply for_each_items. Qed.

Lemma extract_name_spec soup p :
  extract_name soup (to_record p)
  = (to_record match text_at sel_name soup with
               | Some s => with_name s p
               | None => p
               end, Ok tt).
Proof.
  unfold extract_name, text_at.
  now destruct (Soup.select_one sel_name soup).
Qed.

Lemma extract_bio_spec soup p :
  extract_bio soup (to_record p)
  = (to_record match text_at sel_bio soup with
               | Some s => with_bio s p
               | None => p
               end, Ok tt).
Proof.
  unfold extract_bio, text_at.
  now destruct (Soup.select_one sel_bio soup).
Qed.

(** The if-chain of the loop over the links is the first match over the
    ordered labels. *)
Lemma social_link_spec link p :
  social_link link (to_record p)
  = match Soup.get "href" link with
    | None => (to_record p, Raise no_href)
    | Some link_url =>
        (to_record match classify (stripped_text link) link_url with
                   | Some (key, v) =>
                       with_socials (PyDict.set key v (p_socials p)) p
                   | None => p
                   end, Ok tt)
    end.
Proof.
  unfold social_link, classify.
  destruct (Soup.get "href" link) as [link_url|]; [|reflexivity].
  cbn [known_labels find existsb fst snd].
  rewrite !orb_false_r.
  destruct (PyStr.contains "twitter" _); [reflexivity|].
  destruct (PyStr.contains "github" _); [reflexivity|].
  destruct (PyStr.contains "facebook" _); [reflexivity|].
  destruct (PyStr.contains "instagram" _); [reflexivity|].
  destruct (PyStr.contains "website" _ || PyStr.contains "portfolio" _);
    reflexivity.
Qed.

Lemma for_each_links links p :
  for_each links social_link (to_record p)
  = (to_record (with_socials (update (classified links) (p_socials p)) p),
     if forallb has_href links then Ok tt else Raise no_href).
Proof.
  revert p. induction links as [|link links IH]; intros p; simpl.
  - now rewrite with_socials_same.
  - unfold bind, has_href. rewrite social_link_spec.
    destruct (Soup.get "href" link) as [link_url|]; simpl.
    + destruct (classify (stripped_text link) link_url) as [[key v]|];
        rewrite IH; reflexivity.
    + now rewrite with_socials_same.
Qed.

(** The social-link extractor assigns the entries of the links before
    the first one with no [href], and raises at that one. *)
Lemma extract_socials_spec soup p :
  extract_socials soup (to_record p)
  = (to_record
       (with_socials (update (classified (social_links soup)) (p_socials p)) p),
     if forallb has_href (social_links soup) then Ok tt else Raise no_href).
Proof. apply for_each_links. Qed.

Lemma extract_first_spec soup p :
  extract_first soup (to_record p) = to_record (after_first soup p).
Proof.
  unfold extract_first, absorb, after_first.
  rewrite extract_name_spec. cbn [fst].
  rewrite extract_bio_spec. cbn [fst].
  now rewrite extract_socials_spec.
Qed.

Lemma extract_second_spec soup p :
  extract_second soup (to_record p) = to_record (after_second soup p).
Proof.
  unfold extract_second, absorb, after_second.
  rewrite (extractor_spec Experience). cbn [fst].
  rewrite (extractor_spec Education). cbn [fst].
  rewrite (extractor_spec Certifications). cbn [fst].
  now rewrite (extractor_spec Projects).
Qed.

Lemma extract_all_spec soup1 soup2 p :
  extract_all soup1 soup2 (to_record p)
  = to_record (after_second soup2 (after_first soup1 p)).
Proof.
  unfold extract_all. now rewrite extract_first_spec, extract_second_spec.
Qed.

(** The image of a profile is complete. *)
Lemma to_record_complete p : complete (p_url p) (to_record p).
Proof.
  repeat split.
  - intros f [<-|[<-|[]]]; eexists; reflexivity.
  - intros f [<-|[<-|[<-|[<-|[<-|[]]]]]]; eexists; reflexivity.
Qed.

Lemma p_url_after_first soup p : p_url (after_first soup p) = p_url p.
Proof.
  unfold after_first.
  destruct (text_at sel_name soup), (text_at sel_bio soup); reflexivity.
Qed.

Lemma p_url_after_section k soup p : p_url (after_section k soup p) = p_url p.
Proof. reflexivity. Qed.

Lemma p_url_after_second soup p : p_url (after_second soup p) = p_url p.
Proof. reflexivity. Qed.

End ExtractFacts.

Lemma triple_with_local {S L A} (P : S -> Prop) (init : L) (m : M (S * L) A)
    (Q : S -> A -> Prop) (E : S -> exn -> Prop) :
  triple (fun sl => P (fst sl) /\ snd sl = init) m
         (fun sl a => Q (fst sl) a) (fun sl e => E (fst sl) e) ->
  triple P (with_local init m) Q E.
Proof.
  intros Hm s Hs. unfold with_local.
  specialize (Hm (s, init) (conj Hs eq_refl)).
  now destruct (m (s, init)) as [[s' l'] [a|e]].
Qed.

(** ** Runs of the scraper on any browser *)

Section RunFacts.

Context {W : Type} `{WebDriver W}.

Implicit Types (J : state W -> Prop) (K : record -> Prop) (s : state W).

Lemma steady_call {A} J (op : W -> W * result A) :
  (forall w s, J s -> J (set_driver w s)) -> steady J (call op).
Proof.
  intros HJ s Hs. unfold call.
  destruct (op (self_driver s)) as [w [a|e]]; now apply HJ.
Qed.

Lemma steady_log J lv msg :
  (forall s, J s -> J (set_logger (logger s ++ [(lv, msg)]) s)) ->
  steady J (log lv msg).
Proof. intros HJ. apply steady_modify. exact HJ. Qed.

Lemma total_log lv msg : total (log (W := W) lv msg).
Proof. apply total_modify. Qed.

Lemma quiet_call {A} J (op : W -> W * result A) : quiet J -> steady J (call op).
Proof. intros [Hd _]. now apply steady_call. Qed.

Lemma quiet_log J lv msg :
  quiet J -> msg <> login_message -> steady J (log lv msg).
Proof. intros [_ Hl] Hne. apply steady_log. intros s. now apply Hl. Qed.

(** *** [_expand_sections] *)

Lemma total_expand : total (_expand_sections (W := W)).
Proof. apply total_try. intros e. apply total_log. Qed.

Lemma quiet_expand J : quiet J -> steady J _expand_sections.
Proof.
  intros HJ. unfold _expand_sections. apply steady_try.
  - apply steady_bind; [now apply quiet_call | intros buttons].
    apply steady_bind.
    + apply steady_for_each. intros button.
      apply steady_try; [now apply quiet_call | intros e; apply steady_ret].
    + intros u. apply steady_try; [|intros e; apply steady_ret].
      apply steady_bind; [now apply quiet_call | intros b].
      now apply quiet_call.
  - intros e. apply quiet_log; [assumption | discriminate].
Qed.

(** *** The guarded extractors *)

Lemma total_guarded what body : total (guarded (W := W) what body).
Proof.
  apply total_try. intros e. apply total_on_fst. apply total_log.
Qed.

Lemma quiet_guarded J K what body :
  quiet J -> steady K body -> steady (both J K) (guarded what body).
Proof.
  intros HJ HK. unfold guarded. apply steady_try.
  - now apply steady_on_snd.
  - intros e. apply steady_on_fst. apply quiet_log; [assumption | discriminate].
Qed.

(** What a guarded extractor leaves: the record its body leaves, and
    the browser as it was. *)
Lemma guarded_run what body s pd :
  exists s', guarded what body (s, pd) = ((s', absorb body pd), Ok tt)
             /\ self_driver s' = self_driver s.
Proof.
  unfold guarded, try_except, on_snd, on_fst, absorb. simpl.
  destruct (body pd) as [pd' [[]|e]]; simpl.
  - now exists s.
  - eexists. split; reflexivity.
Qed.

Lemma shaped_name url soup : steady (shaped url) (extract_name soup).
Proof.
  intros pd [p [-> Hu]]. rewrite ExtractFacts.extract_name_spec.
  eexists. split; [reflexivity|].
  now destruct (text_at sel_name soup).
Qed.

Lemma shaped_bio url soup : steady (shaped url) (extract_bio soup).
Proof.
  intros pd [p [-> Hu]]. rewrite ExtractFacts.extract_bio_spec.
  eexists. split; [reflexivity|].
  now destruct (text_at sel_bio soup).
Qed.

Lemma shaped_socials url soup : steady (shaped url) (extract_socials soup).
Proof.
  intros pd [p [-> Hu]]. rewrite ExtractFacts.extract_socials_spec.
  destruct (forallb has_href (social_links soup));
    (eexists; split; [reflexivity | exact Hu]).
Qed.

Lemma shaped_extractor url k soup : steady (shaped url) (extractor k soup).
Proof.
  intros pd [p [-> Hu]]. rewrite ExtractFacts.extractor_spec.
  eexists. split; [reflexivity | exact Hu].
Qed.

(** *** The [try] block of [scrape_profile] and its handlers *)

Lemma quiet_body J url :
  quiet J ->
  triple (both J (shaped url)) (scrape_profile_body url)
         (fun fr pd => pd = snd fr /\ both J (shaped url) fr)
         (fun fr _ => both J (shaped url) fr).
Proof.
  intros HJ. unfold scrape_profile_body.
  assert (forall A (op : W -> W * result A),
            steady (both J (shaped url)) (on_fst (call op))) as Hcall.
  { intros A op. apply steady_on_fst. now apply quiet_call. }
  assert (forall lv msg, msg <> login_message ->
            steady (both J (shaped url)) (on_fst (log lv msg))) as Hlog.
  { intros lv msg Hne. apply steady_on_fst. now apply quiet_log. }
  eapply triple_bind; [apply Hlog; discriminate | intros u0].
  eapply triple_bind; [apply Hcall | intros u1].
  eapply triple_bind; [apply Hcall | intros u2].
  eapply triple_bind; [apply Hcall | intros soup].
  eapply triple_bind;
    [apply quiet_guarded; [assumption | apply shaped_name] | intros u3].
  eapply triple_bind;
    [apply quiet_guarded; [assumption | apply shaped_bio] | intros u4].
  eapply triple_bind;
    [apply quiet_guarded; [assumption | apply shaped_socials] | intros u5].
  eapply triple_bind;
    [apply steady_on_fst; now apply quiet_expand | intros u6].
  eapply triple_bind; [apply Hcall | intros soup'].
  eapply triple_bind;
    [apply quiet_guarded; [assumption | apply (shaped_extractor url Experience)]
    | intros u7].
  eapply triple_bind;
    [apply quiet_guarded; [assumption | apply (shaped_extractor url Education)]
    | intros u8].
  eapply triple_bind;
    [apply quiet_guarded;
       [assumption | apply (shaped_extractor url Certifications)]
    | intros u9].
  eapply triple_bind;
    [apply quiet_guarded; [assumption | apply (shaped_extractor url Projects)]
    | intros u10].
  eapply triple_bind; [apply Hlog; discriminate | intros u11].
  intros [s pd] Hfr. simpl. now split.
Qed.

Lemma quiet_except J url e :
  quiet J ->
  triple (both J (shaped url)) (scrape_profile_except url e)
         (fun fr pd => pd = snd fr /\ both J (shaped url) fr)
         (fun _ _ => False).
Proof.
  intros HJ. unfold scrape_profile_except.
  eapply triple_bind with (R := fun fr _ => both J (shaped url) fr).
  - intros [s pd] [Hs Hpd]. destruct HJ as [_ Hl].
    destruct (is_TimeoutException e); simpl; (split; [|assumption]);
      apply Hl; try assumption; discriminate.
  - intros u [s pd] Hfr. simpl. now split.
Qed.

(** The block of [scrape_profile] after the session check returns a
    record of the shape, and keeps whatever a driver call and a log
    record keep. *)
Lemma scrape_block_run J url s :
  quiet J -> J s ->
  exists s' pd,
    with_local (new_profile_data url)
      (try_except (scrape_profile_body url) (scrape_profile_except url)) s
    = (s', Ok pd) /\ J s' /\ shaped url pd.
Proof.
  intros HJ Hs.
  assert (triple J
            (with_local (new_profile_data url)
               (try_except (scrape_profile_body url) (scrape_profile_except url)))
            (fun s' pd => J s' /\ shaped url pd) (fun _ _ => False)) as Ht.
  { apply triple_with_local. eapply triple_weaken.
    - apply (triple_try (both J (shaped url)) _ _
               (fun fr pd => pd = snd fr /\ both J (shaped url) fr)
               (fun fr _ => both J (shaped url) fr) (fun _ _ => False)).
      + now apply quiet_body.
      + intros e. now apply quiet_except.
    - intros [s0 pd0] [H0 H1]. simpl in *. subst pd0. split; [exact H0|].
      exists (new_profile url). now split.
    - intros [s0 pd0] pd [-> [H0 H1]]. now split.
    - intros s0 e []. }
  specialize (Ht s Hs).
  destruct (with_local _ _ s) as [s' [pd|e]]; [|contradiction].
  now exists s', pd.
Qed.

Lemma scrape_profile_logged_in J url s :
  quiet J -> self_is_logged_in s = true -> J s ->
  exists s' pd, scrape_profile url s = (s', Ok pd) /\ J s' /\ shaped url pd.
Proof.
  intros HJ Hin Hs. unfold scrape_profile, bind, gets. rewrite Hin. simpl.
  now apply scrape_block_run.
Qed.

End RunFacts.

(** ** Login attempts in the log *)

Lemma login_attempts_app l l' :
  login_attempts (l ++ l') = login_attempts l + login_attempts l'.
Proof. unfold login_attempts. now rewrite filter_app, length_app. Qed.

Lemma login_attempts_login l lv :
  login_attempts (l ++ [(lv, login_message)]) = S (login_attempts l).
Proof.
  rewrite login_attempts_app.
  change (login_attempts [(lv, login_message)]) with 1. lia.
Qed.

Lemma login_attempts_other l lv msg :
  msg <> login_message -> login_attempts (l ++ [(lv, msg)]) = login_attempts l.
Proof.
  intros Hne. rewrite login_attempts_app. unfold login_attempts at 2. simpl.
  destruct (String.eqb msg login_message) eqn:E; simpl; [|lia].
  apply String.eqb_eq in E. contradiction.
Qed.

Section SessionFacts.

Context {W : Type} `{WebDriver W}.

Implicit Types (J : state W -> Prop) (s : state W) (w : W) (pd : record).

(** *** [login] *)

Lemma login_triple J b :
  calm J ->
  triple (fun s => J (set_logger (logger s ++ [(INFO, login_message)]) s)
                   /\ self_is_logged_in s = b)
         login
         (fun s _ => J s /\ self_is_logged_in s = true)
         (fun s _ => J s /\ self_is_logged_in s = b).
Proof.
  intros [HJ Hflag].
  set (J' := fun s => J s /\ self_is_logged_in s = b).
  assert (quiet J') as HJ'.
  { destruct HJ as [Hd Hl]. split.
    - intros w s [H1 H2]. split; [now apply Hd | exact H2].
    - intros lv msg s Hne [H1 H2]. split; [now apply Hl | exact H2]. }
  unfold login.
  apply (triple_try _ _ _ _ (fun s _ => J' s)).
  - apply (triple_bind _ _ _ (fun s _ => J' s)).
    + intros s [H1 H2]. simpl. now split.
    + intros u0.
      eapply triple_bind; [now apply quiet_call | intros u1].
      eapply triple_bind; [now apply quiet_call | intros u2].
      eapply triple_bind; [now apply quiet_call | intros username].
      eapply triple_bind; [apply steady_gets | intros email].
      eapply triple_bind; [now apply quiet_call | intros u3].
      eapply triple_bind; [now apply quiet_call | intros password].
      eapply triple_bind; [apply steady_gets | intros secret].
      eapply triple_bind; [now apply quiet_call | intros u4].
      eapply triple_bind; [now apply quiet_call | intros submit].
      eapply triple_bind; [now apply quiet_call | intros u5].
      eapply triple_bind; [now apply quiet_call | intros u6].
      eapply triple_bind; [apply quiet_log; [assumption | discriminate] | intros u7].
      intros s [H1 H2]. simpl. split; [now apply Hflag | reflexivity].
  - intros e. destruct (is_TimeoutException e).
    + eapply triple_bind; [apply quiet_log; [assumption | discriminate] | intros u].
      intros s Hs. exact Hs.
    + eapply triple_bind; [apply quiet_log; [assumption | discriminate] | intros u].
      intros s Hs. exact Hs.
Qed.

(** *** The session check *)

Lemma scrape_profile_ready url s s1 :
  session_ready s s1 ->
  scrape_profile url s
  = with_local (new_profile_data url)
      (try_except (scrape_profile_body url) (scrape_profile_except url)) s1.
Proof.
  intros [[Hin ->]|[Hout Hlog]]; unfold scrape_profile, bind, gets.
  - now rewrite Hin.
  - rewrite Hout. simpl. now rewrite Hlog.
Qed.

Lemma scrape_profile_login_raises url s s1 e :
  self_is_logged_in s = false -> login s = (s1, Raise e) ->
  scrape_profile url s = (s1, Raise e).
Proof.
  intros Hout Hlog. unfold scrape_profile, bind, gets.
  rewrite Hout. simpl. now rewrite Hlog.
Qed.

(** [scrape_profile] raises only what [login] raised at the session
    check. *)
Lemma scrape_profile_raises url s s' e :
  scrape_profile url s = (s', Raise e) ->
  self_is_logged_in s = false /\ login s = (s', Raise e).
Proof.
  intros Hrun. destruct (self_is_logged_in s) eqn:Hin.
  - destruct (scrape_profile_logged_in (fun _ => True) url s) as [s2 [pd [Heq _]]];
      [now split | assumption | exact I | congruence].
  - split; [reflexivity|].
    destruct (login s) as [s1 [[]|e1]] eqn:Hlog.
    + rewrite (scrape_profile_ready url s s1) in Hrun by (right; now split).
      destruct (scrape_block_run (fun _ => True) url s1) as [s2 [pd [Heq _]]];
        [now split | exact I | congruence].
    + rewrite (scrape_profile_login_raises url s s1 e1) in Hrun by assumption.
      congruence.
Qed.

(** *** [_expand_sections] and the browser *)

Lemma determined_call {A} (op : W -> W * result A) : driver_determined (call op).
Proof.
  intros s s' Hd. unfold call. rewrite Hd.
  now destruct (op (self_driver s')) as [w r].
Qed.

Lemma determined_log lv msg : driver_determined (log (W := W) lv msg).
Proof. intros s s' Hd. now split. Qed.

Lemma determined_ret {A} (a : A) : driver_determined (ret (S := state W) a).
Proof. intros s s' Hd. now split. Qed.

Lemma determined_bind {A B} (m : M (state W) A) (k : A -> M (state W) B) :
  driver_determined m -> (forall a, driver_determined (k a)) ->
  driver_determined (bind m k).
Proof.
  intros Hm Hk s s' Hd. unfold bind. destruct (Hm s s' Hd) as [H1 H2].
  destruct (m s) as [s1 r1], (m s') as [s1' r1']. simpl in *. subst r1'.
  destruct r1 as [a|e]; [now apply Hk | now split].
Qed.

Lemma determined_try {A} (m : M (state W) A) (h : exn -> M (state W) A) :
  driver_determined m -> (forall e, driver_determined (h e)) ->
  driver_determined (try_except m h).
Proof.
  intros Hm Hh s s' Hd. unfold try_except. destruct (Hm s s' Hd) as [H1 H2].
  destruct (m s) as [s1 r1], (m s') as [s1' r1']. simpl in *. subst r1'.
  destruct r1 as [a|e]; [now split | now apply Hh].
Qed.

Lemma determined_for_each {A} (l : list A) (body : A -> M (state W) unit) :
  (forall x, driver_determined (body x)) -> driver_determined (for_each l body).
Proof.
  intros Hb. induction l as [|x l IH]; simpl.
  - apply determined_ret.
  - apply determined_bind; [apply Hb | intros u; exact IH].
Qed.

Lemma determined_expand : driver_determined (_expand_sections (W := W)).
Proof.
  unfold _expand_sections. apply determined_try.
  - apply determined_bind; [apply determined_call | intros buttons].
    apply determined_bind.
    + apply determined_for_each. intros button.
      apply determined_try; [apply determined_call | intros e; apply determined_ret].
    + intros u. apply determined_try; [|intros e; apply determined_ret].
      apply determined_bind; [apply determined_call | intros b].
      apply determined_call.
  - intros e. apply determined_log.
Qed.

(** [_expand_sections] never raises, and takes the browser where
    [driver_after_expand] says. *)
Lemma expand_run s :
  exists s', _expand_sections s = (s', Ok tt)
             /\ self_driver s' = driver_after_expand (self_driver s).
Proof.
  destruct (total_expand s) as [[] Hok].
  destruct (determined_expand s (probe (self_driver s)) eq_refl) as [Hd _].
  destruct (_expand_sections s) as [s' r] eqn:Hrun. simpl in *. subst r.
  exists s'. split; [reflexivity | exact Hd].
Qed.

(** *** Frames at a known browser and record *)

Lemma at_log w pd lv msg E :
  triple (at_frame w pd) (on_fst (log lv msg)) (fun fr _ => at_frame w pd fr) E.
Proof. intros [s l] [Hw Hl]. simpl in *. now split. Qed.

Lemma at_call {A} w (w' : W) pd (op : W -> W * result A) a E :
  op w = (w', Ok a) ->
  triple (at_frame w pd) (on_fst (call op))
         (fun fr x => x = a /\ at_frame w' pd fr) E.
Proof.
  intros Hop [s l] [Hw Hl]. unfold on_fst, call. simpl in *. subst.
  rewrite Hop. simpl. now repeat split.
Qed.

Lemma at_call_raise {A} w (w' : W) pd (op : W -> W * result A) e Q :
  op w = (w', Raise e) ->
  triple (at_frame w pd) (on_fst (call op)) Q (fun fr _ => at_frame w' pd fr).
Proof.
  intros Hop [s l] [Hw Hl]. unfold on_fst, call. simpl in *. subst.
  rewrite Hop. simpl. now split.
Qed.

Lemma at_guarded w pd what body E :
  triple (at_frame w pd) (guarded what body)
         (fun fr _ => at_frame w (absorb body pd) fr) E.
Proof.
  intros [s l] [Hw Hl]. simpl in *. subst l w.
  destruct (guarded_run what body s pd) as [s' [-> Hd]]. now split.
Qed.

Lemma at_expand w pd E :
  triple (at_frame w pd) (on_fst _expand_sections)
         (fun fr _ => at_frame (driver_after_expand w) pd fr) E.
Proof.
  intros [s l] [Hw Hl]. unfold on_fst. simpl in *. subst.
  destruct (expand_run s) as [s' [-> Hd]]. now split.
Qed.

(** The handlers return the record as it stands. *)
Lemma except_returns url e w pd :
  triple (at_frame w pd) (scrape_profile_except url e)
         (fun fr a => a = pd /\ self_driver (fst fr) = w) (fun _ _ => False).
Proof.
  intros [s l] [Hw Hl]. unfold scrape_profile_except. simpl in *. subst.
  destruct (is_TimeoutException e); simpl; now split.
Qed.

(** When both pages load, the block returns what the extractors make of
    the two snapshots, the second taken once [_expand_sections] ran. *)
Lemma scrape_block_success url s w1 w2 w3 w5 soup1 soup2 :
  driver_get url (self_driver s) = (w1, Ok tt) ->
  wait_until_presence (By_CSS_SELECTOR ".pv-top-card") w1 = (w2, Ok tt) ->
  page_source w2 = (w3, Ok soup1) ->
  page_source (driver_after_expand w3) = (w5, Ok soup2) ->
  exists s',
    with_local (new_profile_data url)
      (try_except (scrape_profile_body url) (scrape_profile_except url)) s
    = (s', Ok (extract_all soup1 soup2 (new_profile_data url)))
    /\ self_driver s' = w5.
Proof.
  intros Hget Hwait Hsrc1 Hsrc2.
  set (pd0 := new_profile_data url).
  set (Q := fun (fr : frame (W := W)) (a : record) =>
              a = extract_all soup1 soup2 pd0 /\ self_driver (fst fr) = w5).
  assert (triple (at_frame (self_driver s) pd0) (scrape_profile_body url)
                 Q (fun _ _ => False)) as Hbody.
  { unfold scrape_profile_body.
    eapply triple_bind; [apply at_log | intros u0].
    eapply triple_bind; [apply at_call; exact Hget | intros u1].
    eapply triple_bind.
    { eapply triple_weaken; [apply at_call; exact Hwait | | |].
      - intros fr [_ Hfr]. exact Hfr.
      - intros fr a Ha. exact Ha.
      - intros fr e He. exact He. }
    intros u2.
    eapply triple_bind.
    { eapply triple_weaken; [apply at_call; exact Hsrc1 | | |].
      - intros fr [_ Hfr]. exact Hfr.
      - intros fr a Ha. exact Ha.
      - intros fr e He. exact He. }
    intros soup.
    apply (triple_weaken (fun fr => soup = soup1 /\ at_frame w3 pd0 fr)
             (fun fr => soup = soup1 /\ at_frame w3 pd0 fr) _ Q Q
             (fun _ _ => False) (fun _ _ => False)); try tauto.
    intros fr [-> Hfr]. revert fr Hfr.
    change (triple (at_frame w3 pd0)
      (guarded "name" (extract_name soup1) ;;
       guarded "bio" (extract_bio soup1) ;;
       guarded "social links" (extract_socials soup1) ;;
       on_fst _expand_sections ;;
       soup <- on_fst (call page_source) ;;
       guarded "experience" (extract_experience soup) ;;
       guarded "education" (extract_education soup) ;;
       guarded "certifications" (extract_certifications soup) ;;
       guarded "projects" (extract_projects soup) ;;
       on_fst (logger_info ("Successfully scraped profile: " ++ url)) ;;
       on_snd (gets (fun profile_data => profile_data))) Q (fun _ _ => False)).
    eapply triple_bind; [apply at_guarded | intros u3].
    eapply triple_bind; [apply at_guarded | intros u4].
    eapply triple_bind; [apply at_guarded | intros u5].
    eapply triple_bind; [apply at_expand | intros u6].
    eapply triple_bind; [apply at_call; exact Hsrc2 | intros soup'].
    apply (triple_weaken (fun fr => soup' = soup2 /\ at_frame w5 (extract_first soup1 pd0) fr)
             (fun fr => soup' = soup2 /\ at_frame w5 (extract_first soup1 pd0) fr) _ Q Q
             (fun _ _ => False) (fun _ _ => False)); try tauto.
    intros fr [-> Hfr]. revert fr Hfr.
    change (triple (at_frame w5 (extract_first soup1 pd0))
      (guarded "experience" (extract_experience soup2) ;;
       guarded "education" (extract_education soup2) ;;
       guarded "certifications" (extract_certifications soup2) ;;
       guarded "projects" (extract_projects soup2) ;;
       on_fst (logger_info ("Successfully scraped profile: " ++ url)) ;;
       on_snd (gets (fun profile_data => profile_data))) Q (fun _ _ => False)).
    eapply triple_bind; [apply at_guarded | intros u7].
    eapply triple_bind; [apply at_guarded | intros u8].
    eapply triple_bind; [apply at_guarded | intros u9].
    eapply triple_bind; [apply at_guarded | intros u10].
    eapply triple_bind; [apply at_log | intros u11].
    intros [s0 l0] [Hw Hl]. simpl in *. subst. now split. }
  assert (triple (at_frame (self_driver s) pd0)
            (try_except (scrape_profile_body url) (scrape_profile_except url))
            Q (fun _ _ => False)) as Htry.
  { eapply triple_try; [exact Hbody | intros e fr []]. }
  specialize (Htry (s, pd0) (conj eq_refl eq_refl)).
  unfold with_local.
  destruct (try_except (scrape_profile_body url) (scrape_profile_except url)
              (s, pd0)) as [[s' l'] [a|e]]; [|contradiction].
  destruct Htry as [-> Hd]. now exists s'.
Qed.

End SessionFacts.

Lemma triple_finally {S A} (P R : S -> Prop) (m : M S A) (f : M S unit) :
  triple P m (fun s _ => R s) (fun s _ => R s) ->
  steady R f ->
  triple P (try_finally m f) (fun s _ => R s) (fun s _ => R s).
Proof.
  intros Hm Hf s Hs. unfold try_finally. specialize (Hm s Hs).
  destruct (m s) as [s' r].
  assert (R s') as Hs' by (destruct r; exact Hm).
  specialize (Hf s' Hs').
  destruct (f s') as [s'' [[]|e]]; [destruct r|]; exact Hf.
Qed.

(** ** One identifier of the batch *)

Section BatchFacts.

Context {W : Type} `{WebDriver W}.

Implicit Types (s : state W) (w : W) (pd : record).

Lemma quiet_kept c b n : quiet (kept (W := W) c b n).
Proof.
  split.
  - intros w s Hs. exact Hs.
  - intros lv msg s Hne [Hc [Hb Hn]]. repeat split; try assumption.
    simpl. now rewrite login_attempts_other.
Qed.

(** When the navigation or the wait for the top card raises, the block
    returns the record it started from. *)
Lemma scrape_block_sync_fails url s :
  (exists w e, driver_get url (self_driver s) = (w, Raise e))
  \/ (exists w1 w2 e,
        driver_get url (self_driver s) = (w1, Ok tt)
        /\ wait_until_presence (By_CSS_SELECTOR ".pv-top-card") w1
           = (w2, Raise e)) ->
  exists s',
    with_local (new_profile_data url)
      (try_except (scrape_profile_body url) (scrape_profile_except url)) s
    = (s', Ok (new_profile_data url)).
Proof.
  intros Hfail.
  unfold with_local, try_except, scrape_profile_body.
  unfold bind at 1. cbn [on_fst logger_info log modify fst snd].
  unfold bind at 1. unfold on_fst at 1. unfold call at 1. cbn [fst snd set_logger self_driver].
  destruct Hfail as [[w [e Hget]]|[w1 [w2 [e [Hget Hwait]]]]]; rewrite Hget.
  - unfold scrape_profile_except, bind, on_fst, on_snd, gets.
    destruct (is_TimeoutException e); simpl; eexists; reflexivity.
  - unfold bind at 1. unfold on_fst at 1. unfold call at 1.
    cbn [fst snd set_driver self_driver]. rewrite Hwait.
    unfold scrape_profile_except, bind, on_fst, on_snd, gets.
    destruct (is_TimeoutException e); simpl; eexists; reflexivity.
Qed.

(** What [scrape_profile] does to the CSV file, the login flag and the
    number of login attempts, on each of its three ways out. *)
Lemma scrape_profile_cases url s :
  let c := csvfile s in
  let n := login_attempts (logger s) in
  (self_is_logged_in s = true
   /\ exists s' pd, scrape_profile url s = (s', Ok pd)
                    /\ shaped url pd /\ kept c true n s')
  \/ (self_is_logged_in s = false
      /\ exists s' pd, scrape_profile url s = (s', Ok pd)
                       /\ shaped url pd /\ kept c true (S n) s')
  \/ (self_is_logged_in s = false
      /\ exists s' e, scrape_profile url s = (s', Raise e)
                      /\ login s = (s', Raise e) /\ kept c false (S n) s').
Proof.
  intros c n. destruct (self_is_logged_in s) eqn:Hin.
  - left. split; [reflexivity|].
    destruct (scrape_profile_logged_in (kept c true n) url s)
      as [s' [pd [Hrun [Hk Hsh]]]];
      [apply quiet_kept | assumption | now repeat split |].
    now exists s', pd.
  - right.
    pose proof (login_triple
                  (fun x => csvfile x = c /\ login_attempts (logger x) = S n)
                  false) as Hlog.
    assert (calm (fun x : state W =>
                    csvfile x = c /\ login_attempts (logger x) = S n)) as Hcalm.
    { split; [split|].
      - intros w x Hx. exact Hx.
      - intros lv msg x Hne [Hc Hn]. split; [assumption|].
        simpl. now rewrite login_attempts_other.
      - intros b x Hx. exact Hx. }
    specialize (Hlog Hcalm s).
    assert (csvfile (set_logger (logger s ++ [(INFO, login_message)]) s) = c /\
            login_attempts
              (logger (set_logger (logger s ++ [(INFO, login_message)]) s)) = S n)
      as Hpre.
    { split; [reflexivity|]. simpl. apply login_attempts_login. }
    specialize (Hlog (conj Hpre Hin)).
    destruct (login s) as [s1 [[]|e]] eqn:Hl.
    + left. split; [reflexivity|].
      destruct Hlog as [[Hc Hn] Hflag].
      rewrite (scrape_profile_ready url s s1) by (right; now split).
      destruct (scrape_block_run (kept c true (S n)) url s1)
        as [s' [pd [Hrun [Hk Hsh]]]];
        [apply quiet_kept | now repeat split |].
      now exists s', pd.
    + right. split; [reflexivity|].
      destruct Hlog as [[Hc Hn] Hflag].
      exists s1, e. split; [|split; [reflexivity | now repeat split]].
      now apply scrape_profile_login_raises.
Qed.

Lemma dumps_fields_shape p s :
  dumps_fields mapping_fields (to_record p) s = (s, Ok (serialized p)).
Proof. reflexivity. Qed.

Lemma writerow_serialized p s :
  writerow (serialized p) s
  = (set_csvfile (csvfile s ++ [row_of p]) s, Ok tt).
Proof. reflexivity. Qed.

Lemma writerow_empty_data url s :
  writerow (empty_data url) s
  = (set_csvfile (csvfile s ++ [empty_row url]) s, Ok tt).
Proof. reflexivity. Qed.

Lemma row_of_complete p : complete_row (p_url p) (row_of p).
Proof. unfold complete_row, row_of. simpl. repeat eexists. Qed.

Lemma empty_row_complete url : complete_row url (empty_row url).
Proof. unfold complete_row, empty_row. repeat eexists. Qed.

(** The body of the loop never raises and writes one row, that of the
    identifier; the row is the empty one when [scrape_profile] raised. *)
Lemma scrape_one_run url s :
  exists s' row,
    scrape_one url s = (s', Ok tt)
    /\ csvfile s' = csvfile s ++ [row]
    /\ complete_row url row
    /\ login_attempts (logger s')
       = login_attempts (logger s) + (if self_is_logged_in s then 0 else 1)
    /\ (self_is_logged_in s = true -> self_is_logged_in s' = true)
    /\ (forall s1 e, scrape_profile url s = (s1, Raise e) ->
          row = empty_row url /\ self_is_logged_in s' = false).
Proof.
  unfold scrape_one, try_except, bind.
  destruct (scrape_profile_cases url s)
    as [[Hin [s1 [pd [Hrun [[p [-> Hu]] [Hc [Hb Hn]]]]]]]
       |[[Hin [s1 [pd [Hrun [[p [-> Hu]] [Hc [Hb Hn]]]]]]]
        |[Hin [s1 [e [Hrun [Hlog [Hc [Hb Hn]]]]]]]]];
    rewrite Hrun, ?dumps_fields_shape, ?writerow_serialized; simpl;
    try rewrite writerow_empty_data.
  - exists (set_csvfile (csvfile s1 ++ [row_of p]) s1), (row_of p).
    rewrite Hin. repeat split; simpl; try congruence.
    + rewrite <- Hu. apply row_of_complete.
    + lia.
  - exists (set_csvfile (csvfile s1 ++ [row_of p]) s1), (row_of p).
    rewrite Hin. repeat split; simpl; try congruence.
    + rewrite <- Hu. apply row_of_complete.
    + lia.
  - eexists. exists (empty_row url). rewrite Hin.
    repeat split; simpl; try congruence.
    + apply empty_row_complete.
    + rewrite login_attempts_other by discriminate. lia.
Qed.

(** The loop over the identifiers never raises and writes one row for
    each, in their order. *)
Lemma scrape_loop_run urls s :
  exists s' rows,
    for_each urls scrape_one s = (s', Ok tt)
    /\ csvfile s' = csvfile s ++ rows
    /\ Forall2 complete_row urls rows.
Proof.
  revert s. induction urls as [|url urls IH]; intros s; simpl.
  - exists s, []. rewrite app_nil_r. repeat split. constructor.
  - unfold bind.
    destruct (scrape_one_run url s) as [s1 [row [Hrun [Hc [Hrow _]]]]].
    rewrite Hrun. destruct (IH s1) as [s' [rows [Hloop [Hc' Hrows]]]].
    exists s', (row :: rows). rewrite Hloop. repeat split.
    + rewrite Hc', Hc, <- app_assoc. reflexivity.
    + now constructor.
Qed.

(** The whole batch: the header, then the rows of the loop. *)
Lemma batch_csvfile urls output_csv s :
  exists rows,
    csvfile (fst (scrape_profiles_from_excel (Ok urls) output_csv s))
    = map VStr fieldnames :: rows
    /\ Forall2 complete_row urls rows.
Proof.
  set (P := fun x : state W =>
              exists rows, csvfile x = map VStr fieldnames :: rows
                           /\ Forall2 complete_row urls rows).
  enough (triple (fun _ => True)
            (scrape_profiles_from_excel (Ok urls) output_csv)
            (fun x _ => P x) (fun x _ => P x)) as Ht.
  { specialize (Ht s I).
    destruct (scrape_profiles_from_excel (Ok urls) output_csv s) as [s' [a|e]];
      exact Ht. }
  unfold scrape_profiles_from_excel. apply triple_finally.
  - apply (triple_try _ _ _ _ (fun _ _ => False)); [|intros e x []].
    apply (triple_bind _ _ _ (fun _ a => a = urls)); [now intros x _|].
    intros a.
    apply (triple_bind _ _ _ (fun x _ => a = urls /\ csvfile x = []));
      [intros x Ha; now split|].
    intros u.
    apply (triple_bind _ _ _
             (fun x _ => a = urls /\ csvfile x = [map VStr fieldnames])).
    { intros x [Ha Hc]. simpl. rewrite Hc. now split. }
    intros u'.
    apply (triple_bind _ _ _ (fun x _ => P x)).
    { intros x [-> Hc].
      destruct (scrape_loop_run urls x) as [x' [rows [Hloop [Hc' Hrows]]]].
      rewrite Hloop. exists rows. rewrite Hc', Hc. now split. }
    intros u'' x HP. exact HP.
  - unfold close. apply steady_bind.
    + apply steady_call. intros w x Hx. exact Hx.
    + intros u. apply steady_log. intros x Hx. exact Hx.
Qed.

End BatchFacts.

(* ================================================================== *)
(** * The claims *)

(** ** Field extractors: classification, skipped entries, duplicates *)

Lemma for_each_skip {S A} (l1 l2 : list A) (x : A) (body : A -> M S unit) :
  (forall s, body x s = (s, Ok tt)) ->
  forall s, for_each (l1 ++ x :: l2) body s = for_each (l1 ++ l2) body s.
Proof.
  intros Hx. induction l1 as [|y l1 IH]; intros s; simpl; unfold bind.
  - now rewrite Hx.
  - destruct (body y s) as [s' [[]|e]]; [apply IH | reflexivity].
Qed.

Lemma item_body_lacking k item pd :
  lacks_required k item -> item_body k item pd = (pd, Ok tt).
Proof.
  intros [Hkey|[Hreq Hval]].
  - destruct k; simpl in Hkey; unfold item_body.
    + unfold experience_item. rewrite Hkey. reflexivity.
    + unfold education_item. rewrite Hkey. reflexivity.
    + unfold certification_item. rewrite Hkey.
      now destruct (Soup.select_one sel_certification_name item).
    + unfold project_item. rewrite Hkey. reflexivity.
  - destruct k; simpl in Hreq, Hval; try discriminate; unfold item_body.
    + unfold experience_item. rewrite Hval.
      now destruct (Soup.select_one sel_company item).
    + unfold certification_item. rewrite Hval. reflexivity.
Qed.

Lemma keys_filter_map_entries k (items : list Soup.element) key :
  In key (keys (filter_map (item_entry k) items)) ->
  exists item v, In item items /\ item_entry k item = Some (key, v).
Proof.
  induction items as [|item items IH]; simpl; [tauto|].
  destruct (item_entry k item) as [[key' v']|] eqn:E; simpl.
  - intros [<-|Hin].
    + exists item, v'. split; [now left | exact E].
    + destruct (IH Hin) as [it [v [H1 H2]]]. exists it, v. split; [now right | exact H2].
  - intros Hin. destruct (IH Hin) as [it [v [H1 H2]]].
    exists it, v. split; [now right | exact H2].
Qed.

Lemma filter_map_app {A B} (f : A -> option B) l1 l2 :
  filter_map f (l1 ++ l2) = filter_map f l1 ++ filter_map f l2.
Proof.
  induction l1 as [|x l1 IH]; simpl; [reflexivity|].
  destruct (f x); simpl; now rewrite IH.
Qed.

(** C9.  When several entries of one region give the same key, the last
    one in document order is the one the mapping keeps: if an entry gives
    the key [key] with the value [v] and no later entry of the region
    gives [key], the mapping of the extracted record has [v] under
    [key], whatever earlier entries gave. *)
Theorem later_entry_overwrites_earlier
    (k : section) (soup : Soup.element) (url : string)
    (before after : list Soup.element) (item : Soup.element)
    (key v : string) :
  section_items k soup = before ++ item :: after ->
  item_entry k item = Some (key, v) ->
  (forall later v', In later after -> item_entry k later <> Some (key, v')) ->
  exists d,
    PyDict.get (field_of k) (fst (extractor k soup (new_profile_data url)))
    = Some (VDict d)
    /\ PyDict.get key d = Some v.
Proof.
  intros Hitems Hentry Hlater.
  rewrite ExtractFacts.new_profile_data_shape, ExtractFacts.extractor_spec.
  cbn [fst]. unfold after_section, section_entries. rewrite Hitems.
  rewrite filter_map_app. cbn [filter_map]. rewrite Hentry.
  exists (update (filter_map (item_entry k) before
                  ++ (key, v) :: filter_map (item_entry k) after)
                 (field k (new_profile url))).
  split.
  - now destruct k.
  - apply PyDictFacts.get_update_last. intros Hin.
    destruct (keys_filter_map_entries k after key Hin) as [it [v' [H1 H2]]].
    exact (Hlater it v' H1 H2).
Qed.

Lemma later_entry_overwrites_earlier_witness :
  exists d,
    PyDict.get "Experience"
      (fst (extract_experience Sim.ada_expanded
              (new_profile_data Sim.ada_url)))
    = Some (VDict d)
    /\ PyDict.get "Babbage & Co" d = Some "Analyst".
Proof.
  set (items := Soup.select sel_experience_items Sim.ada_expanded).
  apply (later_entry_overwrites_earlier Experience Sim.ada_expanded Sim.ada_url
           (firstn 2 items) (skipn 3 items)
           (nth 2 items Sim.ada_expanded) "Babbage & Co" "Analyst").
  - vm_compute. reflexivity.
  - vm_compute. reflexivity.
  - intros later v' Hin. vm_compute in Hin. contradiction.
Defined.

(** C7, as the claim has it, fails in its second case: a link to
    [https://twitter.com/mywebsite] has [website] in its URL, and is
    recorded under [Twitter] with its text; nothing is recorded under
    [Website]. *)
Lemma website_link_taken_by_an_earlier_label :
  let link :=
    Sim.alone (Sim.anchor (Some "https://twitter.com/mywebsite") "me") in
  PyStr.contains "website" (PyStr.lower "https://twitter.com/mywebsite") = true
  /\ social_link link (new_profile_data Sim.ada_url)
     = (to_record (with_socials [("Twitter", "me")] (new_profile Sim.ada_url)),
        Ok tt)
  /\ PyDict.get "Website" [("Twitter", "me")] = None.
Proof. intros link. repeat split; vm_compute; reflexivity. Qed.

(** C7, as the code has it.  The classification of a social link looks
    for substrings in the lower-cased URL and takes the first of the
    ordered known labels that matches: the if-chain is the first match
    over [known_labels].  So a link whose URL has [github] in any case
    and no other known substring is recorded under [GitHub] with its
    stripped text; a link whose URL has [website] or [portfolio] and
    none of the four platform substrings, which are tried first, is
    recorded under [Website] with the URL itself; and a link with no
    known substring leaves the record as it is. *)
Theorem social_link_classification
    (link : Soup.element) (link_url : string) (p : profile) :
  Soup.get "href" link = Some link_url ->
  let u := PyStr.lower link_url in
  let unseen n := PyStr.contains n u = false in
  social_link link (to_record p)
  = (to_record match classify (stripped_text link) link_url with
               | Some (key, v) => with_socials (PyDict.set key v (p_socials p)) p
               | None => p
               end, Ok tt)
  /\ (forall a x b,
        link_url = (a ++ x ++ b)%string -> PyStr.lower x = "github" ->
        unseen "twitter" -> unseen "facebook" -> unseen "instagram" ->
        unseen "website" -> unseen "portfolio" ->
        social_link link (to_record p)
        = (to_record
             (with_socials
                (PyDict.set "GitHub" (stripped_text link) (p_socials p)) p),
           Ok tt))
  /\ (PyStr.contains "website" u || PyStr.contains "portfolio" u = true ->
      unseen "twitter" -> unseen "github" -> unseen "facebook" ->
      unseen "instagram" ->
      social_link link (to_record p)
      = (to_record
           (with_socials (PyDict.set "Website" link_url (p_socials p)) p),
         Ok tt))
  /\ (unseen "twitter" -> unseen "github" -> unseen "facebook" ->
      unseen "instagram" -> unseen "website" -> unseen "portfolio" ->
      social_link link (to_record p) = (to_record p, Ok tt)).
Proof.
  intros Hhref u unseen.
  pose proof (ExtractFacts.social_link_spec link p) as Hspec.
  rewrite Hhref in Hspec. split; [exact Hspec|].
  unfold classify in Hspec.
  cbn [known_labels find existsb fst snd] in Hspec.
  rewrite !orb_false_r in Hspec. fold u in Hspec.
  unfold unseen. repeat split.
  - intros a x b Hurl Hx Ht Hf Hi Hw Hp.
    assert (PyStr.contains "github" u = true) as Hg.
    { unfold u. rewrite Hurl. now apply PyStrFacts.contains_any_case. }
    now rewrite Hspec, Ht, Hg.
  - intros Hwp Ht Hg Hf Hi. now rewrite Hspec, Ht, Hg, Hf, Hi, Hwp.
  - intros Ht Hg Hf Hi Hw Hp. now rewrite Hspec, Ht, Hg, Hf, Hi, Hw, Hp.
Qed.

Lemma social_link_classification_witness :
  let p := new_profile Sim.ada_url in
  let github := Sim.alone (Sim.anchor (Some "https://GitHub.com/ada") " ada ") in
  let folio :=
    Sim.alone (Sim.anchor (Some "https://ada.example/Portfolio") "my work") in
  let mail := Sim.alone (Sim.anchor (Some "mailto:ada@example.org") "mail") in
  social_link github (to_record p)
  = (to_record (with_socials [("GitHub", "ada")] p), Ok tt)
  /\ social_link folio (to_record p)
     = (to_record (with_socials [("Website", "https://ada.example/Portfolio")] p),
        Ok tt)
  /\ social_link mail (to_record p) = (to_record p, Ok tt).
Proof.
  intros p github folio mail.
  pose proof (social_link_classification github "https://GitHub.com/ada" p eq_refl)
    as [_ [Hgithub _]].
  pose proof (social_link_classification folio "https://ada.example/Portfolio" p
                eq_refl) as [_ [_ [Hfolio _]]].
  pose proof (social_link_classification mail "mailto:ada@example.org" p eq_refl)
    as [_ [_ [_ Hmail]]].
  split; [|split].
  - apply (Hgithub "https://" "GitHub" ".com/ada"); reflexivity.
  - apply Hfolio; reflexivity.
  - apply Hmail; reflexivity.
Defined.

(** ** The two snapshots of a profile *)

Section SnapshotFacts.

Context {W : Type} `{WebDriver W}.

(** When the session check passes and both pages load, [scrape_profile]
    returns what the extractors make of the two snapshots. *)
Lemma scrape_profile_success url (s s1 : state W) soup1 soup2 w' :
  session_ready s s1 ->
  page_loads url (self_driver s1) soup1 soup2 w' ->
  exists s',
    scrape_profile url s
    = (s', Ok (extract_all soup1 soup2 (new_profile_data url)))
    /\ self_driver s' = w'.
Proof.
  intros Hready [w1 [w2 [w3 [Hget [Hwait [Hsrc1 Hsrc2]]]]]].
  rewrite (scrape_profile_ready url s s1 Hready).
  now apply (scrape_block_success url s1 w1 w2 w3 w' soup1 soup2).
Qed.

End SnapshotFacts.

Lemma profile_ext (p q : profile) :
  p_url p = p_url q -> p_name p = p_name q -> p_bio p = p_bio q ->
  p_socials p = p_socials q ->
  (forall k, field k p = field k q) ->
  p = q.
Proof.
  destruct p, q. simpl. intros -> -> -> -> Hk.
  pose proof (Hk Experience) as H1. pose proof (Hk Education) as H2.
  pose proof (Hk Certifications) as H3. pose proof (Hk Projects) as H4.
  simpl in *. now subst.
Qed.

Lemma field_after_second k soup p :
  field k (after_second soup p) = update (section_entries k soup) (field k p).
Proof. now destruct k. Qed.

Lemma field_after_first k soup p : field k (after_first soup p) = field k p.
Proof.
  unfold after_first.
  destruct (text_at sel_name soup), (text_at sel_bio soup); now destruct k.
Qed.

Lemma socials_after_first soup p :
  p_socials (after_first soup p)
  = update (classified (social_links soup)) (p_socials p).
Proof.
  unfold after_first.
  now destruct (text_at sel_name soup), (text_at sel_bio soup).
Qed.

Lemma name_after_first soup p :
  p_name (after_first soup p)
  = match text_at sel_name soup with Some t => t | None => p_name p end.
Proof.
  unfold after_first.
  now destruct (text_at sel_name soup), (text_at sel_bio soup).
Qed.

Lemma bio_after_first soup p :
  p_bio (after_first soup p)
  = match text_at sel_bio soup with Some t => t | None => p_bio p end.
Proof.
  unfold after_first.
  now destruct (text_at sel_name soup), (text_at sel_bio soup).
Qed.

(** Running the extractors on the record they left changes nothing. *)
Lemma after_twice soup1 soup2 p :
  unique_keys p ->
  let q := after_second soup2 (after_first soup1 p) in
  after_second soup2 (after_first soup1 q) = q.
Proof.
  intros [Hs Hk] q. apply profile_ext.
  - change (p_url (after_first soup1 q) = p_url (after_first soup1 p)).
    rewrite !ExtractFacts.p_url_after_first.
    unfold q. change (p_url (after_first soup1 p) = p_url p).
    apply ExtractFacts.p_url_after_first.
  - change (p_name (after_first soup1 q) = p_name (after_first soup1 p)).
    rewrite !name_after_first.
    destruct (text_at sel_name soup1) eqn:E; [reflexivity|].
    unfold q. change (p_name (after_first soup1 p) = p_name p).
    now rewrite name_after_first, E.
  - change (p_bio (after_first soup1 q) = p_bio (after_first soup1 p)).
    rewrite !bio_after_first.
    destruct (text_at sel_bio soup1) eqn:E; [reflexivity|].
    unfold q. change (p_bio (after_first soup1 p) = p_bio p).
    now rewrite bio_after_first, E.
  - change (p_socials (after_first soup1 q) = p_socials (after_first soup1 p)).
    rewrite !socials_after_first.
    change (p_socials q) with (p_socials (after_first soup1 p)).
    rewrite socials_after_first. now apply PyDictFacts.update_twice.
  - intros k. rewrite !field_after_second, !field_after_first.
    unfold q. rewrite field_after_second, field_after_first.
    now apply PyDictFacts.update_twice.
Qed.

Lemma unique_keys_new url : unique_keys (new_profile url).
Proof. split; [constructor | intros k; destruct k; constructor]. Qed.

(** ** Determinism and idempotence of the extraction *)

(** C10.  The record depends on the two snapshots and the identifier
    only: two runs of [scrape_profile], on whatever browsers and from
    whatever states, that see the same snapshots return the same record,
    the one [extract_all] computes.  And extraction is idempotent: run
    again on the record it produced, against the same snapshots, it
    gives that record back, so its serialization is the same too. *)
Theorem extraction_is_deterministic_and_idempotent
    {W1 : Type} {D1 : WebDriver W1} {W2 : Type} {D2 : WebDriver W2}
    (url : string) (soup1 soup2 : Soup.element)
    (sa sa1 : state W1) (wa : W1) (sb sb1 : state W2) (wb : W2) :
  let pd := extract_all soup1 soup2 (new_profile_data url) in
  (session_ready sa sa1 -> page_loads url (self_driver sa1) soup1 soup2 wa ->
   session_ready sb sb1 -> page_loads url (self_driver sb1) soup1 soup2 wb ->
   snd (scrape_profile url sa) = Ok pd
   /\ snd (scrape_profile url sb) = Ok pd)
  /\ extract_all soup1 soup2 pd = pd
  /\ (forall f v v', PyDict.get f pd = Some v ->
        PyDict.get f (extract_all soup1 soup2 pd) = Some v' ->
        Json.dumps v' = Json.dumps v).
Proof.
  intros pd.
  assert (extract_all soup1 soup2 pd = pd) as Hidem.
  { unfold pd. rewrite ExtractFacts.new_profile_data_shape.
    rewrite !ExtractFacts.extract_all_spec. f_equal.
    apply after_twice. apply unique_keys_new. }
  split; [|split].
  - intros Ha Hla Hb Hlb.
    destruct (scrape_profile_success url sa sa1 soup1 soup2 wa Ha Hla)
      as [sa' [Hrun_a _]].
    destruct (scrape_profile_success url sb sb1 soup1 soup2 wb Hb Hlb)
      as [sb' [Hrun_b _]].
    now rewrite Hrun_a, Hrun_b.
  - exact Hidem.
  - intros f v v' Hv Hv'. rewrite Hidem in Hv'. congruence.
Qed.

Lemma ada_page_loads :
  page_loads Sim.ada_url Sim.feed Sim.ada_loaded Sim.ada_expanded
    Sim.on_ada_expanded.
Proof.
  exists Sim.on_ada, Sim.on_ada, Sim.on_ada.
  repeat split; vm_compute; reflexivity.
Defined.

Lemma online_ready : session_ready Sim.online Sim.signed_in.
Proof. right. split; vm_compute; reflexivity. Defined.

Lemma signed_in_ready : session_ready Sim.signed_in Sim.signed_in.
Proof. left. split; reflexivity. Defined.

Lemma extraction_is_deterministic_and_idempotent_witness :
  let pd := extract_all Sim.ada_loaded Sim.ada_expanded
              (new_profile_data Sim.ada_url) in
  snd (scrape_profile Sim.ada_url Sim.online) = Ok pd
  /\ snd (scrape_profile Sim.ada_url Sim.signed_in) = Ok pd.
Proof.
  intros pd.
  exact (proj1 (extraction_is_deterministic_and_idempotent
                  Sim.ada_url Sim.ada_loaded Sim.ada_expanded
                  Sim.online Sim.signed_in Sim.on_ada_expanded
                  Sim.signed_in Sim.signed_in Sim.on_ada_expanded)
               online_ready ada_page_loads signed_in_ready ada_page_loads).
Defined.

(** ** Failure isolation between the extractors *)

Lemma classified_stop good bad rest :
  forallb has_href good = true -> has_href bad = false ->
  classified (good ++ bad :: rest) = classified good
  /\ forallb has_href (good ++ bad :: rest) = false.
Proof.
  intros Hgood Hbad. unfold has_href in *.
  induction good as [|link good IH]; simpl in *.
  - destruct (Soup.get "href" bad); [discriminate | now split].
  - destruct (Soup.get "href" link) as [u|]; [|discriminate].
    simpl in Hgood. destruct (IH Hgood) as [IH1 IH2].
    split; [|exact IH2].
    destruct (classify (stripped_text link) u); now rewrite IH1.
Qed.

Lemma get_field_to_record k p :
  PyDict.get (field_of k) (to_record p) = Some (VDict (field k p)).
Proof. now destruct k. Qed.

Lemma field_new k url : field k (new_profile url) = [].
Proof. now destruct k. Qed.

(** The fields of the record the extractors make of two snapshots. *)
Lemma extract_all_fields url soup1 soup2 :
  let pd := extract_all soup1 soup2 (new_profile_data url) in
  PyDict.get "LinkedIn URL" pd = Some (VStr url)
  /\ PyDict.get "Name" pd
     = Some (VStr match text_at sel_name soup1 with Some t => t | None => "" end)
  /\ PyDict.get "Bio" pd
     = Some (VStr match text_at sel_bio soup1 with Some t => t | None => "" end)
  /\ PyDict.get "Socials" pd
     = Some (VDict (update (classified (social_links soup1)) []))
  /\ (forall k, PyDict.get (field_of k) pd
                = Some (VDict (update (section_entries k soup2) []))).
Proof.
  intros pd. unfold pd.
  rewrite ExtractFacts.new_profile_data_shape, ExtractFacts.extract_all_spec.
  set (q := after_first soup1 (new_profile url)).
  repeat split.
  - change (Some (VStr (p_url q)) = Some (VStr url)).
    unfold q. now rewrite ExtractFacts.p_url_after_first.
  - change (Some (VStr (p_name q)) = 
            Some (VStr match text_at sel_name soup1 with
                       | Some t => t | None => "" end)).
    unfold q. now rewrite name_after_first.
  - change (Some (VStr (p_bio q)) =
            Some (VStr match text_at sel_bio soup1 with
                       | Some t => t | None => "" end)).
    unfold q. now rewrite bio_after_first.
  - change (Some (VDict (p_socials q))
            = Some (VDict (update (classified (social_links soup1)) []))).
    unfold q. now rewrite socials_after_first.
  - intros k. rewrite get_field_to_record, field_after_second.
    unfold q. now rewrite field_after_first, field_new.
Qed.

(** C4, as the code has it.  A failure inside an extractor is absorbed
    by its guard, which returns with the record as the extractor left it,
    so the extractors after it run all the same: with both pages loaded,
    [scrape_profile] returns a record whose four section mappings hold
    every entry of their regions, whatever happened in the social links.
    The failing extractor keeps what it had assigned: when a link has no
    [href], [Socials] holds the entries recorded for the links before
    it, those that matched a known label. *)
Theorem extractor_failure_is_isolated {W : Type} `{WebDriver W} :
  (forall what body (s : state W) pd,
     exists s', guarded what body (s, pd) = ((s', fst (body pd)), Ok tt))
  /\ (forall url soup good bad rest,
        social_links soup = good ++ bad :: rest ->
        forallb has_href good = true -> has_href bad = false ->
        extract_socials soup (new_profile_data url)
        = (to_record
             (with_socials (update (classified good) []) (new_profile url)),
           Raise no_href))
  /\ (forall url (s s1 : state W) soup1 soup2 w',
        session_ready s s1 ->
        page_loads url (self_driver s1) soup1 soup2 w' ->
        exists s' pd,
          scrape_profile url s = (s', Ok pd)
          /\ PyDict.get "Socials" pd
             = Some (VDict (update (classified (social_links soup1)) []))
          /\ (forall k, PyDict.get (field_of k) pd
                        = Some (VDict (update (section_entries k soup2) [])))).
Proof.
  split; [|split].
  - intros what body s pd.
    destruct (guarded_run what body s pd) as [s' [Hrun _]]. now exists s'.
  - intros url soup good bad rest Hlinks Hgood Hbad.
    rewrite ExtractFacts.new_profile_data_shape, ExtractFacts.extract_socials_spec.
    rewrite Hlinks.
    destruct (classified_stop good bad rest Hgood Hbad) as [-> ->].
    reflexivity.
  - intros url s s1 soup1 soup2 w' Hready Hloads.
    destruct (scrape_profile_success url s s1 soup1 soup2 w' Hready Hloads)
      as [s' [Hrun _]].
    exists s', (extract_all soup1 soup2 (new_profile_data url)).
    destruct (extract_all_fields url soup1 soup2) as [_ [_ [_ [Hso Hk]]]].
    now repeat split.
Qed.

Lemma extractor_failure_is_isolated_witness :
  let links := social_links Sim.ada_loaded in
  extract_socials Sim.ada_loaded (new_profile_data Sim.ada_url)
  = (to_record
       (with_socials (update (classified (firstn 1 links)) [])
          (new_profile Sim.ada_url)),
     Raise no_href)
  /\ exists s' pd,
       scrape_profile Sim.ada_url Sim.signed_in = (s', Ok pd)
       /\ PyDict.get "Socials" pd
          = Some (VDict (update (classified links) []))
       /\ PyDict.get "Experience" pd
          = Some (VDict (update (section_entries Experience Sim.ada_expanded) [])).
Proof.
  intros links.
  destruct (extractor_failure_is_isolated (W := Sim.browser))
    as [_ [Hsocials Hrest]].
  split.
  - apply (Hsocials Sim.ada_url Sim.ada_loaded (firstn 1 links)
             (nth 1 links Sim.ada_loaded) (skipn 2 links));
      vm_compute; reflexivity.
  - destruct (Hrest Sim.ada_url Sim.signed_in Sim.signed_in
                Sim.ada_loaded Sim.ada_expanded Sim.on_ada_expanded
                signed_in_ready ada_page_loads)
      as [s' [pd [Hrun [Hso Hk]]]].
    exists s', pd. split; [exact Hrun|]. split; [exact Hso|].
    exact (Hk Experience).
Defined.

(** C4, as the claim has it, fails: the social-link extractor of the
    page [ada_loaded] raises at its second link, and [Socials] is left
    with the first link, not empty. *)
Lemma socials_left_partially_populated :
  snd (extract_socials Sim.ada_loaded (new_profile_data Sim.ada_url))
  = Raise no_href
  /\ (exists pd,
        snd (scrape_profile Sim.ada_url Sim.online) = Ok pd
        /\ PyDict.get "Socials" pd = Some (VDict [("Twitter", "@ada")])
        /\ PyDict.get "Socials" pd <> Some (VDict []))
  /\ In (WARNING,
         "Error extracting social links: 'NoneType' object has no attribute 'lower'")
        (logger (fst (scrape_profile Sim.ada_url Sim.online))).
Proof.
  split; [vm_compute; reflexivity|]. split.
  - exists (to_record
              {| p_url := Sim.ada_url; p_name := "Ada"; p_bio := "Analyst";
                 p_socials := [("Twitter", "@ada")];
                 p_experience := [("Babbage & Co", "Analyst")];
                 p_education := []; p_certifications := [];
                 p_projects := [] |}).
    split; [vm_compute; reflexivity|].
    split; [vm_compute; reflexivity | vm_compute; discriminate].
  - vm_compute. tauto.
Qed.

(** ** The order of the pipeline *)

(** C6, as the code has it.  Once the session check has passed, the
    page is loaded and waited for and a first snapshot is taken; the
    name and the bio are read from this first snapshot; the page is then
    expanded and parsed again, and the experience, education,
    certification and project extractors read the second snapshot.  The
    record merges them under the identifier, and the browser is left
    where the second snapshot left it. *)
Theorem scrape_profile_pipeline_order {W : Type} `{WebDriver W}
    (url : string) (s s1 : state W) (soup1 soup2 : Soup.element) (w' : W) :
  session_ready s s1 ->
  page_loads url (self_driver s1) soup1 soup2 w' ->
  exists s' pd,
    scrape_profile url s = (s', Ok pd)
    /\ self_driver s' = w'
    /\ PyDict.get "LinkedIn URL" pd = Some (VStr url)
    /\ PyDict.get "Name" pd
       = Some (VStr match text_at sel_name soup1 with
                    | Some t => t
                    | None => ""
                    end)
    /\ PyDict.get "Bio" pd
       = Some (VStr match text_at sel_bio soup1 with
                    | Some t => t
                    | None => ""
                    end)
    /\ (forall k, PyDict.get (field_of k) pd
                  = Some (VDict (update (section_entries k soup2) []))).
Proof.
  intros Hready Hloads.
  destruct (scrape_profile_success url s s1 soup1 soup2 w' Hready Hloads)
    as [s' [Hrun Hd]].
  exists s', (extract_all soup1 soup2 (new_profile_data url)).
  destruct (extract_all_fields url soup1 soup2) as [Hu [Hn [Hb [_ Hk]]]].
  now repeat split.
Qed.

Lemma scrape_profile_pipeline_order_witness :
  exists s' pd,
    scrape_profile Sim.ada_url Sim.online = (s', Ok pd)
    /\ self_driver s' = Sim.on_ada_expanded
    /\ PyDict.get "Name" pd
       = Some (VStr match text_at sel_name Sim.ada_loaded with
                    | Some t => t
                    | None => ""
                    end)
    /\ PyDict.get "Experience" pd
       = Some (VDict (update (section_entries Experience Sim.ada_expanded) [])).
Proof.
  destruct (scrape_profile_pipeline_order Sim.ada_url Sim.online
              Sim.signed_in Sim.ada_loaded Sim.ada_expanded
              Sim.on_ada_expanded online_ready ada_page_loads)
    as [s' [pd [Hrun [Hd [_ [Hn [_ Hk]]]]]]].
  exists s', pd. split; [exact Hrun|]. split; [exact Hd|].
  split; [exact Hn | exact (Hk Experience)].
Defined.

(** C6, as the claim has it, fails: on the profile of [ada_url] the
    second snapshot is [ada_expanded], whose name and bio extractors
    give other texts than the record holds, which were read from the
    first snapshot. *)
Lemma name_and_bio_read_before_expansion :
  let run := scrape_profile Sim.ada_url Sim.online in
  snd (page_source (self_driver (fst run))) = Ok Sim.ada_expanded
  /\ text_at sel_name Sim.ada_expanded = Some "Ada Lovelace"
  /\ text_at sel_bio Sim.ada_expanded = Some "Analyst and Metaphysician"
  /\ exists pd,
       snd run = Ok pd
       /\ PyDict.get "Name" pd = Some (VStr "Ada")
       /\ PyDict.get "Bio" pd = Some (VStr "Analyst")
       /\ pd <> extract_all Sim.ada_expanded Sim.ada_expanded
                  (new_profile_data Sim.ada_url).
Proof.
  intros run.
  split; [vm_compute; reflexivity|].
  split; [vm_compute; reflexivity|].
  split; [vm_compute; reflexivity|].
  exists (to_record
            {| p_url := Sim.ada_url; p_name := "Ada"; p_bio := "Analyst";
               p_socials := [("Twitter", "@ada")];
               p_experience := [("Babbage & Co", "Analyst")];
               p_education := []; p_certifications := [];
               p_projects := [] |}).
  split; [vm_compute; reflexivity|].
  split; [vm_compute; reflexivity|].
  split; [vm_compute; reflexivity|].
  vm_compute. discriminate.
Qed.

(** ** What [scrape_profile] returns and raises *)

(** C2, as the claim has it, fails: a scraper that is not logged in and
    whose login times out raises the timeout to the caller of
    [scrape_profile]. *)
Lemma scrape_profile_raises_when_login_fails :
  self_is_logged_in Sim.offline = false
  /\ snd (scrape_profile Sim.ada_url Sim.offline) = Raise Sim.timeout.
Proof. split; vm_compute; reflexivity. Qed.

(** C2, as the code has it.  Once the session check has passed (the
    scraper was logged in, or [login] returned), [scrape_profile] returns
    a record whatever happens next; the only exceptions that reach its
    caller are those [login] raised at the session check.  When the
    synchronization fails (the navigation raises, or the wait for the
    top card times out or raises), the record returned is the initial
    one: the identifier, and every other field at its empty default. *)
Theorem scrape_profile_absorbs_after_session_check {W : Type} `{WebDriver W}
    (profile_url : string) (s : state W) :
  (forall s1, session_ready s s1 ->
     exists s' pd, scrape_profile profile_url s = (s', Ok pd))
  /\ (forall s' e, scrape_profile profile_url s = (s', Raise e) ->
        self_is_logged_in s = false /\ login s = (s', Raise e))
  /\ (forall s1, session_ready s s1 ->
        sync_fails profile_url (self_driver s1) ->
        exists s',
          scrape_profile profile_url s
          = (s', Ok [ ("LinkedIn URL", VStr profile_url);
                      ("Name", VStr "");
                      ("Bio", VStr "");
                      ("Socials", VDict []);
                      ("Experience", VDict []);
                      ("Education", VDict []);
                      ("Certifications", VDict []);
                      ("Projects", VDict []) ])).
Proof.
  split; [|split].
  - intros s1 Hready. rewrite (scrape_profile_ready profile_url s s1 Hready).
    destruct (scrape_block_run (fun _ => True) profile_url s1)
      as [s' [pd [Hrun _]]]; [now split | exact I |].
    now exists s', pd.
  - intros s' e. apply scrape_profile_raises.
  - intros s1 Hready Hfail.
    rewrite (scrape_profile_ready profile_url s s1 Hready).
    now apply scrape_block_sync_fails.
Qed.

Lemma scrape_profile_absorbs_after_session_check_witness :
  let unknown := "https://www.linkedin.com/in/nobody" in
  exists s',
    scrape_profile unknown Sim.online = (s', Ok (new_profile_data unknown)).
Proof.
  intros unknown.
  destruct (scrape_profile_absorbs_after_session_check unknown Sim.online)
    as [_ [_ Hsync]].
  apply (Hsync Sim.signed_in online_ready).
  right.
  exists (Sim.goto unknown (Sim.open Sim.ada_site [])),
         (Sim.goto unknown (Sim.open Sim.ada_site [])), Sim.timeout.
  split; vm_compute; reflexivity.
Defined.

(** ** Structural completeness *)

Lemma shaped_complete url pd : shaped url pd -> complete url pd.
Proof. intros [p [-> <-]]. apply ExtractFacts.to_record_complete. Qed.

Section CompletenessFacts.

Context {W : Type} `{WebDriver W}.

Lemma scrape_profile_shaped url (s s' : state W) pd :
  scrape_profile url s = (s', Ok pd) -> shaped url pd.
Proof.
  intros Hrun.
  destruct (scrape_profile_cases url s)
    as [[_ [s1 [pd1 [Hrun1 [Hsh _]]]]]
       |[[_ [s1 [pd1 [Hrun1 [Hsh _]]]]]
        |[_ [s1 [e [Hrun1 _]]]]]]; congruence.
Qed.

End CompletenessFacts.

(** C3.  Every record is structurally complete.  Whatever
    [scrape_profile] returns has the eight fields of [fieldnames] and no
    other, the identifier under the first, strings under [Name] and
    [Bio] and mappings under the five others; the record it starts from
    has the empty string and the empty mapping there; and the record the
    batch runner writes for a failed profile is that initial record with
    its mappings serialized, again with the eight fields. *)
Theorem records_are_structurally_complete {W : Type} `{WebDriver W}
    (url : string) (s : state W) :
  (forall s' pd, scrape_profile url s = (s', Ok pd) -> complete url pd)
  /\ complete url (new_profile_data url)
  /\ (forall f, In f ["Name"; "Bio"] ->
        PyDict.get f (new_profile_data url) = Some (VStr ""))
  /\ (forall f, In f mapping_fields ->
        PyDict.get f (new_profile_data url) = Some (VDict []))
  /\ keys (empty_data url) = fieldnames
  /\ dumps_fields mapping_fields (new_profile_data url) s
     = (s, Ok (empty_data url)).
Proof.
  split; [|split; [|split; [|split; [|split]]]].
  - intros s' pd Hrun. apply shaped_complete.
    now apply (scrape_profile_shaped url s s').
  - apply shaped_complete. exists (new_profile url). now split.
  - intros f [<-|[<-|[]]]; reflexivity.
  - intros f [<-|[<-|[<-|[<-|[<-|[]]]]]]; reflexivity.
  - reflexivity.
  - reflexivity.
Qed.

Lemma records_are_structurally_complete_witness :
  let pd := to_record
              {| p_url := Sim.ada_url; p_name := "Ada"; p_bio := "Analyst";
                 p_socials := [("Twitter", "@ada")];
                 p_experience := [("Babbage & Co", "Analyst")];
                 p_education := []; p_certifications := [];
                 p_projects := [] |} in
  complete Sim.ada_url pd.
Proof.
  intros pd.
  destruct (records_are_structurally_complete Sim.ada_url Sim.signed_in)
    as [Hcomplete _].
  apply (Hcomplete
           {| self_email := "your_email@example.com";
              self_password := "your_password";
              self_driver := Sim.on_ada_expanded;
              self_is_logged_in := true;
              logger := logger Sim.signed_in
                ++ [ (INFO, "Scraping profile: https://www.linkedin.com/in/ada");
                     (WARNING,
                      "Error extracting social links: 'NoneType' object has no attribute 'lower'");
                     (INFO,
                      "Successfully scraped profile: https://www.linkedin.com/in/ada") ];
              csvfile := [] |}).
  vm_compute. reflexivity.
Defined.

(** ** The batch runner *)

(** C1.  For a list of N identifiers the batch runner leaves the header
    and exactly N rows in the CSV file, one per identifier and in the
    order of the identifiers: the i-th row is a complete row that starts
    with the i-th identifier.  An identifier at which [scrape_profile]
    raises gets its row all the same, the one of [empty_data]: the
    identifier, then the empty defaults. *)
Theorem batch_emits_one_record_per_identifier {W : Type} `{WebDriver W}
    (urls : list string) (output_csv : string) (s : state W) :
  (exists rows,
     csvfile (fst (scrape_profiles_from_excel (Ok urls) output_csv s))
     = map VStr fieldnames :: rows
     /\ length rows = length urls
     /\ Forall2 complete_row urls rows
     /\ map (hd (VStr "")) rows = map VStr urls)
  /\ (forall url (s0 s1 : state W) e,
        scrape_profile url s0 = (s1, Raise e) ->
        exists s', scrape_one url s0 = (s', Ok tt)
                   /\ csvfile s' = csvfile s0 ++ [empty_row url]).
Proof.
  split.
  - destruct (batch_csvfile urls output_csv s) as [rows [Hcsv Hrows]].
    exists rows. split; [exact Hcsv|]. split; [|split; [exact Hrows|]].
    + symmetry. exact (Forall2_length Hrows).
    + clear Hcsv. induction Hrows as [|url row urls rows Hrow _ IH]; simpl.
      * reflexivity.
      * rewrite IH. f_equal.
        destruct Hrow as [name [bio [so [ex [ed [ce [pr ->]]]]]]]. reflexivity.
  - intros url s0 s1 e Hrun.
    destruct (scrape_one_run url s0) as [s' [row [Hone [Hc [_ [_ [_ Hraise]]]]]]].
    destruct (Hraise s1 e Hrun) as [-> _].
    now exists s'.
Qed.

Lemma batch_emits_one_record_per_identifier_witness :
  let bob := "https://www.linkedin.com/in/bob" in
  exists s', scrape_one bob Sim.offline = (s', Ok tt)
             /\ csvfile s' = csvfile Sim.offline ++ [empty_row bob].
Proof.
  intros bob.
  destruct (batch_emits_one_record_per_identifier [bob; Sim.ada_url]
              "scraped_output.csv" Sim.offline) as [_ Hfail].
  apply (Hfail bob Sim.offline
           {| self_email := "your_email@example.com";
              self_password := "your_password";
              self_driver :=
                Sim.goto "https://www.linkedin.com/login"
                  (Sim.open Sim.ada_site []);
              self_is_logged_in := false;
              logger :=
                [ (INFO, "Logging in to LinkedIn...");
                  (ERROR,
                   "Timeout while logging in. Check your internet connection or LinkedIn might be detecting automation.") ];
              csvfile := [] |}
           Sim.timeout).
  vm_compute. reflexivity.
Defined.

(** ** Login attempts during a batch *)

(** C5, as the claim has it, fails: the login of [flaky] times out at
    the first identifier and goes through at the second.  The first
    identifier gets the empty row and the run goes on; the second
    identifier triggers a second login attempt, and is scraped. *)
Lemma login_is_attempted_again_after_a_failure :
  let bob := "https://www.linkedin.com/in/bob" in
  let run := scrape_profiles_from_excel (Ok [bob; Sim.ada_url])
               "scraped_output.csv" Sim.flaky in
  snd (scrape_profile bob Sim.flaky) = Raise Sim.timeout
  /\ snd run = Ok tt
  /\ login_attempts (logger (fst run)) = 2
  /\ self_is_logged_in (fst run) = true
  /\ nth 2 (csvfile (fst run)) []
     = [ VStr Sim.ada_url; VStr "Ada"; VStr "Analyst";
         VStr (Json.dumps (VDict [("Twitter", "@ada")]));
         VStr (Json.dumps (VDict [("Babbage & Co", "Analyst")]));
         VStr "{}"; VStr "{}"; VStr "{}" ].
Proof. vm_compute. repeat split. Qed.

Section AttemptFacts.

Context {W : Type} `{WebDriver W}.

Lemma scrape_loop_logged_in urls (s : state W) :
  self_is_logged_in s = true ->
  exists s',
    for_each urls scrape_one s = (s', Ok tt)
    /\ self_is_logged_in s' = true
    /\ login_attempts (logger s') = login_attempts (logger s).
Proof.
  revert s. induction urls as [|url urls IH]; intros s Hin; simpl.
  - now exists s.
  - unfold bind.
    destruct (scrape_one_run url s) as [s1 [row [Hrun [_ [_ [Hn [Hflag _]]]]]]].
    rewrite Hrun. rewrite Hin in Hn.
    destruct (IH s1 (Hflag Hin)) as [s' [Hloop [Hin' Hn']]].
    exists s'. rewrite Hloop. repeat split; [assumption | lia].
Qed.

End AttemptFacts.

(** C5, as the code has it.  An authentication failure is never fatal
    to the batch: the body of the loop never raises, and an identifier
    at whose session check [login] raises gets the empty row while the
    scraper stays logged out.  No state marks the session as lost: as
    long as the scraper is not logged in, each identifier makes one new
    login attempt; once it is logged in it stays so and no identifier of
    the batch makes another attempt. *)
Theorem login_is_retried_until_it_succeeds {W : Type} `{WebDriver W}
    (url : string) (urls : list string) (s : state W) :
  (exists s',
     scrape_one url s = (s', Ok tt)
     /\ login_attempts (logger s')
        = login_attempts (logger s) + (if self_is_logged_in s then 0 else 1)
     /\ (self_is_logged_in s = true -> self_is_logged_in s' = true)
     /\ (forall s1 e,
           self_is_logged_in s = false -> login s = (s1, Raise e) ->
           csvfile s' = csvfile s ++ [empty_row url]
           /\ self_is_logged_in s' = false))
  /\ (exists s', for_each urls scrape_one s = (s', Ok tt))
  /\ (self_is_logged_in s = true ->
      exists s',
        for_each urls scrape_one s = (s', Ok tt)
        /\ self_is_logged_in s' = true
        /\ login_attempts (logger s') = login_attempts (logger s)).
Proof.
  split; [|split].
  - destruct (scrape_one_run url s)
      as [s' [row [Hrun [Hc [_ [Hn [Hflag Hraise]]]]]]].
    exists s'. repeat split; try assumption.
    + destruct (Hraise s1 e) as [-> _];
        [now apply scrape_profile_login_raises | exact Hc].
    + destruct (Hraise s1 e) as [_ Hout];
        [now apply scrape_profile_login_raises | exact Hout].
  - destruct (scrape_loop_run urls s) as [s' [rows [Hloop _]]]. now exists s'.
  - apply scrape_loop_logged_in.
Qed.

Lemma login_is_retried_until_it_succeeds_witness :
  let bob := "https://www.linkedin.com/in/bob" in
  (exists s',
     scrape_one bob Sim.offline = (s', Ok tt)
     /\ login_attempts (logger s')
        = login_attempts (logger Sim.offline) + 1
     /\ csvfile s' = csvfile Sim.offline ++ [empty_row bob]
     /\ self_is_logged_in s' = false)
  /\ (exists s',
        for_each [bob; Sim.ada_url] scrape_one Sim.signed_in = (s', Ok tt)
        /\ self_is_logged_in s' = true
        /\ login_attempts (logger s') = login_attempts (logger Sim.signed_in)).
Proof.
  intros bob. split.
  - destruct (login_is_retried_until_it_succeeds bob [] Sim.offline)
      as [[s' [Hrun [Hn [_ Hfail]]]] _].
    destruct (Hfail
                {| self_email := "your_email@example.com";
                   self_password := "your_password";
                   self_driver :=
                     Sim.goto "https://www.linkedin.com/login"
                       (Sim.open Sim.ada_site []);
                   self_is_logged_in := false;
                   logger :=
                     [ (INFO, "Logging in to LinkedIn...");
                       (ERROR,
                        "Timeout while logging in. Check your internet connection or LinkedIn might be detecting automation.") ];
                   csvfile := [] |}
                Sim.timeout) as [Hc Hout];
      [reflexivity | vm_compute; reflexivity |].
    exists s'. repeat split; assumption.
  - destruct (login_is_retried_until_it_succeeds bob [bob; Sim.ada_url]
                Sim.signed_in) as [_ [_ Hin]].
    destruct (Hin eq_refl) as [s' [Hloop [Hflag Hn]]].
    exists s'. repeat split; assumption.
Defined.

(* ================================================================== *)
(** * Further properties of the scraper *)

(** ** [login] *)

Section LoginOutcome.

Context {W : Type} `{WebDriver W}.

(** X1.  What [login] leaves.  When it returns, the scraper is logged in
    and the log has grown by the attempt and the success records.  When
    it raises, the flag is as it was and the log has grown by the
    attempt and one error record, the timeout one exactly when the
    exception is a [TimeoutException].  Either way the CSV file and the
    credentials are untouched. *)
Theorem login_outcome (s : state W) :
  match login s with
  | (s', Ok _) =>
      self_is_logged_in s' = true
      /\ logger s'
         = logger s ++ [ (INFO, login_message);
                         (INFO, "Successfully logged in to LinkedIn") ]
      /\ csvfile s' = csvfile s
      /\ self_email s' = self_email s /\ self_password s' = self_password s
  | (s', Raise e) =>
      self_is_logged_in s' = self_is_logged_in s
      /\ logger s'
         = logger s
           ++ [ (INFO, login_message);
                (ERROR,
                 if is_TimeoutException e then
                   "Timeout while logging in. Check your internet connection or LinkedIn might be detecting automation."
                 else ("Error during login: " ++ str e)%string) ]
      /\ csvfile s' = csvfile s
      /\ self_email s' = self_email s /\ self_password s' = self_password s
  end.
Proof.
  set (K := fun l (x : state W) =>
              self_is_logged_in x = self_is_logged_in s
              /\ logger x = logger s ++ l
              /\ csvfile x = csvfile s
              /\ self_email x = self_email s
              /\ self_password x = self_password s).
  assert (forall l A (op : W -> W * result A), steady (K l) (call op)) as Hcall.
  { intros l A op. apply steady_call. intros w x Hx. exact Hx. }
  enough (triple (K []) login
            (fun x _ =>
               self_is_logged_in x = true
               /\ logger x = logger s ++ [ (INFO, login_message);
                               (INFO, "Successfully logged in to LinkedIn") ]
               /\ csvfile x = csvfile s
               /\ self_email x = self_email s
               /\ self_password x = self_password s)
            (fun x e =>
               K [ (INFO, login_message);
                   (ERROR,
                    if is_TimeoutException e then
                      "Timeout while logging in. Check your internet connection or LinkedIn might be detecting automation."
                    else ("Error during login: " ++ str e)%string) ] x)) as Ht.
  { assert (K [] s) as Hs
      by (unfold K; rewrite app_nil_r; repeat split; reflexivity).
    specialize (Ht s Hs). destruct (login s) as [s' [a|e]]; exact Ht. }
  unfold login.
  apply (triple_try _ _ _ _ (fun x _ => K [(INFO, login_message)] x)).
  - apply (triple_bind _ _ _ (fun x _ => K [(INFO, login_message)] x)).
    { intros x [H1 [H2 [H3 [H4 H5]]]]. simpl. unfold K. simpl.
      rewrite H2, app_nil_r. repeat split; (assumption || reflexivity). }
    intros u0.
    eapply triple_bind; [apply Hcall | intros u1].
    eapply triple_bind; [apply Hcall | intros u2].
    eapply triple_bind; [apply Hcall | intros username].
    eapply triple_bind; [apply steady_gets | intros email].
    eapply triple_bind; [apply Hcall | intros u3].
    eapply triple_bind; [apply Hcall | intros password].
    eapply triple_bind; [apply steady_gets | intros secret].
    eapply triple_bind; [apply Hcall | intros u4].
    eapply triple_bind; [apply Hcall | intros submit].
    eapply triple_bind; [apply Hcall | intros u5].
    eapply triple_bind; [apply Hcall | intros u6].
    apply (triple_bind _ _ _
             (fun x _ => K [ (INFO, login_message);
                             (INFO, "Successfully logged in to LinkedIn") ] x)).
    { intros x [H1 [H2 [H3 [H4 H5]]]]. simpl. unfold K. simpl.
      rewrite H2, <- app_assoc. repeat split; (assumption || reflexivity). }
    intros u7 x [H1 [H2 [H3 [H4 H5]]]]. simpl.
    repeat split; (assumption || reflexivity).
  - intros e x [H1 [H2 [H3 [H4 H5]]]].
    destruct (is_TimeoutException e) eqn:Et; simpl; unfold K; simpl;
      rewrite Et, H2, <- app_assoc; repeat split; (assumption || reflexivity).
Qed.

End LoginOutcome.

(** ** [_expand_sections] *)

Section ExpandOutcome.

Context {W : Type} `{WebDriver W}.

Lemma set_driver_twice (w w' : W) (s : state W) :
  set_driver w' (set_driver w s) = set_driver w' s.
Proof. reflexivity. Qed.

Lemma set_driver_same (s : state W) : set_driver (self_driver s) s = s.
Proof. now destruct s. Qed.

Lemma click_loop_run (buttons : list WebElement) (s : state W) :
  for_each buttons
    (fun button =>
       try_except (call (execute_script_click button)) (fun _ => ret tt)) s
  = (set_driver (click_all buttons (self_driver s)) s, Ok tt).
Proof.
  revert s. induction buttons as [|button buttons IH]; intros s; simpl.
  - unfold ret. now rewrite set_driver_same.
  - unfold bind at 1. unfold try_except at 1. unfold call at 1.
    destruct (execute_script_click button (self_driver s)) as [w [[]|e]];
      cbv beta iota; unfold ret at 1; rewrite IH; reflexivity.
Qed.

(** X2.  [_expand_sections] never raises.  When the buttons are found,
    each is clicked in turn whether or not an earlier click raised, then
    the contact-info link is looked for and clicked if found, and
    nothing is logged.  When looking for the buttons raises, nothing is
    clicked and one warning is logged.  The rest of the state is
    untouched either way. *)
Theorem expand_clicks_every_button (s : state W) :
  _expand_sections s
  = match find_elements
            (By_CSS_SELECTOR ".pv-profile-section__see-more-inline")
            (self_driver s) with
    | (w1, Ok show_more_buttons) =>
        (set_driver (open_contact_info (click_all show_more_buttons w1)) s,
         Ok tt)
    | (w1, Raise e) =>
        (set_logger
           (logger s ++ [(WARNING, ("Error expanding sections: " ++ str e)%string)])
           (set_driver w1 s),
         Ok tt)
    end.
Proof.
  unfold _expand_sections, try_except. unfold bind at 1. unfold call at 1.
  destruct (find_elements _ (self_driver s)) as [w1 [buttons|e]]; [|reflexivity].
  unfold bind at 1. rewrite click_loop_run.
  unfold bind, call, open_contact_info. simpl.
  destruct (find_element _ (click_all buttons w1)) as [w2 [a|e]]; simpl;
    [|reflexivity].
  destruct (execute_script_click a w2) as [w3 [[]|e]]; reflexivity.
Qed.

End ExpandOutcome.

(** ** The other ways out of [scrape_profile] *)

Section PartialRecords.

Context {W : Type} `{WebDriver W}.

Implicit Types (s : state W) (w : W) (pd : record).

Lemma at_call_raise_record {A} w (w' : W) pd (op : W -> W * result A) e Q :
  op w = (w', Raise e) ->
  triple (at_frame w pd) (on_fst (call op)) Q (fun fr _ => snd fr = pd).
Proof.
  intros Hop [s l] [Hw Hl]. unfold on_fst, call. simpl in *. subst.
  now rewrite Hop.
Qed.

(** X3.  When the page parsed after the expansion cannot be read, the
    record returned holds what the name, bio and social-link extractors
    found on the first snapshot, and its four section mappings are
    empty. *)
Theorem second_snapshot_failure_keeps_first_fields
    (url : string) (s s1 : state W) (w1 w2 w3 w5 : W)
    (soup1 : Soup.element) (e : exn) :
  session_ready s s1 ->
  driver_get url (self_driver s1) = (w1, Ok tt) ->
  wait_until_presence (By_CSS_SELECTOR ".pv-top-card") w1 = (w2, Ok tt) ->
  page_source w2 = (w3, Ok soup1) ->
  page_source (driver_after_expand w3) = (w5, Raise e) ->
  exists s' pd,
    scrape_profile url s = (s', Ok pd)
    /\ pd = extract_first soup1 (new_profile_data url)
    /\ PyDict.get "Name" pd
       = Some (VStr match text_at sel_name soup1 with
                    | Some t => t
                    | None => ""
                    end)
    /\ PyDict.get "Bio" pd
       = Some (VStr match text_at sel_bio soup1 with
                    | Some t => t
                    | None => ""
                    end)
    /\ PyDict.get "Socials" pd
       = Some (VDict (update (classified (social_links soup1)) []))
    /\ (forall k, PyDict.get (field_of k) pd = Some (VDict [])).
Proof.
  intros Hready Hget Hwait Hsrc1 Hsrc2.
  rewrite (scrape_profile_ready url s s1 Hready).
  set (pd0 := new_profile_data url).
  set (pd1 := extract_first soup1 pd0).
  assert (triple (at_frame (self_driver s1) pd0) (scrape_profile_body url)
                 (fun _ _ => False) (fun fr _ => snd fr = pd1)) as Hbody.
  { unfold scrape_profile_body.
    eapply triple_bind; [apply at_log | intros u0].
    eapply triple_bind; [apply at_call; exact Hget | intros u1].
    eapply triple_bind.
    { eapply triple_weaken; [apply at_call; exact Hwait | | |].
      - intros fr [_ Hfr]. exact Hfr.
      - intros fr a Ha. exact Ha.
      - intros fr e' He. exact He. }
    intros u2.
    eapply triple_bind.
    { eapply triple_weaken; [apply at_call; exact Hsrc1 | | |].
      - intros fr [_ Hfr]. exact Hfr.
      - intros fr a Ha. exact Ha.
      - intros fr e' He. exact He. }
    intros soup.
    apply (triple_weaken (fun fr => soup = soup1 /\ at_frame w3 pd0 fr)
             (fun fr => soup = soup1 /\ at_frame w3 pd0 fr) _
             (fun _ _ => False) (fun _ _ => False)
             (fun fr _ => snd fr = pd1) (fun fr _ => snd fr = pd1)); try tauto.
    intros fr [-> Hfr]. revert fr Hfr.
    change (triple (at_frame w3 pd0)
      (guarded "name" (extract_name soup1) ;;
       guarded "bio" (extract_bio soup1) ;;
       guarded "social links" (extract_socials soup1) ;;
       on_fst _expand_sections ;;
       soup <- on_fst (call page_source) ;;
       guarded "experience" (extract_experience soup) ;;
       guarded "education" (extract_education soup) ;;
       guarded "certifications" (extract_certifications soup) ;;
       guarded "projects" (extract_projects soup) ;;
       on_fst (logger_info ("Successfully scraped profile: " ++ url)) ;;
       on_snd (gets (fun profile_data => profile_data)))
      (fun _ _ => False) (fun fr _ => snd fr = pd1)).
    eapply triple_bind; [apply at_guarded | intros u3].
    eapply triple_bind; [apply at_guarded | intros u4].
    eapply triple_bind; [apply at_guarded | intros u5].
    eapply triple_bind; [apply at_expand | intros u6].
    eapply triple_bind.
    - apply (at_call_raise_record _ _ _ _ _ (fun _ _ => False) Hsrc2).
    - intros soup' fr []. }
  assert (triple (at_frame (self_driver s1) pd0)
            (try_except (scrape_profile_body url) (scrape_profile_except url))
            (fun _ a => a = pd1) (fun _ _ => False)) as Htry.
  { apply (triple_try _ _ _ _ (fun fr _ => snd fr = pd1)).
    { eapply triple_weaken; [exact Hbody | | |].
      - intros fr Hfr. exact Hfr.
      - intros fr a [].
      - intros fr e' He. exact He. }
    intros e' [s0 l0] Hl. simpl in Hl. subst l0.
    unfold scrape_profile_except.
    destruct (is_TimeoutException e'); reflexivity. }
  specialize (Htry (s1, pd0) (conj eq_refl eq_refl)).
  unfold with_local.
  destruct (try_except (scrape_profile_body url) (scrape_profile_except url)
              (s1, pd0)) as [[s' l'] [a|e']]; [|contradiction].
  subst a. exists s', pd1. split; [reflexivity|]. split; [reflexivity|].
  unfold pd1, pd0.
  rewrite ExtractFacts.new_profile_data_shape, ExtractFacts.extract_first_spec.
  set (q := after_first soup1 (new_profile url)).
  repeat split.
  - change (Some (VStr (p_name q)) =
            Some (VStr match text_at sel_name soup1 with
                       | Some t => t | None => "" end)).
    unfold q. now rewrite name_after_first.
  - change (Some (VStr (p_bio q)) =
            Some (VStr match text_at sel_bio soup1 with
                       | Some t => t | None => "" end)).
    unfold q. now rewrite bio_after_first.
  - change (Some (VDict (p_socials q))
            = Some (VDict (update (classified (social_links soup1)) []))).
    unfold q. now rewrite socials_after_first.
  - intros k. rewrite get_field_to_record. unfold q.
    now rewrite field_after_first, field_new.
Qed.

(** X4.  When the synchronization fails, the log tells which handler
    ran: after the record that the profile is being scraped comes one
    error record, the timeout one exactly when the exception is a
    [TimeoutException] and the general one, with [str(e)], otherwise.
    The record returned is the initial one and nothing else of the state
    changes but the browser. *)
Theorem sync_failure_is_logged_by_kind
    (url : string) (s s1 : state W) (w1 w2 : W) (e : exn) :
  session_ready s s1 ->
  driver_get url (self_driver s1) = (w1, Ok tt) ->
  wait_until_presence (By_CSS_SELECTOR ".pv-top-card") w1 = (w2, Raise e) ->
  scrape_profile url s
  = (set_logger
       (logger s1
        ++ [ (INFO, ("Scraping profile: " ++ url)%string);
             (ERROR,
              if is_TimeoutException e then
                ("Timeout while scraping profile: " ++ url)%string
              else
                ("Error scraping profile " ++ url ++ ": " ++ str e)%string) ])
       (set_driver w2 s1),
     Ok (new_profile_data url)).
Proof.
  intros Hready Hget Hwait.
  rewrite (scrape_profile_ready url s s1 Hready).
  unfold with_local, try_except, scrape_profile_body.
  unfold bind at 1. cbn [on_fst logger_info log modify fst snd].
  unfold bind at 1. unfold on_fst at 1. unfold call at 1.
  cbn [fst snd set_logger self_driver]. rewrite Hget.
  unfold bind at 1. unfold on_fst at 1. unfold call at 1.
  cbn [fst snd set_driver self_driver]. rewrite Hwait.
  unfold scrape_profile_except, bind, on_fst, on_snd, gets.
  destruct (is_TimeoutException e); simpl; rewrite <- app_assoc; reflexivity.
Qed.

End PartialRecords.

Lemma second_snapshot_failure_keeps_first_fields_witness :
  exists s' pd,
    scrape_profile Sim.ada_url Stale.scraper = (s', Ok pd)
    /\ pd = extract_first Sim.ada_loaded (new_profile_data Sim.ada_url)
    /\ PyDict.get "Experience" pd = Some (VDict []).
Proof.
  destruct (second_snapshot_failure_keeps_first_fields Sim.ada_url
              Stale.scraper Stale.scraper false false false true
              Sim.ada_loaded Stale.stale)
    as [s' [pd [Hrun [Hpd [_ [_ [_ Hk]]]]]]].
  - left. split; reflexivity.
  - reflexivity.
  - reflexivity.
  - reflexivity.
  - vm_compute. reflexivity.
  - exists s', pd. split; [exact Hrun|]. split; [exact Hpd|].
    exact (Hk Experience).
Defined.

Lemma sync_failure_is_logged_by_kind_witness :
  let unknown := "https://www.linkedin.com/in/nobody" in
  scrape_profile unknown Sim.signed_in
  = (set_logger
       (logger Sim.signed_in
        ++ [ (INFO, ("Scraping profile: " ++ unknown)%string);
             (ERROR,
              if is_TimeoutException Sim.timeout then
                ("Timeout while scraping profile: " ++ unknown)%string
              else
                ("Error scraping profile " ++ unknown ++ ": "
                 ++ str Sim.timeout)%string) ])
       (set_driver (Sim.goto unknown Sim.feed) Sim.signed_in),
     Ok (new_profile_data unknown)).
Proof.
  intros unknown.
  apply (sync_failure_is_logged_by_kind unknown Sim.signed_in Sim.signed_in
           (Sim.goto unknown Sim.feed) (Sim.goto unknown Sim.feed) Sim.timeout).
  - left. split; reflexivity.
  - reflexivity.
  - vm_compute. reflexivity.
Defined.

(** ** More on the extractors *)

Lemma classify_key_known link_text link_url key v :
  classify link_text link_url = Some (key, v) ->
  In key ["Twitter"; "GitHub"; "Facebook"; "Instagram"; "Website"].
Proof.
  unfold classify. cbn [known_labels find existsb fst snd].
  rewrite !orb_false_r.
  destruct (PyStr.contains "twitter" _);
    [intros [= <- _]; simpl; tauto|].
  destruct (PyStr.contains "github" _);
    [intros [= <- _]; simpl; tauto|].
  destruct (PyStr.contains "facebook" _);
    [intros [= <- _]; simpl; tauto|].
  destruct (PyStr.contains "instagram" _);
    [intros [= <- _]; simpl; tauto|].
  destruct (PyStr.contains "website" _ || PyStr.contains "portfolio" _);
    [intros [= <- _]; simpl; tauto | discriminate].
Qed.

Lemma classified_keys_known links key :
  In key (keys (classified links)) ->
  In key ["Twitter"; "GitHub"; "Facebook"; "Instagram"; "Website"].
Proof.
  induction links as [|link links IH]; simpl; [tauto|].
  destruct (Soup.get "href" link) as [u|]; [|simpl; tauto].
  destruct (classify (stripped_text link) u) as [[k v]|] eqn:E; [|exact IH].
  simpl. intros [<-|Hin]; [|now apply IH].
  exact (classify_key_known _ _ _ _ E).
Qed.

(** X5.  Whatever the page holds, the social-link extractor records
    under the five labels only: from the initial record, every key of
    [Socials] is one of Twitter, GitHub, Facebook, Instagram and
    Website. *)
Theorem socials_keys_are_known_labels
    (soup : Soup.element) (url : string) (d : dict string) (key : string) :
  PyDict.get "Socials" (fst (extract_socials soup (new_profile_data url)))
  = Some (VDict d) ->
  In key (keys d) ->
  In key ["Twitter"; "GitHub"; "Facebook"; "Instagram"; "Website"].
Proof.
  rewrite ExtractFacts.new_profile_data_shape, ExtractFacts.extract_socials_spec.
  cbn [fst]. intros [= <-] Hin.
  apply PyDictFacts.In_keys_update in Hin. destruct Hin as [Hin|[]].
  now apply (classified_keys_known (social_links soup)).
Qed.

Lemma socials_keys_are_known_labels_witness :
  In "Twitter" ["Twitter"; "GitHub"; "Facebook"; "Instagram"; "Website"].
Proof.
  apply (socials_keys_are_known_labels Sim.ada_loaded Sim.ada_url
           [("Twitter", "@ada")] "Twitter").
  - vm_compute. reflexivity.
  - left. reflexivity.
Defined.

Lemma classified_app_all good rest :
  forallb has_href good = true ->
  classified (good ++ rest) = classified good ++ classified rest.
Proof.
  unfold has_href. induction good as [|link good IH]; simpl; [reflexivity|].
  destruct (Soup.get "href" link) as [u|]; [|discriminate].
  simpl. intros Hgood.
  destruct (classify (stripped_text link) u); rewrite IH by assumption;
    reflexivity.
Qed.

Lemma classified_keys_entries links key :
  In key (keys (classified links)) ->
  exists link u v, In link links /\ Soup.get "href" link = Some u
                   /\ classify (stripped_text link) u = Some (key, v).
Proof.
  induction links as [|link links IH]; simpl; [tauto|].
  destruct (Soup.get "href" link) as [u|] eqn:Eh; [|simpl; tauto].
  destruct (classify (stripped_text link) u) as [[k v]|] eqn:E.
  - simpl. intros [<-|Hin].
    + exists link, u, v. repeat split; [now left | assumption | assumption].
    + destruct (IH Hin) as [l [u' [v' [H1 H2]]]].
      exists l, u', v'. split; [now right | exact H2].
  - intros Hin. destruct (IH Hin) as [l [u' [v' [H1 H2]]]].
    exists l, u', v'. split; [now right | exact H2].
Qed.

(** X6.  Among the social links the last one of a label wins: when
    every link up to one has its [href], that one is classified under
    [key] with the value [v], and no later link is classified under
    [key], the [Socials] mapping has [v] under [key], whatever the links
    after it do. *)
Theorem last_social_link_of_a_label_wins
    (soup : Soup.element) (url : string)
    (before after : list Soup.element) (link : Soup.element)
    (link_url key v : string) :
  social_links soup = before ++ link :: after ->
  forallb has_href before = true ->
  Soup.get "href" link = Some link_url ->
  classify (stripped_text link) link_url = Some (key, v) ->
  (forall later u v', In later after -> Soup.get "href" later = Some u ->
     classify (stripped_text later) u <> Some (key, v')) ->
  exists d,
    PyDict.get "Socials" (fst (extract_socials soup (new_profile_data url)))
    = Some (VDict d)
    /\ PyDict.get key d = Some v.
Proof.
  intros Hlinks Hbefore Hhref Hclass Hlater.
  rewrite ExtractFacts.new_profile_data_shape, ExtractFacts.extract_socials_spec.
  cbn [fst]. eexists. split; [reflexivity|].
  cbn [p_socials with_socials new_profile]. rewrite Hlinks.
  rewrite classified_app_all by assumption.
  cbn [classified]. rewrite Hhref, Hclass.
  apply PyDictFacts.get_update_last. intros Hin.
  destruct (classified_keys_entries after key Hin) as [l [u [v' [H1 [H2 H3]]]]].
  exact (Hlater l u v' H1 H2 H3).
Qed.

Lemma last_social_link_of_a_label_wins_witness :
  let page :=
    Soup.document
      [Sim.contact_info
         [ Sim.anchor (Some "https://twitter.com/old") "@old";
           Sim.anchor (Some "https://twitter.com/new") "@new";
           Sim.anchor (Some "https://github.com/ada") "ada" ]] in
  exists d,
    PyDict.get "Socials" (fst (extract_socials page (new_profile_data Sim.ada_url)))
    = Some (VDict d)
    /\ PyDict.get "Twitter" d = Some "@new".
Proof.
  intros page.
  set (links := social_links page).
  apply (last_social_link_of_a_label_wins page Sim.ada_url
           (firstn 1 links) (skipn 2 links) (nth 1 links page)
           "https://twitter.com/new" "Twitter" "@new").
  - vm_compute. reflexivity.
  - vm_compute. reflexivity.
  - vm_compute. reflexivity.
  - vm_compute. reflexivity.
  - intros later u v' Hin Hu Hc.
    vm_compute in Hin. destruct Hin as [<-|[]].
    vm_compute in Hu. injection Hu as <-.
    vm_compute in Hc. discriminate.
Defined.

(** ** Sizes, trimmed texts and untouched fields *)

Lemma length_set {V} k (v : V) (d : dict V) :
  length (PyDict.set k v d) <= S (length d).
Proof.
  induction d as [|[k' v'] d IH]; simpl; [lia|].
  destruct (String.eqb k k'); simpl; lia.
Qed.

Lemma length_update {V} (es : list (string * V)) (d : dict V) :
  length (update es d) <= length d + length es.
Proof.
  revert d. induction es as [|[k v] es IH]; intros d; simpl; [lia|].
  specialize (IH (PyDict.set k v d)). pose proof (length_set k v d). lia.
Qed.

Lemma length_filter_map {A B} (f : A -> option B) (l : list A) :
  length (filter_map f l) <= length l.
Proof.
  induction l as [|x l IH]; simpl; [lia|].
  destruct (f x); simpl; lia.
Qed.

(** X7.  A section mapping never has more entries than its region has
    items, and its keys are all different: from the initial record,
    each of the four section extractors leaves a mapping with at most
    one entry per item of the region, no key twice. *)
Theorem section_mapping_is_bounded_by_its_region
    (k : section) (soup : Soup.element) (url : string) :
  exists d,
    PyDict.get (field_of k) (fst (extractor k soup (new_profile_data url)))
    = Some (VDict d)
    /\ length d <= length (section_items k soup)
    /\ NoDup (keys d).
Proof.
  rewrite ExtractFacts.new_profile_data_shape, ExtractFacts.extractor_spec.
  cbn [fst]. rewrite get_field_to_record. eexists. split; [reflexivity|].
  unfold after_section. rewrite ExtractFacts.field_with_field, field_new.
  split.
  - pose proof (length_update (section_entries k soup) []) as Hl.
    pose proof (length_filter_map (item_entry k) (section_items k soup)) as Hf.
    unfold section_entries in *. simpl in Hl. lia.
  - apply PyDictFacts.NoDup_update. constructor.
Qed.

Module StripFacts.

Import PyStr.

Lemma lstrip_head s :
  match lstrip s with
  | EmptyString => True
  | String c _ => isspace c = false
  end.
Proof.
  induction s as [|c s IH]; simpl; [exact I|].
  destruct (isspace c) eqn:E; [exact IH | exact E].
Qed.

Lemma rstrip_twice s : rstrip (rstrip s) = rstrip s.
Proof.
  induction s as [|c s IH]; simpl; [reflexivity|].
  destruct (rstrip s) as [|c' r] eqn:E.
  - destruct (isspace c) eqn:Ec; simpl; [reflexivity | now rewrite Ec].
  - change (rstrip (String c (String c' r)) = String c (String c' r)).
    cbn [rstrip]. cbn [rstrip] in IH.
    destruct (rstrip r) as [|c'' r'] eqn:Er.
    + destruct (isspace c') eqn:Ec'; [discriminate IH | now rewrite IH].
    + now rewrite IH.
Qed.

Lemma rstrip_head s c s' :
  s = String c s' -> isspace c = false ->
  exists r, rstrip s = String c r.
Proof.
  intros -> Hc. simpl. destruct (rstrip s').
  - rewrite Hc. now exists EmptyString.
  - now eexists.
Qed.

(** Stripping a stripped string changes nothing. *)
Lemma strip_twice s : strip (strip s) = strip s.
Proof.
  unfold strip. pose proof (lstrip_head s) as Hh.
  destruct (lstrip s) as [|c t] eqn:E; [reflexivity|].
  destruct (rstrip_head (String c t) c t eq_refl Hh) as [r Hr].
  rewrite Hr. cbn [lstrip]. rewrite Hh, <- Hr. apply rstrip_twice.
Qed.

End StripFacts.

Lemma In_set {V} k (v : V) (d : dict V) k' v' :
  In (k', v') (PyDict.set k v d) -> (k', v') = (k, v) \/ In (k', v') d.
Proof.
  induction d as [|[k0 v0] d IH]; simpl.
  - intros [Heq|[]]. left. now symmetry.
  - destruct (String.eqb k k0) eqn:E; simpl.
    + apply String.eqb_eq in E. subst k0.
      intros [Heq|Hin]; [left; now symmetry | right; now right].
    + intros [Heq|Hin]; [right; now left|].
      destruct (IH Hin); [now left | right; now right].
Qed.

Lemma In_update {V} (es : list (string * V)) (d : dict V) e :
  In e (update es d) -> In e es \/ In e d.
Proof.
  revert d. induction es as [|[k v] es IH]; intros d; simpl; [tauto|].
  intros Hin. destruct (IH _ Hin) as [H1|H1]; [left; now right|].
  destruct e as [k' v']. apply In_set in H1. destruct H1 as [->|H1]; tauto.
Qed.

Lemma In_filter_map {A B} (f : A -> option B) (l : list A) y :
  In y (filter_map f l) -> exists x, In x l /\ f x = Some y.
Proof.
  induction l as [|x l IH]; simpl; [tauto|].
  destruct (f x) as [y'|] eqn:E.
  - intros [<-|Hin]; [exists x; split; [now left | exact E]|].
    destruct (IH Hin) as [x' [H1 H2]]. exists x'. split; [now right | exact H2].
  - intros Hin. destruct (IH Hin) as [x' [H1 H2]].
    exists x'. split; [now right | exact H2].
Qed.

(** X8.  The texts the extractors record are trimmed: the name and the
    bio, and every key and every value of the four section mappings,
    have no white space at either end (stripping them again changes
    nothing). *)
Theorem extracted_texts_are_trimmed
    (soup : Soup.element) (url : string) :
  (forall t,
     PyDict.get "Name" (fst (extract_name soup (new_profile_data url)))
     = Some (VStr t) -> PyStr.strip t = t)
  /\ (forall t,
        PyDict.get "Bio" (fst (extract_bio soup (new_profile_data url)))
        = Some (VStr t) -> PyStr.strip t = t)
  /\ (forall k d key v,
        PyDict.get (field_of k) (fst (extractor k soup (new_profile_data url)))
        = Some (VDict d) ->
        In (key, v) d -> PyStr.strip key = key /\ PyStr.strip v = v).
Proof.
  rewrite ExtractFacts.new_profile_data_shape. split; [|split].
  - intros t. rewrite ExtractFacts.extract_name_spec. cbn [fst].
    unfold text_at. destruct (Soup.select_one sel_name soup); simpl.
    + intros [= <-]. apply StripFacts.strip_twice.
    + intros [= <-]. reflexivity.
  - intros t. rewrite ExtractFacts.extract_bio_spec. cbn [fst].
    unfold text_at. destruct (Soup.select_one sel_bio soup); simpl.
    + intros [= <-]. apply StripFacts.strip_twice.
    + intros [= <-]. reflexivity.
  - intros k d key v. rewrite ExtractFacts.extractor_spec. cbn [fst].
    rewrite get_field_to_record. intros [= <-].
    unfold after_section. rewrite ExtractFacts.field_with_field, field_new.
    intros Hin. apply In_update in Hin. destruct Hin as [Hin|[]].
    apply In_filter_map in Hin. destruct Hin as [item [_ Hentry]].
    unfold item_entry in Hentry.
    destruct (Soup.select_one (key_selector k) item) as [ke|]; [|discriminate].
    destruct (Soup.select_one (value_selector k) item) as [ve|].
    + injection Hentry as <- <-. split; apply StripFacts.strip_twice.
    + destruct (value_required k); [discriminate|].
      injection Hentry as <- <-. split; [apply StripFacts.strip_twice | reflexivity].
Qed.

Lemma extracted_texts_are_trimmed_witness :
  PyStr.strip "Ada" = "Ada"
  /\ PyStr.strip "Babbage & Co" = "Babbage & Co".
Proof.
  destruct (extracted_texts_are_trimmed Sim.ada_expanded Sim.ada_url)
    as [Hname [_ Hsections]].
  split.
  - apply (proj1 (extracted_texts_are_trimmed Sim.ada_loaded Sim.ada_url)).
    vm_compute. reflexivity.
  - apply (Hsections Experience [("Babbage & Co", "Analyst")]
             "Babbage & Co" "Analyst").
    + vm_compute. reflexivity.
    + left. reflexivity.
Defined.

(** X9.  Each extractor writes its own field only: the name, bio and
    social-link extractors and the four section extractors leave every
    other field of a complete record as it was. *)
Theorem extractors_write_their_own_field_only
    (soup : Soup.element) (p : profile) (f : string) :
  (f <> "Name" ->
   PyDict.get f (fst (extract_name soup (to_record p)))
   = PyDict.get f (to_record p))
  /\ (f <> "Bio" ->
      PyDict.get f (fst (extract_bio soup (to_record p)))
      = PyDict.get f (to_record p))
  /\ (f <> "Socials" ->
      PyDict.get f (fst (extract_socials soup (to_record p)))
      = PyDict.get f (to_record p))
  /\ (forall k, f <> field_of k ->
        PyDict.get f (fst (extractor k soup (to_record p)))
        = PyDict.get f (to_record p)).
Proof.
  assert (forall a b : string, a <> b -> String.eqb a b = false) as Hne
    by (intros a b; apply String.eqb_neq).
  split; [|split; [|split]].
  - intros Hf. rewrite ExtractFacts.extract_name_spec. cbn [fst].
    destruct (text_at sel_name soup); [|reflexivity].
    simpl. now rewrite (Hne _ _ Hf).
  - intros Hf. rewrite ExtractFacts.extract_bio_spec. cbn [fst].
    destruct (text_at sel_bio soup); [|reflexivity].
    simpl. now rewrite (Hne _ _ Hf).
  - intros Hf. rewrite ExtractFacts.extract_socials_spec. cbn [fst].
    simpl. now rewrite (Hne _ _ Hf).
  - intros k Hf. rewrite ExtractFacts.extractor_spec. cbn [fst].
    destruct k; simpl in *; now rewrite (Hne _ _ Hf).
Qed.

Lemma extractors_write_their_own_field_only_witness :
  PyDict.get "Name"
    (fst (extract_experience Sim.ada_expanded
            (to_record (new_profile Sim.ada_url))))
  = PyDict.get "Name" (to_record (new_profile Sim.ada_url)).
Proof.
  destruct (extractors_write_their_own_field_only Sim.ada_expanded
              (new_profile Sim.ada_url) "Name") as [_ [_ [_ Hk]]].
  apply (Hk Experience). discriminate.
Defined.

(** ** The batch runner, its edges and its way out *)

Section BatchEdges.

Context {W : Type} `{WebDriver W}.

Implicit Types (s : state W).

(** X10.  When reading the Excel file raises, no CSV file is opened and
    no profile is visited: the error is logged, the browser is quit, and
    the exception is raised again (or the one of [quit], if quitting
    raises too). *)
Theorem unreadable_input_closes_and_reraises
    (e : exn) (output_csv : string) (s : state W) :
  let failed :=
    set_logger
      (logger s
       ++ [(ERROR, ("Error scraping profiles from Excel: " ++ str e)%string)])
      s in
  scrape_profiles_from_excel (Raise e) output_csv s
  = match driver_quit (self_driver s) with
    | (w, Ok _) =>
        (set_logger (logger failed ++ [(INFO, "WebDriver closed")])
           (set_driver w failed),
         Raise e)
    | (w, Raise e') => (set_driver w failed, Raise e')
    end.
Proof.
  intros failed. unfold scrape_profiles_from_excel, try_finally, try_except.
  unfold bind at 1. cbn [fst snd]. unfold bind at 1.
  cbn [logger_error log modify raise].
  unfold close, bind, call. fold failed. cbn [self_driver failed set_logger].
  destruct (driver_quit (self_driver s)) as [w [[]|e']]; reflexivity.
Qed.

(** X11.  Once the list of identifiers was read, the batch runner ends
    as [close] ends: it runs [close] on a state whose CSV file holds the
    header and one complete row per identifier and whose log ends with
    the completion record.  So it raises exactly when quitting the
    browser raises, and raises that exception. *)
Theorem batch_ends_as_close_ends
    (urls : list string) (output_csv : string) (s : state W) :
  exists s1 rows,
    scrape_profiles_from_excel (Ok urls) output_csv s = close s1
    /\ csvfile s1 = map VStr fieldnames :: rows
    /\ Forall2 complete_row urls rows
    /\ (exists l,
          logger s1
          = l ++ [(INFO, ("Scraping completed. Results saved to "
                          ++ output_csv)%string)])
    /\ snd (scrape_profiles_from_excel (Ok urls) output_csv s)
       = match snd (driver_quit (self_driver s1)) with
         | Ok _ => Ok tt
         | Raise e' => Raise e'
         end.
Proof.
  destruct (scrape_loop_run urls
              (set_csvfile (csvfile (set_csvfile [] s) ++ [map VStr fieldnames])
                 (set_csvfile [] s)))
    as [s0 [rows [Hloop [Hc Hrows]]]].
  set (s1 := set_logger
               (logger s0
                ++ [(INFO, ("Scraping completed. Results saved to "
                            ++ output_csv)%string)]) s0).
  assert (scrape_profiles_from_excel (Ok urls) output_csv s = close s1) as Hrun.
  { unfold scrape_profiles_from_excel, try_finally, try_except.
    unfold bind at 1. cbn [fst snd]. unfold bind at 1. cbn [modify].
    unfold bind at 1. cbn [writeheader modify]. unfold bind at 1.
    rewrite Hloop. cbn [logger_info log modify]. fold s1.
    destruct (close s1) as [s2 [[]|e']]; reflexivity. }
  exists s1, rows. split; [exact Hrun|]. split; [exact Hc|].
  split; [exact Hrows|]. split; [now eexists|].
  rewrite Hrun. unfold close, bind, call.
  destruct (driver_quit (self_driver s1)) as [w [[]|e'']]; reflexivity.
Qed.

(** X12.  With no identifier the batch runner writes the header alone
    and never touches the session: no login is attempted, the scraper is
    neither logged in nor out, and the browser reaches [close] as it
    was. *)
Theorem empty_batch_writes_header_only (output_csv : string) (s : state W) :
  let s1 :=
    set_logger
      (logger s ++ [(INFO, ("Scraping completed. Results saved to "
                            ++ output_csv)%string)])
      (set_csvfile [map VStr fieldnames] s) in
  scrape_profiles_from_excel (Ok []) output_csv s = close s1
  /\ csvfile (fst (scrape_profiles_from_excel (Ok []) output_csv s))
     = [map VStr fieldnames]
  /\ login_attempts (logger (fst (scrape_profiles_from_excel (Ok []) output_csv s)))
     = login_attempts (logger s)
  /\ self_is_logged_in (fst (scrape_profiles_from_excel (Ok []) output_csv s))
     = self_is_logged_in s.
Proof.
  intros s1.
  assert (scrape_profiles_from_excel (Ok []) output_csv s = close s1) as Hrun.
  { unfold scrape_profiles_from_excel, try_finally, try_except.
    unfold bind at 1. cbn [fst snd]. unfold bind at 1. cbn [modify].
    unfold bind at 1. cbn [writeheader modify]. unfold bind at 1.
    cbn [for_each ret]. cbn [logger_info log modify].
    change (set_logger _ _) with s1.
    destruct (close s1) as [s2 [[]|e']]; reflexivity. }
  split; [exact Hrun|]. rewrite Hrun.
  unfold close, bind, call.
  destruct (driver_quit (self_driver s1)) as [w [[]|e']]; cbn [fst];
    repeat split; unfold s1; simpl;
    rewrite ?login_attempts_other by discriminate; reflexivity.
Qed.

(** X13.  A batch of N identifiers makes at most N login attempts. *)
Theorem login_attempts_are_bounded_by_the_batch
    (urls : list string) (s : state W) :
  login_attempts (logger (fst (for_each urls scrape_one s)))
  <= login_attempts (logger s) + length urls.
Proof.
  revert s. induction urls as [|url urls IH]; intros s; simpl; [lia|].
  unfold bind.
  destruct (scrape_one_run url s) as [s1 [row [Hrun [_ [_ [Hn _]]]]]].
  rewrite Hrun. specialize (IH s1).
  destruct (self_is_logged_in s); lia.
Qed.

(** X14.  When every login fails, a batch started logged out gives
    nothing but empty rows, one per identifier, and makes one login
    attempt per identifier; the scraper ends logged out. *)
Theorem failing_login_gives_empty_rows (urls : list string) (s : state W) :
  (forall s0 : state W, exists s1 e, login s0 = (s1, Raise e)) ->
  self_is_logged_in s = false ->
  exists s',
    for_each urls scrape_one s = (s', Ok tt)
    /\ csvfile s' = csvfile s ++ map empty_row urls
    /\ login_attempts (logger s') = login_attempts (logger s) + length urls
    /\ self_is_logged_in s' = false.
Proof.
  intros Hfail. revert s. induction urls as [|url urls IH]; intros s Hout; simpl.
  - exists s. rewrite app_nil_r, Nat.add_0_r. now repeat split.
  - unfold bind.
    destruct (scrape_one_run url s) as [s1 [row [Hrun [Hc [_ [Hn [_ Hraise]]]]]]].
    rewrite Hrun. rewrite Hout in Hn.
    destruct (Hfail s) as [s2 [e Hlog]].
    destruct (Hraise s2 e (scrape_profile_login_raises url s s2 e Hout Hlog))
      as [-> Hout1].
    destruct (IH s1 Hout1) as [s' [Hloop [Hc' [Hn' Hout']]]].
    exists s'. rewrite Hloop. repeat split.
    + rewrite Hc', Hc, <- app_assoc. reflexivity.
    + lia.
    + exact Hout'.
Qed.

End BatchEdges.

Lemma crashed_login_fails (s0 : state unit) :
  exists s1 e, login s0 = (s1, Raise e).
Proof. do 2 eexists. reflexivity. Defined.

Lemma failing_login_gives_empty_rows_witness :
  let urls := [Sim.ada_url; "https://www.linkedin.com/in/bob"] in
  exists s',
    for_each urls scrape_one Crashed.scraper = (s', Ok tt)
    /\ csvfile s' = csvfile Crashed.scraper ++ map empty_row urls
    /\ login_attempts (logger s')
       = login_attempts (logger Crashed.scraper) + length urls
    /\ self_is_logged_in s' = false.
Proof.
  intros urls.
  apply (failing_login_gives_empty_rows urls Crashed.scraper).
  - exact crashed_login_fails.
  - reflexivity.
Defined.

(** ** The entry point *)

Section MainOutcome.

Context {W : Type} `{WebDriver W}.

(** X15.  [main] on a fresh scraper.  When Chrome cannot be started no
    scraper is made and the log grows by one error record.  When it
    starts and the list of identifiers is read, [main] leaves a scraper
    whose CSV file holds the header and one complete row per identifier,
    in order, whatever the browser does afterwards, quitting included. *)
Theorem main_leaves_one_row_per_identifier
    (Chrome : list string -> result W) (urls : list string)
    (log0 : list log_record) :
  (forall e, Chrome (chrome_arguments false) = Raise e ->
     forall excel,
       main Chrome excel log0
       = (None,
          log0 ++ [(ERROR, ("Error in main function: " ++ str e)%string)]))
  /\ (forall w, Chrome (chrome_arguments false) = Ok w ->
        exists s' rows,
          main Chrome (Ok urls) log0 = (Some s', logger s')
          /\ csvfile s' = map VStr fieldnames :: rows
          /\ Forall2 complete_row urls rows).
Proof.
  split.
  - intros e HChrome excel. unfold main, __init__, _setup_driver.
    now rewrite HChrome.
  - intros w HChrome. unfold main, __init__, _setup_driver. rewrite HChrome.
    set (scraper := {| self_email := EMAIL; self_password := PASSWORD;
                       self_driver := w; self_is_logged_in := false;
                       logger := log0; csvfile := [] |}).
    destruct (batch_csvfile urls OUTPUT_CSV scraper) as [rows [Hc Hrows]].
    unfold try_except.
    destruct (scrape_profiles_from_excel (Ok urls) OUTPUT_CSV scraper)
      as [s1 [[]|e]]; cbn [fst] in Hc.
    + exists s1, rows. now repeat split.
    + unfold logger_error, log, modify.
      eexists. exists rows. split; [reflexivity|]. now split.
Qed.

End MainOutcome.

Lemma main_leaves_one_row_per_identifier_witness :
  let Chrome := fun _ : list string => Ok (Sim.open Sim.ada_site [true]) in
  exists s' rows,
    main Chrome (Ok [Sim.ada_url]) [] = (Some s', logger s')
    /\ csvfile s' = map VStr fieldnames :: rows
    /\ Forall2 complete_row [Sim.ada_url] rows.
Proof.
  intros Chrome.
  destruct (main_leaves_one_row_per_identifier Chrome [Sim.ada_url] [])
    as [_ Hstarted].
  apply (Hstarted (Sim.open Sim.ada_site [true])). reflexivity.
Defined.

(** ** What [scrape_profile] leaves alone *)

(** X16.  [scrape_profile] never writes to the CSV file and never logs
    the scraper out; it makes one login attempt exactly when the scraper
    was logged out; and whenever it returns a record, the scraper is
    logged in. *)
Theorem scrape_profile_keeps_file_and_session {W : Type} `{WebDriver W}
    (url : string) (s : state W) :
  let s' := fst (scrape_profile url s) in
  csvfile s' = csvfile s
  /\ login_attempts (logger s')
     = login_attempts (logger s) + (if self_is_logged_in s then 0 else 1)
  /\ (self_is_logged_in s = true -> self_is_logged_in s' = true)
  /\ (forall pd, snd (scrape_profile url s) = Ok pd ->
        self_is_logged_in s' = true).
Proof.
  destruct (scrape_profile_cases url s)
    as [[Hin [s1 [pd [Hrun [_ [Hc [Hb Hn]]]]]]]
       |[[Hin [s1 [pd [Hrun [_ [Hc [Hb Hn]]]]]]]
        |[Hin [s1 [e [Hrun [_ [Hc [Hb Hn]]]]]]]]];
    rewrite Hrun, Hin; cbn [fst snd]; repeat split; intros;
    try assumption; try lia; try discriminate.
Qed.

Lemma scrape_profile_keeps_file_and_session_witness :
  self_is_logged_in (fst (scrape_profile Sim.ada_url Sim.signed_in)) = true
  /\ self_is_logged_in (fst (scrape_profile Sim.ada_url Sim.online)) = true.
Proof.
  split.
  - apply (proj1 (proj2 (proj2
             (scrape_profile_keeps_file_and_session Sim.ada_url Sim.signed_in)))).
    reflexivity.
  - apply (proj2 (proj2 (proj2
             (scrape_profile_keeps_file_and_session Sim.ada_url Sim.online)))
             (extract_all Sim.ada_loaded Sim.ada_expanded
                (new_profile_data Sim.ada_url))).
    vm_compute. reflexivity.
Defined.

(* ================================================================== *)
(** * Entries with a missing field *)

Lemma section_mapping k soup url :
  PyDict.get (field_of k) (fst (extractor k soup (new_profile_data url)))
  = Some (VDict (update (section_entries k soup) [])).
Proof.
  rewrite ExtractFacts.new_profile_data_shape, ExtractFacts.extractor_spec.
  cbn [fst]. rewrite get_field_to_record. unfold after_section.
  now rewrite ExtractFacts.field_with_field, field_new.
Qed.

(** An entry that gives a key has its key half, whose text is the key,
    and misses no required field. *)
Lemma item_entry_complete k item key v :
  item_entry k item = Some (key, v) ->
  exists key_element,
    Soup.select_one (key_selector k) item = Some key_element
    /\ stripped_text key_element = key
    /\ ~ lacks_required k item.
Proof.
  unfold item_entry, lacks_required.
  destruct (Soup.select_one (key_selector k) item) as [ke|]; [|discriminate].
  destruct (Soup.select_one (value_selector k) item) as [ve|].
  - intros [= <- _]. exists ke. repeat split.
    intros [Hk|[_ Hv]]; discriminate.
  - destruct (value_required k); [discriminate|].
    intros [= <- _]. exists ke. repeat split.
    intros [Hk|[Hr _]]; discriminate.
Qed.

Lemma item_entry_lacking k item :
  lacks_required k item -> item_entry k item = None.
Proof.
  unfold item_entry. intros [->|[Hreq Hval]]; [reflexivity|].
  rewrite Hval, Hreq. now destruct (Soup.select_one (key_selector k) item).
Qed.

Lemma filter_map_none {A B} (f : A -> option B) (l : list A) :
  (forall x, In x l -> f x = None) -> filter_map f l = [].
Proof.
  induction l as [|x l IH]; intros Hnone; simpl; [reflexivity|].
  rewrite (Hnone x) by now left. apply IH. intros y Hy. apply Hnone. now right.
Qed.

(** An entry of a section whose value half is optional, with its key
    half and no value half, is recorded under its key with the empty
    string, unless a later entry has the same key. *)
Lemma optional_half_recorded k soup url before entry after key_element :
  value_required k = false ->
  section_items k soup = before ++ entry :: after ->
  Soup.select_one (key_selector k) entry = Some key_element ->
  Soup.select_one (value_selector k) entry = None ->
  (forall later later_key,
     In later after ->
     Soup.select_one (key_selector k) later = Some later_key ->
     stripped_text later_key <> stripped_text key_element) ->
  exists d,
    PyDict.get (field_of k) (fst (extractor k soup (new_profile_data url)))
    = Some (VDict d)
    /\ PyDict.get (stripped_text key_element) d = Some "".
Proof.
  intros Hopt Hitems Hkey Hval Hlater.
  rewrite section_mapping. eexists. split; [reflexivity|].
  unfold section_entries. rewrite Hitems, filter_map_app. cbn [filter_map].
  assert (item_entry k entry = Some (stripped_text key_element, "")) as ->.
  { unfold item_entry. now rewrite Hkey, Hval, Hopt. }
  apply PyDictFacts.get_update_last. intros Hin.
  destruct (keys_filter_map_entries k after _ Hin) as [later [v [H1 H2]]].
  destruct (item_entry_complete k later _ v H2) as [ke [H3 [H4 _]]].
  exact (Hlater later ke H1 H3 H4).
Qed.

(** C8.  An entry that misses its required field adds nothing to its
    mapping: an experience entry with no organization or no role, an
    education entry with no institution, a certification entry with no
    name or no issuer and a project entry with no title leave
    [profile_data] as it is, and the loop over a region gives what it
    gives with that entry taken out.  So every key of the mapping an
    extractor leaves comes from an entry of the region that misses no
    required field, and a region all of whose entries miss one leaves
    the mapping empty.  An education entry with no degree and a project
    entry with no description are recorded: the mapping has the empty
    string under the institution, or the title, unless a later entry
    has the same key. *)
Theorem entries_missing_required_field_are_skipped
    (item : Soup.element) (pd : record) :
  (Soup.select_one sel_company item = None
   \/ Soup.select_one sel_role item = None ->
   experience_item item pd = (pd, Ok tt))
  /\ (Soup.select_one sel_school item = None ->
      education_item item pd = (pd, Ok tt))
  /\ (Soup.select_one sel_certification_name item = None
      \/ Soup.select_one sel_issuer item = None ->
      certification_item item pd = (pd, Ok tt))
  /\ (Soup.select_one sel_title item = None ->
      project_item item pd = (pd, Ok tt))
  /\ (forall k l1 l2, lacks_required k item ->
        for_each (l1 ++ item :: l2) (item_body k) pd
        = for_each (l1 ++ l2) (item_body k) pd)
  /\ (forall school_element,
        Soup.select_one sel_school item = Some school_element ->
        Soup.select_one sel_degree item = None ->
        education_item item pd
        = setitem_in "Education" (stripped_text school_element) "" pd)
  /\ (forall title_element,
        Soup.select_one sel_title item = Some title_element ->
        Soup.select_one sel_description item = None ->
        project_item item pd
        = setitem_in "Projects" (stripped_text title_element) "" pd)
  /\ (forall k soup url d key,
        PyDict.get (field_of k) (fst (extractor k soup (new_profile_data url)))
        = Some (VDict d) ->
        In key (keys d) ->
        exists entry key_element,
          In entry (section_items k soup)
          /\ ~ lacks_required k entry
          /\ Soup.select_one (key_selector k) entry = Some key_element
          /\ stripped_text key_element = key)
  /\ (forall k soup url,
        (forall entry, In entry (section_items k soup) ->
           lacks_required k entry) ->
        PyDict.get (field_of k) (fst (extractor k soup (new_profile_data url)))
        = Some (VDict []))
  /\ (forall soup url before entry after school_element,
        section_items Education soup = before ++ entry :: after ->
        Soup.select_one sel_school entry = Some school_element ->
        Soup.select_one sel_degree entry = None ->
        (forall later later_school,
           In later after ->
           Soup.select_one sel_school later = Some later_school ->
           stripped_text later_school <> stripped_text school_element) ->
        exists d,
          PyDict.get "Education"
            (fst (extract_education soup (new_profile_data url)))
          = Some (VDict d)
          /\ PyDict.get (stripped_text school_element) d = Some "")
  /\ (forall soup url before entry after title_element,
        section_items Projects soup = before ++ entry :: after ->
        Soup.select_one sel_title entry = Some title_element ->
        Soup.select_one sel_description entry = None ->
        (forall later later_title,
           In later after ->
           Soup.select_one sel_title later = Some later_title ->
           stripped_text later_title <> stripped_text title_element) ->
        exists d,
          PyDict.get "Projects"
            (fst (extract_projects soup (new_profile_data url)))
          = Some (VDict d)
          /\ PyDict.get (stripped_text title_element) d = Some "").
Proof.
  split; [|split; [|split; [|split; [|split; [|split; [|split;
    [|split; [|split; [|split]]]]]]]]].
  - intros [Hc|Hr].
    + apply (item_body_lacking Experience). now left.
    + apply (item_body_lacking Experience). right. now split.
  - intros Hs. apply (item_body_lacking Education). now left.
  - intros [Hn|Hi].
    + apply (item_body_lacking Certifications). right. now split.
    + apply (item_body_lacking Certifications). now left.
  - intros Ht. apply (item_body_lacking Projects). now left.
  - intros k l1 l2 Hlack. apply for_each_skip.
    intros pd'. now apply item_body_lacking.
  - intros school Hs Hd. unfold education_item. now rewrite Hs, Hd.
  - intros title Ht Hd. unfold project_item. now rewrite Ht, Hd.
  - intros k soup url d key. rewrite section_mapping. intros [= <-] Hin.
    apply PyDictFacts.In_keys_update in Hin. destruct Hin as [Hin|[]].
    destruct (keys_filter_map_entries k (section_items k soup) key Hin)
      as [entry [v [H1 H2]]].
    destruct (item_entry_complete k entry key v H2) as [ke [H3 [H4 H5]]].
    exists entry, ke. now repeat split.
  - intros k soup url Hall. rewrite section_mapping.
    unfold section_entries. rewrite filter_map_none; [reflexivity|].
    intros entry Hin. apply item_entry_lacking. now apply Hall.
  - intros soup url before entry after school Hitems Hs Hd Hlater.
    exact (optional_half_recorded Education soup url before entry after school
             eq_refl Hitems Hs Hd Hlater).
  - intros soup url before entry after title Hitems Ht Hd Hlater.
    exact (optional_half_recorded Projects soup url before entry after title
             eq_refl Hitems Ht Hd Hlater).
Qed.

Lemma entries_missing_required_field_are_skipped_witness :
  let pd := new_profile_data Sim.ada_url in
  let untitled := Sim.alone (Sim.position None (Some "Translator")) in
  let unschooled := Sim.alone (Sim.li ["pv-education-entity"] []) in
  let school :=
    Sim.span ["pv-entity__school-name"] [Sim.txt " Cambridge "] in
  let schooled := Sim.alone (Sim.li ["pv-education-entity"] [school]) in
  let page :=
    Soup.document
      [Sim.sect "education-section"
         [Soup.Tag "ul" [] []
            [ Sim.li ["pv-education-entity"] [school];
              Sim.li ["pv-education-entity"] [] ]]] in
  let bare :=
    Soup.document
      [Sim.sect "education-section"
         [Soup.Tag "ul" [] [] [Sim.li ["pv-education-entity"] []]]] in
  experience_item untitled pd = (pd, Ok tt)
  /\ education_item unschooled pd = (pd, Ok tt)
  /\ certification_item unschooled pd = (pd, Ok tt)
  /\ project_item unschooled pd = (pd, Ok tt)
  /\ for_each ([schooled] ++ untitled :: [schooled]) (item_body Experience) pd
     = for_each ([schooled] ++ [schooled]) (item_body Experience) pd
  /\ education_item schooled pd
     = setitem_in "Education" "Cambridge" "" pd
  /\ (exists entry key_element,
        In entry (section_items Education page)
        /\ ~ lacks_required Education entry
        /\ Soup.select_one sel_school entry = Some key_element
        /\ stripped_text key_element = "Cambridge")
  /\ PyDict.get "Education" (fst (extract_education bare pd)) = Some (VDict [])
  /\ (exists d,
        PyDict.get "Education" (fst (extract_education page pd))
        = Some (VDict d)
        /\ PyDict.get "Cambridge" d = Some "").
Proof.
  intros pd untitled unschooled school schooled page bare.
  pose proof (entries_missing_required_field_are_skipped untitled pd)
    as [Hexp [_ [_ [_ [Hskip [_ [_ [Hfrom [Hnone [Hedu _]]]]]]]]]].
  pose proof (entries_missing_required_field_are_skipped unschooled pd)
    as [_ [Hschool [Hcert [Hproj _]]]].
  pose proof (entries_missing_required_field_are_skipped schooled pd)
    as [_ [_ [_ [_ [_ [Hdeg _]]]]]].
  set (items := section_items Education page).
  set (entry := nth 0 items page).
  set (school_element := hd page (Soup.select sel_school entry)).
  split; [apply Hexp; left; reflexivity|].
  split; [apply Hschool; reflexivity|].
  split; [apply Hcert; left; reflexivity|].
  split; [apply Hproj; reflexivity|].
  split; [apply Hskip; left; reflexivity|].
  split.
  { apply (Hdeg {| Soup.parents := [Soup.this schooled]; Soup.this := school |});
      reflexivity. }
  split.
  { apply (Hfrom Education page Sim.ada_url [("Cambridge", "")] "Cambridge").
    - vm_compute. reflexivity.
    - left. reflexivity. }
  split.
  { apply (Hnone Education bare Sim.ada_url).
    intros e Hin. vm_compute in Hin. destruct Hin as [<-|[]].
    left. vm_compute. reflexivity. }
  apply (Hedu page Sim.ada_url [] entry (skipn 1 items) school_element).
  - vm_compute. reflexivity.
  - vm_compute. reflexivity.
  - vm_compute. reflexivity.
  - intros later later_school Hin Hs.
    vm_compute in Hin. destruct Hin as [<-|[]].
    vm_compute in Hs. discriminate Hs.
Defined.
